(** * timetracker: a shallow embedding of [time_tracker.py]

    The program is a single Python script.  Its functions are embedded as
    computations in a state-and-exception monad over a [World] record that
    holds the script's globals, the files it writes and the terminal; the
    functions that run as threads ([listen_for_stop], [display_timer], the
    auto-stop timer) are also given as chains of atomic steps, to be
    interleaved.  The parts of the Python library the script relies on
    ([datetime], [json], [termios]/[tty], [threading.Timer]) are modelled in
    the modules [Py], [Json] and [Tty] below, following the library's own
    algorithms.  [main], which only wires the functions together, is left
    out. *)

From Stdlib Require Import ZArith List String Ascii Bool Lia.
Import ListNotations.

Set Warnings "-register-all".

Open Scope string_scope.
Open Scope Z_scope.

(** ** Python library: integers, text, calendar, datetime *)

Module Py.

(** [str(n)] for an integer. *)
Fixpoint digits_fuel (fuel : nat) (n : Z) (acc : string) : string :=
  match fuel with
  | O => acc
  | S fuel' =>
      let acc' := String (ascii_of_nat (48 + Z.to_nat (n mod 10))) acc in
      if n <? 10 then acc' else digits_fuel fuel' (n / 10) acc'
  end.

Definition str_nonneg (n : Z) : string :=
  digits_fuel (S (Z.to_nat (Z.log2 n))) n EmptyString.

Definition str_int (n : Z) : string :=
  if n <? 0 then "-" ++ str_nonneg (- n) else str_nonneg n.

(** [f"{n:02d}"], also what [strftime] prints for [%d %m %H %M %S]. *)
Definition pad2 (n : Z) : string :=
  if (0 <=? n) && (n <? 10) then "0" ++ str_int n else str_int n.

(** [s.lower()] on ASCII letters. *)
Definition lower_ascii (c : ascii) : ascii :=
  let n := nat_of_ascii c in
  if (Nat.leb 65 n && Nat.leb n 90)%bool then ascii_of_nat (n + 32) else c.

Fixpoint lower (s : string) : string :=
  match s with
  | EmptyString => EmptyString
  | String c s' => String (lower_ascii c) (lower s')
  end.

(** [divmod(a, b)] for a positive divisor. *)
Definition divmod (a b : Z) : Z * Z := (a / b, a mod b).

(** *** The proleptic Gregorian calendar of [datetime.py] *)

Definition MINYEAR : Z := 1.
Definition MAXYEAR : Z := 9999.
Definition MAXORDINAL : Z := 3652059.

Definition is_leap (year : Z) : bool :=
  (year mod 4 =? 0) && (negb (year mod 100 =? 0) || (year mod 400 =? 0)).

Definition days_before_year (year : Z) : Z :=
  let y := year - 1 in
  y * 365 + y / 4 - y / 100 + y / 400.

(** [_DAYS_IN_MONTH[month]] and [_DAYS_BEFORE_MONTH[month]]; index 0 holds
    the placeholder -1. *)
Definition DAYS_IN_MONTH (month : Z) : Z :=
  nth (Z.to_nat month) [-1; 31; 28; 31; 30; 31; 30; 31; 31; 30; 31; 30; 31] (-1).

Definition DAYS_BEFORE_MONTH (month : Z) : Z :=
  nth (Z.to_nat month)
      [-1; 0; 31; 59; 90; 120; 151; 181; 212; 243; 273; 304; 334] (-1).

Definition days_in_month (year month : Z) : Z :=
  if (month =? 2) && is_leap year then 29 else DAYS_IN_MONTH month.

Definition days_before_month (year month : Z) : Z :=
  DAYS_BEFORE_MONTH month + (if (2 <? month) && is_leap year then 1 else 0).

Definition ymd2ord (year month day : Z) : Z :=
  days_before_year year + days_before_month year month + day.

Definition DI400Y : Z := 146097.
Definition DI100Y : Z := 36524.
Definition DI4Y : Z := 1461.

Definition ord2ymd (ordinal : Z) : Z * Z * Z :=
  let n := ordinal - 1 in
  let '(n400, n) := divmod n DI400Y in
  let year := n400 * 400 + 1 in
  let '(n100, n) := divmod n DI100Y in
  let '(n4, n) := divmod n DI4Y in
  let '(n1, n) := divmod n 365 in
  let year := year + n100 * 100 + n4 * 4 + n1 in
  if (n1 =? 4) || (n100 =? 4) then (year - 1, 12, 31)
  else
    let leapyear := (n1 =? 3) && (negb (n4 =? 24) || (n100 =? 3)) in
    let month := Z.shiftr (n + 50) 5 in
    let preceding :=
      DAYS_BEFORE_MONTH month + (if (2 <? month) && leapyear then 1 else 0) in
    let '(month, preceding) :=
      if n <? preceding
      then (month - 1,
            preceding - (DAYS_IN_MONTH (month - 1)
                         + (if (month - 1 =? 2) && leapyear then 1 else 0)))
      else (month, preceding) in
    (year, month, n - preceding + 1).

(** The last part of [ord2ymd] on its own: the month and the day of day [n]
    of a year, [n] counted from 0. *)
Definition month_day (n : Z) (leapyear : bool) : Z * Z :=
  let month := Z.shiftr (n + 50) 5 in
  let preceding :=
    DAYS_BEFORE_MONTH month + (if (2 <? month) && leapyear then 1 else 0) in
  let '(month, preceding) :=
    if n <? preceding
    then (month - 1,
          preceding - (DAYS_IN_MONTH (month - 1)
                       + (if (month - 1 =? 2) && leapyear then 1 else 0)))
    else (month, preceding) in
  (month, n - preceding + 1).

(** The check that [month_day] lands on day [n]: run over a whole year below. *)
Definition month_day_ok (leapyear : bool) (n : nat) : bool :=
  let '(m, d) := month_day (Z.of_nat n) leapyear in
  (DAYS_BEFORE_MONTH m + (if (2 <? m) && leapyear then 1 else 0) + d
   =? Z.of_nat n + 1)
  && (1 <=? m) && (m <=? 12) && (1 <=? d).

(** *** [datetime], [time] and [timedelta] *)

(** A naive [datetime] object: the seven fields the class stores. *)
Record datetime : Type := mk_datetime {
  year : Z; month : Z; day : Z;
  hour : Z; minute : Z; second : Z; microsecond : Z
}.

(** The invariant the [datetime] constructor enforces. *)
Definition valid_datetime (d : datetime) : bool :=
  (MINYEAR <=? year d) && (year d <=? MAXYEAR)
  && (1 <=? month d) && (month d <=? 12)
  && (1 <=? day d) && (day d <=? days_in_month (year d) (month d))
  && (0 <=? hour d) && (hour d <? 24)
  && (0 <=? minute d) && (minute d <? 60)
  && (0 <=? second d) && (second d <? 60)
  && (0 <=? microsecond d) && (microsecond d <? 1000000).

Definition toordinal (d : datetime) : Z := ymd2ord (year d) (month d) (day d).

(** [d.weekday()]: Monday is 0, Sunday is 6. *)
Definition weekday (d : datetime) : Z := (toordinal d + 6) mod 7.

(** A [timedelta], held as its total number of microseconds (the class keeps
    the same quantity split into days, seconds and microseconds). *)
Definition timedelta : Type := Z.

Definition US_PER_SECOND : Z := 1000000.
Definition US_PER_DAY : Z := 86400 * US_PER_SECOND.

Definition mk_timedelta (days hours minutes seconds : Z) : timedelta :=
  (((days * 24 + hours) * 60 + minutes) * 60 + seconds) * US_PER_SECOND.

(** Microseconds since the start of day 0 of the calendar; [datetime]
    arithmetic goes through this quantity. *)
Definition to_us (d : datetime) : Z :=
  ((toordinal d * 86400 + hour d * 3600 + minute d * 60 + second d)
   * US_PER_SECOND) + microsecond d.

(** [a - b] for two datetimes. *)
Definition datetime_diff (a b : datetime) : timedelta := to_us a - to_us b.

(** [d + delta]; [None] stands for [OverflowError("date value out of range")]. *)
Definition datetime_add (d : datetime) (delta : timedelta) : option datetime :=
  let total := to_us d + delta in
  let '(days, rest) := divmod total US_PER_DAY in
  let '(secs, us) := divmod rest US_PER_SECOND in
  let '(h, rem) := divmod secs 3600 in
  let '(m, s) := divmod rem 60 in
  if (0 <? days) && (days <=? MAXORDINAL) then
    let '(y, mo, dd) := ord2ymd days in
    Some (mk_datetime y mo dd h m s us)
  else None.

(** [d.replace(hour=h, minute=m, second=0, microsecond=0)]. *)
Definition replace_time (d : datetime) (h m : Z) : datetime :=
  mk_datetime (year d) (month d) (day d) h m 0 0.

(** [a.time() > b.time()]: the time-of-day fields compared as a tuple. *)
Definition time_us (d : datetime) : Z :=
  ((hour d * 3600 + minute d * 60 + second d) * US_PER_SECOND) + microsecond d.

Definition time_gt (a b : datetime) : bool := time_us b <? time_us a.

(** *** [int(delta.total_seconds())]

    [total_seconds()] is the integer microsecond count divided by [10**6]
    with Python's true division, so the result is the binary64 number nearest
    to the exact quotient (ties to even).  A non-negative binary64 value is
    kept here as [mant * 2^expo]. *)

Definition round_half_even (n d : Z) : Z :=
  let q := n / d in
  let r := n mod d in
  if (d <? 2 * r) || ((2 * r =? d) && Z.odd q) then q + 1 else q.

(** The scaled quotient [a / (b * 2^e)] rounded to an integer. *)
Definition scaled_quotient (a b e : Z) : Z :=
  if e <? 0 then round_half_even (a * 2 ^ (- e)) b
  else round_half_even a (b * 2 ^ e).

(** Correctly rounded [a / b] for [0 < a], [0 < b]: the exponent is chosen so
    that the mantissa has 53 bits. *)
Definition true_divide_pos (a b : Z) : Z * Z :=
  let e0 := Z.log2 a - Z.log2 b - 53 in
  let e := if 2 ^ 53 <=? (if e0 <? 0 then (a * 2 ^ (- e0)) / b
                          else a / (b * 2 ^ e0))
           then e0 + 1 else e0 in
  (scaled_quotient a b e, e).

(** [int(x)] of a non-negative binary64 value: truncation. *)
Definition int_of_float (x : Z * Z) : Z :=
  let '(m, e) := x in
  if e <? 0 then m / 2 ^ (- e) else m * 2 ^ e.

Definition int_total_seconds (delta : timedelta) : Z :=
  if delta =? 0 then 0
  else if 0 <? delta then int_of_float (true_divide_pos delta US_PER_SECOND)
  else - int_of_float (true_divide_pos (- delta) US_PER_SECOND).

(** *** [strftime] for the formats the script uses *)

Definition DAY_NAMES : list string :=
  ["Monday"; "Tuesday"; "Wednesday"; "Thursday"; "Friday"; "Saturday"; "Sunday"].

(** ['%d-%m-%Y'] *)
Definition strftime_dmY (d : datetime) : string :=
  pad2 (day d) ++ "-" ++ pad2 (month d) ++ "-" ++ str_int (year d).

(** ['%Y-%m-%d'] *)
Definition strftime_Ymd (d : datetime) : string :=
  str_int (year d) ++ "-" ++ pad2 (month d) ++ "-" ++ pad2 (day d).

(** ['%H:%M:%S'] *)
Definition strftime_HMS (d : datetime) : string :=
  pad2 (hour d) ++ ":" ++ pad2 (minute d) ++ ":" ++ pad2 (second d).

(** ['%d-%m-%Y %H:%M:%S'] *)
Definition strftime_dmY_HMS (d : datetime) : string :=
  strftime_dmY d ++ " " ++ strftime_HMS d.

(** ['%A %H:%M:%S'] *)
Definition strftime_A_HMS (d : datetime) : string :=
  nth (Z.to_nat (weekday d)) DAY_NAMES EmptyString ++ " " ++ strftime_HMS d.

(** *** [datetime.strptime] for the formats the script uses

    [strptime] starts from the defaults year 1900, month 1, day 1 and time
    00:00:00 and overwrites the fields the format mentions.  A weekday parsed
    with [%A] is only used together with a week number; on its own it does
    not change the date, so the returned [datetime] is 1 January 1900.
    [None] stands for [ValueError]. *)

Fixpoint index_of (s : string) (l : list string) : option Z :=
  match l with
  | [] => None
  | x :: l' =>
      if String.eqb s x then Some 0
      else match index_of s l' with Some i => Some (i + 1) | None => None end
  end.

(** ['%A'] *)
Definition strptime_A (s : string) : option datetime :=
  match index_of (lower s) (map lower DAY_NAMES) with
  | Some _ => Some (mk_datetime 1900 1 1 0 0 0 0)
  | None => None
  end.

Definition digit_of (c : ascii) : option Z :=
  let n := nat_of_ascii c in
  if (Nat.leb 48 n && Nat.leb n 57)%bool then Some (Z.of_nat n - 48) else None.

(** The regular expressions for [%H] ([2[0-3]|[0-1]\d|\d]) and [%M]
    ([[0-5]\d|\d]): the alternatives in order, each with the text left. *)
Definition two_digit_prefix (s : string) (tens_max : Z) (limit : Z)
  : list (Z * string) :=
  match s with
  | String c1 (String c2 rest) =>
      match digit_of c1, digit_of c2 with
      | Some a, Some b =>
          if (a <=? tens_max) && (10 * a + b <? limit)
          then [(10 * a + b, rest)] else []
      | _, _ => []
      end
  | _ => []
  end.

Definition one_digit_prefix (s : string) : list (Z * string) :=
  match s with
  | String c rest =>
      match digit_of c with Some a => [(a, rest)] | None => [] end
  | _ => []
  end.

Definition match_H (s : string) : list (Z * string) :=
  (two_digit_prefix s 2 24 ++ one_digit_prefix s)%list.

Definition match_M (s : string) : list (Z * string) :=
  (two_digit_prefix s 5 60 ++ one_digit_prefix s)%list.

Definition first_some {A B} (f : A -> option B) (l : list A) : option B :=
  fold_right (fun a acc => match f a with Some b => Some b | None => acc end)
             None l.

(** ['%H:%M'] *)
Definition strptime_HM (s : string) : option datetime :=
  first_some
    (fun '(h, rest) =>
       match rest with
       | String ":" rest' =>
           first_some
             (fun '(m, tail) =>
                match tail with
                | EmptyString => Some (mk_datetime 1900 1 1 h m 0 0)
                | _ => None
                end)
             (match_M rest')
       | _ => None
       end)
    (match_H s).

End Py.

(** ** Python values read from and written to JSON *)

Module Json.

(** The objects [json.load] builds: [None], [bool], [int], [float] (kept as
    its literal), [str], [list] and [dict] (insertion ordered, keys unique). *)
Inductive value : Type :=
| JNull
| JBool (b : bool)
| JInt (n : Z)
| JFloat (literal : string)
| JStr (s : string)
| JArr (items : list value)
| JObj (fields : list (string * value)).

(** [d[key]] on the fields of a dict. *)
Fixpoint dict_get (key : string) (fields : list (string * value)) : option value :=
  match fields with
  | [] => None
  | (k, v) :: rest => if String.eqb k key then Some v else dict_get key rest
  end.

(** [d[key] = v]: an existing key keeps its position. *)
Fixpoint dict_set (key : string) (v : value) (fields : list (string * value))
  : list (string * value) :=
  match fields with
  | [] => [(key, v)]
  | (k, v0) :: rest =>
      if String.eqb k key then (k, v) :: rest else (k, v0) :: dict_set key v rest
  end.

(** *** A decoder and an encoder for JSON text

    [json.load] and [json.dump] are library code; the program's functions
    below take them from the environment.  [loads] and [dumps] follow the
    library on the bytes of a file, to run the model on concrete files:
    the file is read as UTF-8 text first, the text is decoded by recursive
    descent, and [dumps] is the [indent=4] encoder with [ensure_ascii].

    A [str] is held as the bytes of its UTF-8 form.  A lone surrogate, which
    only a [\u] escape can bring into a [str], is held as the three bytes
    that the [surrogatepass] handler gives it.  A [float] is held as the
    literal it was read from and written back as that literal. *)

(** Why [json.load] gives up. *)
Inductive decode_error : Type :=
| NotText        (** the bytes are not UTF-8: [UnicodeDecodeError] *)
| Malformed      (** the text is not JSON: [json.JSONDecodeError] *)
| TooDeep        (** lists and dicts nested beyond the limit: [RecursionError] *)
| TooManyDigits. (** an integer beyond the digit limit: [ValueError] *)

Inductive decoded (A : Type) : Type :=
| Decoded (a : A)
| Refused (e : decode_error).
Arguments Decoded {A} a.
Arguments Refused {A} e.

(** How deep lists and dicts may nest before the decoder raises
    [RecursionError].  CPython's own bound depends on the version and on the
    call stack at the time; this is its default recursion limit. *)
Definition recursion_limit : nat := 1000.

(** The longest integer literal [int] converts (Python 3.11 and later). *)
Definition max_str_digits : nat := 4300.

Definition byte_code (c : ascii) : Z := Z.of_nat (nat_of_ascii c).

Definition byte_of (n : Z) : ascii := ascii_of_nat (Z.to_nat n).

Definition in_range (lo hi : Z) (c : ascii) : bool :=
  ((lo <=? byte_code c) && (byte_code c <=? hi))%bool.

Definition is_continuation (c : ascii) : bool := in_range 128 191 c.

(** Whether the bytes are well-formed UTF-8: no overlong form, no surrogate,
    nothing above U+10FFFF. *)
Fixpoint utf8_valid (s : string) : bool :=
  match s with
  | EmptyString => true
  | String b0 r0 =>
      if byte_code b0 <? 128 then utf8_valid r0 else
      match r0 with
      | EmptyString => false
      | String b1 r1 =>
          if in_range 194 223 b0 then (is_continuation b1 && utf8_valid r1)%bool
          else
          match r1 with
          | EmptyString => false
          | String b2 r2 =>
              if in_range 224 239 b0 then
                ((if byte_code b0 =? 224 then in_range 160 191 b1
                  else if byte_code b0 =? 237 then in_range 128 159 b1
                  else is_continuation b1)
                 && is_continuation b2 && utf8_valid r2)%bool
              else
              match r2 with
              | EmptyString => false
              | String b3 r3 =>
                  (in_range 240 244 b0
                   && (if byte_code b0 =? 240 then in_range 144 191 b1
                       else if byte_code b0 =? 244 then in_range 128 143 b1
                       else is_continuation b1)
                   && is_continuation b2 && is_continuation b3
                   && utf8_valid r3)%bool
              end
          end
      end
  end.

(** The UTF-8 bytes of a code point (surrogates included). *)
Definition utf8_encode (cp : Z) : string :=
  if cp <? 128 then String (byte_of cp) EmptyString
  else if cp <? 2048 then
    String (byte_of (192 + cp / 64))
      (String (byte_of (128 + cp mod 64)) EmptyString)
  else if cp <? 65536 then
    String (byte_of (224 + cp / 4096))
      (String (byte_of (128 + cp / 64 mod 64))
         (String (byte_of (128 + cp mod 64)) EmptyString))
  else
    String (byte_of (240 + cp / 262144))
      (String (byte_of (128 + cp / 4096 mod 64))
         (String (byte_of (128 + cp / 64 mod 64))
            (String (byte_of (128 + cp mod 64)) EmptyString))).

(** The code points of a [str] held as bytes; a byte that opens no sequence
    stands for itself. *)
Fixpoint code_points (s : string) : list Z :=
  match s with
  | EmptyString => []
  | String b0 r0 =>
      match r0 with
      | EmptyString => byte_code b0 :: code_points r0
      | String b1 r1 =>
          if (in_range 192 223 b0 && is_continuation b1)%bool then
            ((byte_code b0 - 192) * 64 + (byte_code b1 - 128)) :: code_points r1
          else
          match r1 with
          | EmptyString => byte_code b0 :: code_points r0
          | String b2 r2 =>
              if (in_range 224 239 b0 && is_continuation b1
                  && is_continuation b2)%bool then
                ((byte_code b0 - 224) * 4096 + (byte_code b1 - 128) * 64
                 + (byte_code b2 - 128)) :: code_points r2
              else
              match r2 with
              | EmptyString => byte_code b0 :: code_points r0
              | String b3 r3 =>
                  if (in_range 240 247 b0 && is_continuation b1
                      && is_continuation b2 && is_continuation b3)%bool then
                    ((byte_code b0 - 240) * 262144 + (byte_code b1 - 128) * 4096
                     + (byte_code b2 - 128) * 64 + (byte_code b3 - 128))
                    :: code_points r3
                  else byte_code b0 :: code_points r0
              end
          end
      end
  end.

Definition is_ws (c : ascii) : bool :=
  let n := nat_of_ascii c in
  (Nat.eqb n 32 || Nat.eqb n 9 || Nat.eqb n 10 || Nat.eqb n 13)%bool.

Fixpoint skip_ws (s : string) : string :=
  match s with
  | String c rest => if is_ws c then skip_ws rest else s
  | EmptyString => s
  end.

Definition is_digit (c : ascii) : bool :=
  let n := nat_of_ascii c in (Nat.leb 48 n && Nat.leb n 57)%bool.

(** Splits off the longest prefix of digits. *)
Fixpoint take_digits (s : string) : string * string :=
  match s with
  | String c rest =>
      if is_digit c then let '(d, r) := take_digits rest in (String c d, r)
      else (EmptyString, s)
  | EmptyString => (EmptyString, s)
  end.

Fixpoint int_of_digits (s : string) (acc : Z) : Z :=
  match s with
  | String c rest => int_of_digits rest (10 * acc + (Z.of_nat (nat_of_ascii c) - 48))
  | EmptyString => acc
  end.

Fixpoint strip_prefix (p s : string) : option string :=
  match p, s with
  | EmptyString, _ => Some s
  | String a p', String b s' => if Ascii.eqb a b then strip_prefix p' s' else None
  | _, _ => None
  end.

(** A number: an optional minus sign, an integer part without leading
    zeros, an optional fraction and an optional exponent.  An integer goes
    through [int], which refuses more than [max_str_digits] digits. *)
Definition parse_number (s : string) : decoded (value * string) :=
  let '(neg, s1) := match s with
                    | String "-" r => (true, r)
                    | _ => (false, s)
                    end in
  let '(ds, s2) := take_digits s1 in
  match ds with
  | EmptyString => Refused Malformed
  | String d0 more =>
      let '(ds, s2) := if Ascii.eqb d0 "0" then ("0", (more ++ s2)%string)
                       else (ds, s2) in
      let '(frac, s3) :=
        match s2 with
        | String "." r =>
            let '(fs, r') := take_digits r in
            match fs with
            | EmptyString => (EmptyString, s2)
            | _ => (String "." fs, r')
            end
        | _ => (EmptyString, s2)
        end in
      let '(expo, s4) :=
        match s3 with
        | String e r =>
            if (Ascii.eqb e "e" || Ascii.eqb e "E")%bool then
              let '(sign, r1) :=
                match r with
                | String sg r' =>
                    if (Ascii.eqb sg "+" || Ascii.eqb sg "-")%bool
                    then (String sg EmptyString, r') else (EmptyString, r)
                | EmptyString => (EmptyString, r)
                end in
              let '(es, r2) := take_digits r1 in
              match es with
              | EmptyString => (EmptyString, s3)
              | _ => ((String e sign ++ es)%string, r2)
              end
            else (EmptyString, s3)
        | EmptyString => (EmptyString, s3)
        end in
      let sign := if neg then "-" else EmptyString in
      match frac, expo with
      | EmptyString, EmptyString =>
          if Nat.ltb max_str_digits (String.length ds) then Refused TooManyDigits
          else
            let n := int_of_digits ds 0 in
            Decoded (JInt (if neg then - n else n), s4)
      | _, _ => Decoded (JFloat (sign ++ ds ++ frac ++ expo)%string, s4)
      end
  end.

Definition hex_of (c : ascii) : option Z :=
  let n := nat_of_ascii c in
  if (Nat.leb 48 n && Nat.leb n 57)%bool then Some (Z.of_nat n - 48)
  else if (Nat.leb 97 n && Nat.leb n 102)%bool then Some (Z.of_nat n - 87)
  else if (Nat.leb 65 n && Nat.leb n 70)%bool then Some (Z.of_nat n - 55)
  else None.

Definition dquote : ascii := ascii_of_nat 34.
Definition backslash : ascii := ascii_of_nat 92.

(** The character an escape letter stands for. *)
Definition unescape (e : ascii) : option ascii :=
  if Ascii.eqb e dquote then Some dquote
  else if Ascii.eqb e backslash then Some backslash
  else if Ascii.eqb e "/" then Some "/"%char
  else if Ascii.eqb e "b" then Some (ascii_of_nat 8)
  else if Ascii.eqb e "f" then Some (ascii_of_nat 12)
  else if Ascii.eqb e "n" then Some (ascii_of_nat 10)
  else if Ascii.eqb e "r" then Some (ascii_of_nat 13)
  else if Ascii.eqb e "t" then Some (ascii_of_nat 9)
  else None.

(** The code point that the four hexadecimal digits of a [\u] escape give. *)
Definition parse_u_escape (s : string) : option (Z * string) :=
  match s with
  | String h1 (String h2 (String h3 (String h4 rest))) =>
      match hex_of h1, hex_of h2, hex_of h3, hex_of h4 with
      | Some a, Some b, Some c, Some d =>
          Some (((a * 16 + b) * 16 + c) * 16 + d, rest)
      | _, _, _, _ => None
      end
  | _ => None
  end.

(** After the escape of a high surrogate: a [\u] escape of a low surrogate
    right behind it makes one code point of the two; anything else leaves
    the high surrogate alone. *)
Definition join_surrogates (cp : Z) (rest : string) : Z * string :=
  if ((55296 <=? cp) && (cp <=? 56319))%bool then
    match rest with
    | String b (String u rest') =>
        if (Ascii.eqb b backslash && Ascii.eqb u "u")%bool then
          match parse_u_escape rest' with
          | Some (cp2, rest'') =>
              if ((56320 <=? cp2) && (cp2 <=? 57343))%bool
              then (65536 + (cp - 55296) * 1024 + (cp2 - 56320), rest'')
              else (cp, rest)
          | None => (cp, rest)
          end
        else (cp, rest)
    | _ => (cp, rest)
    end
  else (cp, rest).

(** The body of a string after its opening quote; control characters are
    refused.  [None] stands for [json.JSONDecodeError]. *)
Fixpoint parse_string_body (fuel : nat) (s : string) : option (string * string) :=
  match fuel with
  | O => None
  | S fuel' =>
      let continue (t : string) (rest : string) :=
        match parse_string_body fuel' rest with
        | Some (t', r) => Some ((t ++ t')%string, r)
        | None => None
        end in
      match s with
      | EmptyString => None
      | String c rest =>
          if Ascii.eqb c dquote then Some (EmptyString, rest)
          else if Ascii.eqb c backslash then
            match rest with
            | EmptyString => None
            | String e rest' =>
                if Ascii.eqb e "u" then
                  match parse_u_escape rest' with
                  | Some (cp, rest'') =>
                      let '(cp', rest3) := join_surrogates cp rest'' in
                      continue (utf8_encode cp') rest3
                  | None => None
                  end
                else
                  match unescape e with
                  | Some c' => continue (String c' EmptyString) rest'
                  | None => None
                  end
            end
          else if Nat.ltb (nat_of_ascii c) 32 then None
          else continue (String c EmptyString) rest
      end
  end.

(** A literal name: [null], [true], [false] and the three names Python adds. *)
Definition parse_literal (s : string) : option (value * string) :=
  match strip_prefix "null" s with
  | Some r => Some (JNull, r)
  | None =>
  match strip_prefix "true" s with
  | Some r => Some (JBool true, r)
  | None =>
  match strip_prefix "false" s with
  | Some r => Some (JBool false, r)
  | None =>
  match strip_prefix "NaN" s with
  | Some r => Some (JFloat "NaN", r)
  | None =>
  match strip_prefix "Infinity" s with
  | Some r => Some (JFloat "Infinity", r)
  | None =>
  match strip_prefix "-Infinity" s with
  | Some r => Some (JFloat "-Infinity", r)
  | None => None
  end end end end end end.

(** One value at the head of [s]; [depth] is how many more lists and dicts
    may be entered. *)
Fixpoint parse_value (fuel depth : nat) (s : string) : decoded (value * string) :=
  match fuel with
  | O => Refused Malformed
  | S fuel' =>
      let parse_items (depth' : nat) :=
        fix items (n : nat) (s : string) : decoded (list value * string) :=
          match n with
          | O => Refused Malformed
          | S n' =>
              match parse_value fuel' depth' (skip_ws s) with
              | Refused e => Refused e
              | Decoded (v, r) =>
                  match skip_ws r with
                  | String "," r' =>
                      match items n' r' with
                      | Decoded (vs, r'') => Decoded (v :: vs, r'')
                      | Refused e => Refused e
                      end
                  | String "]" r' => Decoded ([v], r')
                  | _ => Refused Malformed
                  end
              end
          end in
      let parse_members (depth' : nat) :=
        fix members (n : nat) (s : string)
          : decoded (list (string * value) * string) :=
          match n with
          | O => Refused Malformed
          | S n' =>
              match skip_ws s with
              | String q r0 =>
                  if negb (Ascii.eqb q dquote) then Refused Malformed else
                  match parse_string_body (S (String.length r0)) r0 with
                  | None => Refused Malformed
                  | Some (k, r1) =>
                      match skip_ws r1 with
                      | String ":" r2 =>
                          match parse_value fuel' depth' (skip_ws r2) with
                          | Refused e => Refused e
                          | Decoded (v, r3) =>
                              match skip_ws r3 with
                              | String "," r4 =>
                                  match members n' r4 with
                                  | Decoded (kvs, r5) => Decoded ((k, v) :: kvs, r5)
                                  | Refused e => Refused e
                                  end
                              | String "}" r4 => Decoded ([(k, v)], r4)
                              | _ => Refused Malformed
                              end
                          end
                      | _ => Refused Malformed
                      end
                  end
              | EmptyString => Refused Malformed
              end
          end in
      match s with
      | EmptyString => Refused Malformed
      | String c rest =>
          if Ascii.eqb c dquote then
            match parse_string_body (S (String.length rest)) rest with
            | Some (t, r) => Decoded (JStr t, r)
            | None => Refused Malformed
            end
          else if Ascii.eqb c "[" then
            match depth with
            | O => Refused TooDeep
            | S depth' =>
                match skip_ws rest with
                | String "]" r => Decoded (JArr [], r)
                | _ => match parse_items depth' (S (String.length rest)) rest with
                       | Decoded (vs, r) => Decoded (JArr vs, r)
                       | Refused e => Refused e
                       end
                end
            end
          else if Ascii.eqb c "{" then
            match depth with
            | O => Refused TooDeep
            | S depth' =>
                match skip_ws rest with
                | String "}" r => Decoded (JObj [], r)
                | _ => match parse_members depth' (S (String.length rest)) rest with
                       | Decoded (kvs, r) =>
                           Decoded (JObj (fold_left
                                            (fun d kv => dict_set (fst kv) (snd kv) d)
                                            kvs []), r)
                       | Refused e => Refused e
                       end
                end
            end
          else
            match parse_literal s with
            | Some r => Decoded r
            | None => parse_number s
            end
      end
  end.

(** [json.load] on the bytes of a file opened as UTF-8 text: the bytes are
    decoded first, then one value is read, with white space around it and
    nothing after it. *)
Definition loads (s : string) : decoded value :=
  if negb (utf8_valid s) then Refused NotText
  else
    match parse_value (S (String.length s)) recursion_limit (skip_ws s) with
    | Decoded (v, r) =>
        match skip_ws r with
        | EmptyString => Decoded v
        | _ => Refused Malformed
        end
    | Refused e => Refused e
    end.

Definition hex_digit (n : Z) : ascii :=
  ascii_of_nat (Z.to_nat (if n <? 10 then 48 + n else 87 + n)).

(** [\uXXXX] for a code point below 65536. *)
Definition u_escape (n : Z) : string :=
  String backslash
    (String "u"
       (String (hex_digit (n / 4096))
          (String (hex_digit (n / 256 mod 16))
             (String (hex_digit (n / 16 mod 16))
                (String (hex_digit (n mod 16)) EmptyString))))).

(** [ensure_ascii]: printable ASCII stays, the rest is escaped, a code point
    above 65535 as a surrogate pair. *)
Definition escape_code_point (n : Z) : string :=
  if n =? 34 then String backslash (String dquote EmptyString)
  else if n =? 92 then String backslash (String backslash EmptyString)
  else if n =? 10 then "\n"
  else if n =? 13 then "\r"
  else if n =? 9 then "\t"
  else if n =? 8 then "\b"
  else if n =? 12 then "\f"
  else if ((32 <=? n) && (n <=? 126))%bool then String (byte_of n) EmptyString
  else if n <? 65536 then u_escape n
  else (u_escape (55296 + (n - 65536) / 1024)
        ++ u_escape (56320 + (n - 65536) mod 1024))%string.

Fixpoint escape_all (l : list Z) : string :=
  match l with
  | [] => EmptyString
  | n :: rest => (escape_code_point n ++ escape_all rest)%string
  end.

Definition escape (s : string) : string := escape_all (code_points s).

Definition quote (s : string) : string :=
  String dquote (escape s ++ String dquote EmptyString).

Fixpoint spaces (n : nat) : string :=
  match n with O => EmptyString | S n' => String " " (spaces n') end.

Definition newline_indent (level : nat) : string :=
  String (ascii_of_nat 10) (spaces (4 * level)).

Fixpoint join (sep : string) (l : list string) : string :=
  match l with
  | [] => EmptyString
  | [x] => x
  | x :: rest => (x ++ sep ++ join sep rest)%string
  end.

(** [json.dumps(v, indent=4)] at nesting depth [level]. *)
Fixpoint dumps_at (level : nat) (v : value) : string :=
  match v with
  | JNull => "null"
  | JBool true => "true"
  | JBool false => "false"
  | JInt n => Py.str_int n
  | JFloat literal => literal
  | JStr s => quote s
  | JArr [] => "[]"
  | JArr items =>
      ("[" ++ newline_indent (S level)
       ++ join ("," ++ newline_indent (S level)) (map (dumps_at (S level)) items)
       ++ newline_indent level ++ "]")%string
  | JObj [] => "{}"
  | JObj fields =>
      ("{" ++ newline_indent (S level)
       ++ join ("," ++ newline_indent (S level))
               (map (fun kv => (quote (fst kv) ++ ": " ++ dumps_at (S level) (snd kv))%string)
                    fields)
       ++ newline_indent level ++ "}")%string
  end.

Definition dumps (v : value) : string := dumps_at 0 v.

End Json.

(** ** The terminal: [termios] attributes and [tty.setraw] *)

Module Tty.

(** What [termios.tcgetattr] returns:
    [[iflag, oflag, cflag, lflag, ispeed, ospeed, cc]]. *)
Record attrs : Type := mk_attrs {
  iflag : Z; oflag : Z; cflag : Z; lflag : Z;
  ispeed : Z; ospeed : Z; cc : list Z
}.

Definition BRKINT : Z := 2.
Definition ICRNL : Z := 256.
Definition INPCK : Z := 16.
Definition ISTRIP : Z := 32.
Definition IXON : Z := 1024.
Definition OPOST : Z := 1.
Definition CSIZE : Z := 48.
Definition PARENB : Z := 256.
Definition CS8 : Z := 48.
Definition ECHO : Z := 8.
Definition ICANON : Z := 2.
Definition IEXTEN : Z := 32768.
Definition ISIG : Z := 1.
Definition VMIN : nat := 6.
Definition VTIME : nat := 5.

(** [l[i] = v]; [None] stands for [IndexError]. *)
Fixpoint list_set (l : list Z) (i : nat) (v : Z) : option (list Z) :=
  match l, i with
  | [], _ => None
  | _ :: rest, O => Some (v :: rest)
  | x :: rest, S i' =>
      match list_set rest i' v with
      | Some rest' => Some (x :: rest')
      | None => None
      end
  end.

(** The mode [tty.setraw] computes from the current one ([x & ~m] is
    [Z.ldiff x m]). *)
Definition raw_mode (mode : attrs) : option attrs :=
  let i := Z.ldiff (iflag mode)
             (Z.lor BRKINT (Z.lor ICRNL (Z.lor INPCK (Z.lor ISTRIP IXON)))) in
  let o := Z.ldiff (oflag mode) OPOST in
  let c := Z.ldiff (cflag mode) (Z.lor CSIZE PARENB) in
  let c := Z.lor c CS8 in
  let l := Z.ldiff (lflag mode)
             (Z.lor ECHO (Z.lor ICANON (Z.lor IEXTEN ISIG))) in
  match list_set (cc mode) VMIN 1 with
  | None => None
  | Some cc1 =>
      match list_set cc1 VTIME 0 with
      | None => None
      | Some cc2 => Some (mk_attrs i o c l (ispeed mode) (ospeed mode) cc2)
      end
  end.

End Tty.

(** ** The script *)

Import Py Json.

(** Exceptions the script can meet. *)
Inductive exn : Type :=
| OSError
| JSONDecodeError
| AttributeError
| KeyError
| TypeError
| ValueError
| IndexError
| OverflowError
| UnicodeDecodeError
| RecursionError
| TermiosError.

Inductive outcome (A : Type) : Type :=
| Returns (a : A)
| Raises (e : exn).
Arguments Returns {A} a.
Arguments Raises {A} e.

(** The functions handed to [threading.Timer] and [threading.Thread]. *)
Inductive callback : Type := AutoStop | GenerateWeeklyCsv.
Inductive thread_target : Type := DisplayTimer | ListenForStop.

(** A started [threading.Timer]: the delay in microseconds, the function, the
    [finished] event ([cancel()] sets it) and whether the thread is alive. *)
Record Timer : Type := mk_Timer {
  interval : timedelta;
  function : callback;
  finished : bool;
  alive : bool
}.

(** A row handed to [csv.writer.writerow]. *)
Definition csv_row : Type := list value.

(** The process and the files it touches.  [auto_stop_timer] refers to its
    [Timer] object by position in [timers]. *)
Record World : Type := mk_World {
  is_tracking : bool;
  start_time : option datetime;
  stop_event : bool;
  auto_stop_timer : option nat;
  timers : list Timer;
  threads : list thread_target;
  time_entries_file : option string;
  master_csv_file : option (list csv_row);
  weekly_csv_files : list (string * list csv_row);
  log_file : list string;
  tty_attrs : Tty.attrs;
  stdin : string;
  stdout : list string;
  ticks : nat
}.

(** What the script does not control: the wall clock (the successive readings
    of [datetime.now()]), the JSON codec of the library, the home directory
    and which system calls fail in this run.  [json_load] is [json.load] on
    the bytes of a file opened as text: it returns the decoded value or
    raises.  It raises [JSONDecodeError] for text that is not JSON, and other
    exceptions for other contents: [UnicodeDecodeError] for bytes that are no
    text, [RecursionError] for lists nested too deep, [ValueError] for an
    integer of too many digits.  A write that fails is one whose [open] raises
    [OSError], which leaves the file as it was.  [restore_fails] says whether
    the [tcsetattr] call in the [finally] clause of [get_key_press] raises, as
    it does once the terminal has hung up. *)
Record Env : Type := mk_Env {
  clock : nat -> datetime;
  json_load : string -> outcome value;
  json_dump : value -> string;
  home : string;
  store_write_fails : bool;
  csv_append_fails : bool;
  weekly_write_fails : bool;
  log_write_fails : bool;
  tcgetattr_fails : bool;
  setraw_fails : bool;
  stdin_read_fails : bool;
  restore_fails : bool
}.

Definition set_is_tracking (b : bool) (w : World) : World :=
  mk_World b (start_time w) (stop_event w) (auto_stop_timer w) (timers w)
    (threads w) (time_entries_file w) (master_csv_file w) (weekly_csv_files w)
    (log_file w) (tty_attrs w) (stdin w) (stdout w) (ticks w).

Definition set_start_time (t : option datetime) (w : World) : World :=
  mk_World (is_tracking w) t (stop_event w) (auto_stop_timer w) (timers w)
    (threads w) (time_entries_file w) (master_csv_file w) (weekly_csv_files w)
    (log_file w) (tty_attrs w) (stdin w) (stdout w) (ticks w).

Definition set_stop_event (b : bool) (w : World) : World :=
  mk_World (is_tracking w) (start_time w) b (auto_stop_timer w) (timers w)
    (threads w) (time_entries_file w) (master_csv_file w) (weekly_csv_files w)
    (log_file w) (tty_attrs w) (stdin w) (stdout w) (ticks w).

Definition set_auto_stop_timer (t : option nat) (w : World) : World :=
  mk_World (is_tracking w) (start_time w) (stop_event w) t (timers w)
    (threads w) (time_entries_file w) (master_csv_file w) (weekly_csv_files w)
    (log_file w) (tty_attrs w) (stdin w) (stdout w) (ticks w).

Definition set_timers (ts : list Timer) (w : World) : World :=
  mk_World (is_tracking w) (start_time w) (stop_event w) (auto_stop_timer w) ts
    (threads w) (time_entries_file w) (master_csv_file w) (weekly_csv_files w)
    (log_file w) (tty_attrs w) (stdin w) (stdout w) (ticks w).

Definition set_threads (ts : list thread_target) (w : World) : World :=
  mk_World (is_tracking w) (start_time w) (stop_event w) (auto_stop_timer w)
    (timers w) ts (time_entries_file w) (master_csv_file w) (weekly_csv_files w)
    (log_file w) (tty_attrs w) (stdin w) (stdout w) (ticks w).

Definition set_time_entries_file (f : option string) (w : World) : World :=
  mk_World (is_tracking w) (start_time w) (stop_event w) (auto_stop_timer w)
    (timers w) (threads w) f (master_csv_file w) (weekly_csv_files w)
    (log_file w) (tty_attrs w) (stdin w) (stdout w) (ticks w).

Definition set_master_csv_file (f : option (list csv_row)) (w : World) : World :=
  mk_World (is_tracking w) (start_time w) (stop_event w) (auto_stop_timer w)
    (timers w) (threads w) (time_entries_file w) f (weekly_csv_files w)
    (log_file w) (tty_attrs w) (stdin w) (stdout w) (ticks w).

Definition set_weekly_csv_files (fs : list (string * list csv_row)) (w : World)
  : World :=
  mk_World (is_tracking w) (start_time w) (stop_event w) (auto_stop_timer w)
    (timers w) (threads w) (time_entries_file w) (master_csv_file w) fs
    (log_file w) (tty_attrs w) (stdin w) (stdout w) (ticks w).

Definition set_log_file (l : list string) (w : World) : World :=
  mk_World (is_tracking w) (start_time w) (stop_event w) (auto_stop_timer w)
    (timers w) (threads w) (time_entries_file w) (master_csv_file w)
    (weekly_csv_files w) l (tty_attrs w) (stdin w) (stdout w) (ticks w).

Definition set_tty_attrs (a : Tty.attrs) (w : World) : World :=
  mk_World (is_tracking w) (start_time w) (stop_event w) (auto_stop_timer w)
    (timers w) (threads w) (time_entries_file w) (master_csv_file w)
    (weekly_csv_files w) (log_file w) a (stdin w) (stdout w) (ticks w).

Definition set_stdin (s : string) (w : World) : World :=
  mk_World (is_tracking w) (start_time w) (stop_event w) (auto_stop_timer w)
    (timers w) (threads w) (time_entries_file w) (master_csv_file w)
    (weekly_csv_files w) (log_file w) (tty_attrs w) s (stdout w) (ticks w).

Definition set_stdout (l : list string) (w : World) : World :=
  mk_World (is_tracking w) (start_time w) (stop_event w) (auto_stop_timer w)
    (timers w) (threads w) (time_entries_file w) (master_csv_file w)
    (weekly_csv_files w) (log_file w) (tty_attrs w) (stdin w) l (ticks w).

Definition set_ticks (n : nat) (w : World) : World :=
  mk_World (is_tracking w) (start_time w) (stop_event w) (auto_stop_timer w)
    (timers w) (threads w) (time_entries_file w) (master_csv_file w)
    (weekly_csv_files w) (log_file w) (tty_attrs w) (stdin w) (stdout w) n.

(** *** Computations: state passing with exceptions *)

Definition M (A : Type) : Type := World -> outcome A * World.

Definition ret {A} (a : A) : M A := fun w => (Returns a, w).

Definition raise {A} (e : exn) : M A := fun w => (Raises e, w).

Definition bind {A B} (c : M A) (k : A -> M B) : M B :=
  fun w => match c w with
           | (Returns a, w') => k a w'
           | (Raises e, w') => (Raises e, w')
           end.

Notation "x <- c1 ;; c2" := (bind c1 (fun x => c2))
  (at level 61, c1 at next level, right associativity).
Notation "c1 ;; c2" := (bind c1 (fun _ => c2))
  (at level 61, right associativity).

Definition get {A} (f : World -> A) : M A := fun w => (Returns (f w), w).

Definition modify (f : World -> World) : M unit := fun w => (Returns tt, f w).

Definition lift {A} (o : outcome A) : M A := fun w => (o, w).

Definition of_option {A} (e : exn) (o : option A) : outcome A :=
  match o with Some a => Returns a | None => Raises e end.

(** [try: c  except <those for which handles e>: handler]. *)
Definition try_except {A} (c : M A) (handles : exn -> bool) (handler : exn -> M A)
  : M A :=
  fun w => match c w with
           | (Returns a, w') => (Returns a, w')
           | (Raises e, w') =>
               if handles e then handler e w' else (Raises e, w')
           end.

(** [try: c  finally: f]. *)
Definition try_finally {A} (c : M A) (f : M unit) : M A :=
  fun w => match c w with
           | (r, w') =>
               match f w' with
               | (Returns _, w'') => (r, w'')
               | (Raises e, w'') => (Raises e, w'')
               end
           end.

(** [except Exception]: every exception of the model is one. *)
Definition any_exception (e : exn) : bool := true.

Definition is_JSONDecodeError (e : exn) : bool :=
  match e with JSONDecodeError => true | _ => false end.

(** *** Python operations on loaded values *)

(** [v[key]] for a string key. *)
Definition getitem (v : value) (key : string) : outcome value :=
  match v with
  | JObj fields => of_option KeyError (dict_get key fields)
  | _ => Raises TypeError
  end.

(** [v.append(x)]: only a list has the method. *)
Definition list_append (v x : value) : outcome value :=
  match v with
  | JArr items => Returns (JArr (items ++ [x]))
  | _ => Raises AttributeError
  end.

Fixpoint chars (s : string) : list value :=
  match s with
  | EmptyString => []
  | String c rest => JStr (String c EmptyString) :: chars rest
  end.

(** [for x in v]: the elements of a list, the keys of a dict, the characters
    of a string; nothing else is iterable. *)
Definition iterate (v : value) : outcome (list value) :=
  match v with
  | JArr items => Returns items
  | JObj fields => Returns (map (fun kv => JStr (fst kv)) fields)
  | JStr s => Returns (chars s)
  | _ => Raises TypeError
  end.

(** [lo <= v <= hi] for strings [lo] and [hi]: comparing a string with
    anything but a string is a [TypeError]. *)
Definition str_between (lo hi : string) (v : value) : outcome bool :=
  match v with
  | JStr s => Returns (String.leb lo s && String.leb s hi)
  | _ => Raises TypeError
  end.

(** *** Constants *)

Definition WEEKLY_CSV_DAY : string := "Friday".
Definition WEEKLY_CSV_TIME : string := "16:00".
Definition MAX_DURATION : timedelta := mk_timedelta 0 7 40 0.

Definition TIME_ENTRIES_FILE (env : Env) : string :=
  home env ++ "/scripts/time_entries.json".
Definition EXPORT_DIR (env : Env) : string := home env ++ "/scripts/export".
Definition MASTER_CSV_FILE (env : Env) : string :=
  EXPORT_DIR env ++ "/time_tracker_log.csv".

Definition CSV_HEADERS : csv_row :=
  [JStr "Dato"; JStr "Starttid"; JStr "Sluttid"; JStr "Varighed"].

(** *** Input and output *)

(** The line feed that opens most of the script's messages. *)
Definition nl : string := String (ascii_of_nat 10) EmptyString.

(** [f"{e}"] for a caught exception (the library's message is not modelled;
    the class name stands for it). *)
Definition str_exn (e : exn) : string :=
  match e with
  | OSError => "OSError"
  | JSONDecodeError => "JSONDecodeError"
  | AttributeError => "AttributeError"
  | KeyError => "KeyError"
  | TypeError => "TypeError"
  | ValueError => "ValueError"
  | IndexError => "IndexError"
  | OverflowError => "OverflowError"
  | UnicodeDecodeError => "UnicodeDecodeError"
  | RecursionError => "RecursionError"
  | TermiosError => "termios.error"
  end.

(** [datetime.now()]: the next reading of the clock. *)
Definition datetime_now (env : Env) : M datetime :=
  fun w => (Returns (clock env (ticks w)), set_ticks (S (ticks w)) w).

Definition print (message : string) : M unit :=
  modify (fun w => set_stdout (stdout w ++ [message]) w).

(** One line appended to the log file, stamped with the time. *)
Definition log (env : Env) (message : string) : M unit :=
  now <- datetime_now env ;;
  let timestamp := strftime_dmY_HMS now in
  if log_write_fails env then raise OSError
  else modify (fun w =>
         set_log_file (log_file w ++ ["[" ++ timestamp ++ "] " ++ message]) w).

(** Only [json.JSONDecodeError] is caught; any other exception of the decoder
    goes on to the caller. *)
Definition load_time_entries (env : Env) : M value :=
  file <- get time_entries_file ;;
  match file with
  | None => ret (JArr [])
  | Some text =>
      try_except (lift (json_load env text))
                 is_JSONDecodeError
                 (fun _ => ret (JArr []))
  end.

(** [json.dump(entries, f, indent=4)] into the store file; nothing here
    catches a failure. *)
Definition save_time_entries (env : Env) (entries : value) : M unit :=
  if store_write_fails env then raise OSError
  else modify (set_time_entries_file (Some (json_dump env entries))).

(** The four fields of an entry, in the order the CSV files list them. *)
Definition entry_row (entry : value) : outcome csv_row :=
  match getitem entry "date" with
  | Raises e => Raises e
  | Returns d =>
  match getitem entry "start_time" with
  | Raises e => Raises e
  | Returns s =>
  match getitem entry "end_time" with
  | Raises e => Raises e
  | Returns e' =>
  match getitem entry "duration" with
  | Raises e => Raises e
  | Returns du => Returns [d; s; e'; du]
  end end end end.

(** [writer.writerow(row)] on the master CSV file, open for appending. *)
Definition master_writerow (row : csv_row) : M unit :=
  modify (fun w =>
    set_master_csv_file
      (Some (match master_csv_file w with Some rows => rows | None => [] end
             ++ [row])%list) w).

(** The body runs under [csv_lock]; the lock covers this function only.  The
    header row is written when the file did not exist before the [open]. *)
Definition append_to_csv (env : Env) (entry : value) : M unit :=
  file <- get master_csv_file ;;
  let file_exists := match file with Some _ => true | None => false end in
  try_except
    ((if csv_append_fails env then raise OSError
      else modify (fun w =>
             set_master_csv_file
               (Some (match master_csv_file w with
                      | Some rows => rows
                      | None => []
                      end)) w)) ;;
     (if negb file_exists then master_writerow CSV_HEADERS else ret tt) ;;
     row <- lift (entry_row entry) ;;
     master_writerow row)
    any_exception
    (fun e =>
       log env ("Error appending to CSV: " ++ str_exn e) ;;
       print (nl ++ "Fejl ved opdatering af CSV: " ++ str_exn e)).

Definition append_time_entry (env : Env) (entry : value) : M unit :=
  entries <- load_time_entries env ;;
  entries <- lift (list_append entries entry) ;;
  save_time_entries env entries ;;
  append_to_csv env entry.

(** [sys.stdin.read(1)] on the terminal.  [stdin] holds the characters that
    the reads of this run deliver, in order, up to the moment the terminal
    hangs up; a key typed before [tty.setraw] flushed the input is not among
    them.  A read waits for its character, and waiting takes no step here.
    After the last character the terminal is gone and the read raises
    [OSError]. *)
Definition stdin_read1 (env : Env) : M string :=
  if stdin_read_fails env then raise OSError
  else fun w =>
         match stdin w with
         | EmptyString => (Raises OSError, w)
         | String c rest => (Returns (String c EmptyString), set_stdin rest w)
         end.

Definition tcgetattr (env : Env) : M Tty.attrs :=
  if tcgetattr_fails env then raise TermiosError else get tty_attrs.

(** [termios.tcsetattr(fd, when, mode)]; [fails] says whether this call
    raises [termios.error], which leaves the terminal as it is. *)
Definition tcsetattr (fails : bool) (mode : Tty.attrs) : M unit :=
  if fails then raise TermiosError else modify (set_tty_attrs mode).

Definition setraw (env : Env) : M unit :=
  if setraw_fails env then raise TermiosError
  else
    mode <- tcgetattr env ;;
    mode <- lift (of_option IndexError (Tty.raw_mode mode)) ;;
    tcsetattr false mode.

(** [tcgetattr] runs before the [try]; [setraw] and the read run inside it and
    [tcsetattr] with the saved settings is the [finally] clause.  An exception
    of the [finally] clause takes the place of the outcome of the [try]. *)
Definition get_key_press (env : Env) : M string :=
  old_settings <- tcgetattr env ;;
  try_finally (setraw env ;; stdin_read1 env)
              (tcsetattr (restore_fails env) old_settings).

(** *** Timers and threads *)

(** [t = threading.Timer(interval, function); t.daemon = True; t.start()]. *)
Definition start_timer (delay : timedelta) (f : callback) : M nat :=
  fun w => (Returns (List.length (timers w)),
            set_timers (timers w ++ [mk_Timer delay f false true]) w).

Definition start_thread (target : thread_target) : M unit :=
  modify (fun w => set_threads (threads w ++ [target]) w).

Fixpoint cancel_at (i : nat) (ts : list Timer) : list Timer :=
  match ts, i with
  | [], _ => []
  | t :: rest, O => mk_Timer (interval t) (function t) true (alive t) :: rest
  | t :: rest, S i' => t :: cancel_at i' rest
  end.

(** [if auto_stop_timer and auto_stop_timer.is_alive(): auto_stop_timer.cancel()] *)
Definition cancel_auto_stop_timer : M unit :=
  t <- get auto_stop_timer ;;
  match t with
  | None => ret tt
  | Some i =>
      ts <- get timers ;;
      match nth_error ts i with
      | Some tm => if alive tm then modify (set_timers (cancel_at i ts)) else ret tt
      | None => ret tt
      end
  end.

(** *** The session *)

Definition start_tracking (env : Env) : M unit :=
  tracking <- get is_tracking ;;
  if tracking then print "Tidsregistrering er allerede startet."
  else
    modify (set_is_tracking true) ;;
    now <- datetime_now env ;;
    modify (set_start_time (Some now)) ;;
    print ("Intern arbejde registrering startet kl. " ++ strftime_HMS now ++ ".") ;;
    log env "Intern arbejde registrering startet." ;;
    t <- start_timer MAX_DURATION AutoStop ;;
    modify (set_auto_stop_timer (Some t)) ;;
    start_thread DisplayTimer ;;
    start_thread ListenForStop.

(** Lines 122-124: whole hours, whole minutes and seconds of [end - start]. *)
Definition duration_hms (start end_time : datetime) : Z * Z * Z :=
  let duration := datetime_diff end_time start in
  let '(hours, remainder) := divmod (int_total_seconds duration) 3600 in
  let '(minutes, seconds) := divmod remainder 60 in
  (hours, minutes, seconds).

Definition duration_text (hours minutes : Z) : string :=
  str_int hours ++ "h" ++ str_int minutes ++ "m".

(** Lines 139-144: the record of a session. *)
Definition session_entry (start end_time : datetime) : value :=
  let '(hours, minutes, _) := duration_hms start end_time in
  JObj [("date", JStr (strftime_dmY start));
        ("start_time", JStr (strftime_HMS start));
        ("end_time", JStr (strftime_HMS end_time));
        ("duration", JStr (duration_text hours minutes))].

(** Lines 121-144 of [stop_tracking]: the end instant, the duration, the
    timer, the messages and the entry.  Subtracting [None] from a datetime is
    a [TypeError]. *)
Definition stop_prepare (env : Env) (manual : bool) : M value :=
  end_time <- datetime_now env ;;
  start <- get start_time ;;
  start <- lift (of_option TypeError start) ;;
  let '(hours, minutes, _) := duration_hms start end_time in
  cancel_auto_stop_timer ;;
  (if manual then
     print (nl ++ "Intern arbejde registrering stoppet manuelt kl. "
            ++ strftime_HMS end_time ++ ". Varighed: "
            ++ str_int hours ++ "h " ++ str_int minutes ++ "m.") ;;
     log env ("Intern arbejde registrering stoppet manuelt. Varighed: "
              ++ duration_text hours minutes ++ ".")
   else
     print (nl ++ "Intern arbejde registrering stoppet automatisk kl. "
            ++ strftime_HMS end_time ++ ". Varighed: "
            ++ str_int hours ++ "h " ++ str_int minutes ++ "m.") ;;
     log env ("Intern arbejde registrering stoppet automatisk. Varighed: "
              ++ duration_text hours minutes ++ ".")) ;;
  ret (session_entry start end_time).

(** Lines 151-153 of [stop_tracking]. *)
Definition stop_notify (env : Env) : M unit :=
  print ("Data er tilføjet til CSV: " ++ MASTER_CSV_FILE env) ;;
  log env ("Data er tilføjet til CSV: " ++ MASTER_CSV_FILE env).

(** The entry is appended (line 145) before [is_tracking] is cleared (line
    147) and [stop_event] is set (line 148). *)
Definition stop_tracking (env : Env) (manual : bool) : M unit :=
  tracking <- get is_tracking ;;
  if negb tracking then print "Ingen aktiv tidsregistrering at stoppe."
  else
    entry <- stop_prepare env manual ;;
    append_time_entry env entry ;;
    modify (set_is_tracking false) ;;
    modify (set_stop_event true) ;;
    stop_notify env.

Definition auto_stop (env : Env) : M unit := stop_tracking env false.

Definition handle_exit (env : Env) : M unit :=
  tracking <- get is_tracking ;;
  (if tracking then stop_tracking env false else modify (set_stop_event true)) ;;
  print (nl ++ "Time Tracker script afsluttet.") ;;
  log env "Time Tracker script afsluttet.".

(** *** The weekly export *)

(** Lines 179-184 of [schedule_weekly_csv]: the next run after [now]. *)
Definition next_run_after (now : datetime) : outcome datetime :=
  match strptime_HM WEEKLY_CSV_TIME with
  | None => Raises ValueError
  | Some target_time =>
      match strptime_A WEEKLY_CSV_DAY with
      | None => Raises ValueError
      | Some target_day =>
          let days_ahead := (weekday target_day - weekday now) mod 7 in
          let days_ahead :=
            if (days_ahead =? 0) && time_gt now target_time then 7
            else days_ahead in
          match datetime_add now (mk_timedelta days_ahead 0 0 0) with
          | None => Raises OverflowError
          | Some next_run =>
              Returns (replace_time next_run (hour target_time) (minute target_time))
          end
      end
  end.

Definition schedule_weekly_csv (env : Env) : M unit :=
  now <- datetime_now env ;;
  next_run <- lift (next_run_after now) ;;
  let delay := datetime_diff next_run now in
  _ <- start_timer delay GenerateWeeklyCsv ;;
  log env ("Weekly CSV scheduled to run at " ++ strftime_A_HMS next_run ++ ".") ;;
  print (nl ++ "Weekly CSV scheduled to run at " ++ strftime_A_HMS next_run ++ ".").

(** Lines 198-199: Monday and Sunday of the week of [now]. *)
Definition week_bounds (now : datetime) : outcome (datetime * datetime) :=
  match datetime_add now (- mk_timedelta (weekday now) 0 0 0) with
  | None => Raises OverflowError
  | Some start_of_week =>
      match datetime_add start_of_week (mk_timedelta 6 0 0 0) with
      | None => Raises OverflowError
      | Some end_of_week => Returns (start_of_week, end_of_week)
      end
  end.

(** The condition of the list comprehension at lines 205-208. *)
Definition in_week (start_of_week end_of_week : datetime) (entry : value)
  : outcome bool :=
  match getitem entry "date" with
  | Raises e => Raises e
  | Returns d =>
      str_between (strftime_dmY start_of_week) (strftime_dmY end_of_week) d
  end.

Fixpoint filter_week (start_of_week end_of_week : datetime) (entries : list value)
  : outcome (list value) :=
  match entries with
  | [] => Returns []
  | entry :: rest =>
      match in_week start_of_week end_of_week entry with
      | Raises e => Raises e
      | Returns keep =>
          match filter_week start_of_week end_of_week rest with
          | Raises e => Raises e
          | Returns kept => Returns (if keep then entry :: kept else kept)
          end
      end
  end.

Fixpoint files_set (path : string) (rows : list csv_row)
  (files : list (string * list csv_row)) : list (string * list csv_row) :=
  match files with
  | [] => [(path, rows)]
  | (p, r) :: rest =>
      if String.eqb p path then (p, rows) :: rest
      else (p, r) :: files_set path rows rest
  end.

Fixpoint files_get (path : string) (files : list (string * list csv_row))
  : option (list csv_row) :=
  match files with
  | [] => None
  | (p, r) :: rest => if String.eqb p path then Some r else files_get path rest
  end.

(** [writer.writerow(row)] on a weekly file open for writing. *)
Definition weekly_writerow (path : string) (row : csv_row) : M unit :=
  modify (fun w =>
    set_weekly_csv_files
      (files_set path
         (match files_get path (weekly_csv_files w) with
          | Some rows => rows
          | None => []
          end ++ [row])%list
         (weekly_csv_files w)) w).

Fixpoint write_entries (path : string) (entries : list value) : M unit :=
  match entries with
  | [] => ret tt
  | entry :: rest =>
      row <- lift (entry_row entry) ;;
      weekly_writerow path row ;;
      write_entries path rest
  end.

Definition generate_weekly_csv (env : Env) : M unit :=
  now <- datetime_now env ;;
  bounds <- lift (week_bounds now) ;;
  let '(start_of_week, end_of_week) := bounds in
  entries <- load_time_entries env ;;
  entries <- lift (iterate entries) ;;
  weekly_entries <- lift (filter_week start_of_week end_of_week entries) ;;
  match weekly_entries with
  | [] =>
      log env "Ingen tidsregistreringer fundet for denne uge." ;;
      print (nl ++ "Ingen tidsregistreringer fundet for denne uge.")
  | _ =>
      let csv_filename :=
        "time_tracker_weekly_" ++ strftime_Ymd end_of_week ++ ".csv" in
      let csv_filepath := EXPORT_DIR env ++ "/" ++ csv_filename in
      try_except
        ((if weekly_write_fails env then raise OSError
          else modify (fun w =>
                 set_weekly_csv_files
                   (files_set csv_filepath [] (weekly_csv_files w)) w)) ;;
         weekly_writerow csv_filepath CSV_HEADERS ;;
         write_entries csv_filepath weekly_entries ;;
         log env ("Weekly CSV generated: " ++ csv_filename) ;;
         print (nl ++ "Uge CSV fil genereret: " ++ csv_filename ++ " - Sti: "
                ++ csv_filepath))
        any_exception
        (fun e =>
           log env ("Error generating weekly CSV: " ++ str_exn e) ;;
           print (nl ++ "Fejl ved generering af CSV: " ++ str_exn e))
  end ;;
  schedule_weekly_csv env.

(** *** Threads

    The listener thread, the auto-stop timer thread and the signal handler
    run [stop_tracking] while sharing the globals.  A thread is a chain of
    atomic steps; between two steps another thread may run.  The steps of
    [stop_tracking_thread] cut [stop_tracking] at statement boundaries (the
    interpreter may switch threads there, and inside every file operation).
    A loop is unrolled a given number of times. *)

Inductive thread : Type :=
| Finished
| Step (run : World -> outcome thread * World).

Definition stop_tracking_thread (env : Env) (manual : bool) : thread :=
  Step (tracking <- get is_tracking ;;
        if negb tracking
        then print "Ingen aktiv tidsregistrering at stoppe." ;; ret Finished
        else ret (
  Step (entry <- stop_prepare env manual ;; ret (
  Step (append_time_entry env entry ;; ret (
  Step (modify (set_is_tracking false) ;; ret (
  Step (modify (set_stop_event true) ;; ret (
  Step (stop_notify env ;; ret Finished))))))))))).

(** [t] followed by [k]; an exception in [t] skips [k]. *)
Fixpoint thread_then (t k : thread) : thread :=
  match t with
  | Finished => k
  | Step run =>
      Step (fun w =>
              match run w with
              | (Returns t', w') => (Returns (thread_then t' k), w')
              | (Raises e, w') => (Raises e, w')
              end)
  end.

(** [listen_for_stop], the loop unrolled [rounds] times: the loop test, the
    key read and the call of [stop_tracking] are separate steps. *)
Fixpoint listen_for_stop_thread (env : Env) (rounds : nat) : thread :=
  match rounds with
  | O => Finished
  | S rounds' =>
      Step (tracking <- get is_tracking ;;
            stopped <- get stop_event ;;
            if tracking && negb stopped then ret (
      Step (key <- get_key_press env ;;
            if String.eqb (lower key) "d"
            then ret (stop_tracking_thread env true)
            else ret (listen_for_stop_thread env rounds')))
            else ret Finished)
  end.

(** [display_timer], the loop unrolled [rounds] times. *)
Fixpoint display_timer_thread (env : Env) (rounds : nat) : thread :=
  match rounds with
  | O => Finished
  | S rounds' =>
      Step (tracking <- get is_tracking ;;
            stopped <- get stop_event ;;
            if tracking && negb stopped then
              now <- datetime_now env ;;
              start <- get start_time ;;
              start <- lift (of_option TypeError start) ;;
              let '(hours, minutes, seconds) := duration_hms start now in
              print (String (ascii_of_nat 13) "Tid registreret: "
                     ++ pad2 hours ++ ":" ++ pad2 minutes
                     ++ ":" ++ pad2 seconds ++ ". Tryk 'd' for at stoppe.") ;;
              ret (display_timer_thread env rounds')
            else ret Finished)
  end.

Fixpoint retire_at (i : nat) (ts : list Timer) : list Timer :=
  match ts, i with
  | [], _ => []
  | t :: rest, O => mk_Timer (interval t) (function t) true false :: rest
  | t :: rest, S i' => t :: retire_at i' rest
  end.

(** [threading.Timer.run] for the timer at position [i], once its delay is
    over: the function is called unless [cancel()] came first, then
    [finished] is set and the thread ends. *)
Definition timer_thread (i : nat) (body : thread) : thread :=
  Step (ts <- get timers ;;
        match nth_error ts i with
        | Some tm =>
            if finished tm
            then modify (fun w => set_timers (retire_at i (timers w)) w) ;;
                 ret Finished
            else ret (thread_then body (
      Step (modify (fun w => set_timers (retire_at i (timers w)) w) ;;
            ret Finished)))
        | None => ret Finished
        end).

(** The auto-stop timer calls [auto_stop], that is [stop_tracking(manual=False)]. *)
Definition auto_stop_thread (env : Env) (i : nat) : thread :=
  timer_thread i (stop_tracking_thread env false).

(** One step of a thread; an exception nobody catches ends the thread. *)
Definition step_thread (t : thread) (w : World) : thread * World :=
  match t with
  | Finished => (Finished, w)
  | Step run =>
      match run w with
      | (Returns t', w') => (t', w')
      | (Raises _, w') => (Finished, w')
      end
  end.

Fixpoint run_alone (fuel : nat) (t : thread) (w : World) : thread * World :=
  match fuel with
  | O => (t, w)
  | S fuel' => let '(t', w') := step_thread t w in run_alone fuel' t' w'
  end.

Fixpoint pool_set (pool : list thread) (i : nat) (t : thread) : list thread :=
  match pool, i with
  | [], _ => []
  | _ :: rest, O => t :: rest
  | x :: rest, S i' => x :: pool_set rest i' t
  end.

(** Runs the pool under a schedule: each entry names the thread that takes
    the next step. *)
Fixpoint run_schedule (schedule : list nat) (pool : list thread) (w : World)
  : list thread * World :=
  match schedule with
  | [] => (pool, w)
  | i :: rest =>
      match nth_error pool i with
      | None => run_schedule rest pool w
      | Some t =>
          let '(t', w') := step_thread t w in
          run_schedule rest (pool_set pool i t') w'
      end
  end.

Definition is_finished (t : thread) : bool :=
  match t with Finished => true | Step _ => false end.

(** ** A concrete machine to run the model on *)

(** [json.load] by the decoder of module [Json], with the exception that
    the library raises for each refusal. *)
Definition json_loads (text : string) : outcome value :=
  match Json.loads text with
  | Decoded v => Returns v
  | Refused NotText => Raises UnicodeDecodeError
  | Refused Malformed => Raises JSONDecodeError
  | Refused TooDeep => Raises RecursionError
  | Refused TooManyDigits => Raises ValueError
  end.

(** A clock that gives the listed readings in turn, then stays at [last]. *)
Definition clock_of (readings : list datetime) (last : datetime) : nat -> datetime :=
  fun n => nth n readings last.

(** An environment in which every system call succeeds. *)
Definition quiet_env (readings : list datetime) (last : datetime) : Env :=
  mk_Env (clock_of readings last) json_loads Json.dumps "/home/user"
         false false false false false false false false.

(** The usual settings of a Linux terminal in line mode. *)
Definition cooked_attrs : Tty.attrs :=
  Tty.mk_attrs 17664 5 191 35387 15 15
    [3; 28; 127; 21; 4; 0; 1; 0; 17; 19; 26; 0; 18; 15; 23; 22;
     0; 0; 0; 0; 0; 0; 0; 0; 0; 0; 0; 0; 0; 0; 0; 0].

(** The process right after start-up, before any file exists. *)
Definition fresh_world : World :=
  mk_World false None false None [] [] None None [] [] cooked_attrs EmptyString [] O.

(** A stored entry with the given date text. *)
Definition entry_dated (date : string) : value :=
  JObj [("date", JStr date); ("start_time", JStr "09:00:00");
        ("end_time", JStr "17:00:00"); ("duration", JStr "8h0m")].

(** A fresh process whose store file holds [entries]. *)
Definition world_with_store (entries : list value) : World :=
  set_time_entries_file (Some (Json.dumps (JArr entries))) fresh_world.

(** A text of [n] opening brackets and nothing else. *)
Fixpoint open_brackets (n : nat) : string :=
  match n with
  | O => EmptyString
  | S n' => String "[" (open_brackets n')
  end.

(** The store file after something else wrote the single byte 255 into it. *)
Definition store_of_one_byte_255 : string :=
  String (ascii_of_nat 255) EmptyString.

(** A process with a session running since [start]. *)
Definition active_world (start : datetime) : World :=
  set_start_time (Some start) (set_is_tracking true fresh_world).

(** ** Frame conditions *)

(** A computation keeps the phase when it leaves [is_tracking] and
    [stop_event] as they were, whether it returns or raises. *)
Definition keeps_phase {A} (c : M A) : Prop :=
  forall w, is_tracking (snd (c w)) = is_tracking w
            /\ stop_event (snd (c w)) = stop_event w.

(** ** The start-up prompt of [main] *)

(** How the prompt loop of [main] ends: with a session started, with
    [sys.exit(0)] after the user declined, or still prompting when the
    unrolling runs out. *)
Inductive prompt_result : Type := Started | Declined | Prompting.

(** Lines 263-273 of [main], the loop unrolled [rounds] times. *)
Fixpoint prompt_loop (env : Env) (rounds : nat) : M prompt_result :=
  match rounds with
  | O => ret Prompting
  | S rounds' =>
      key <- get_key_press env ;;
      if String.eqb (lower key) "y" then start_tracking env ;; ret Started
      else if String.eqb (lower key) "n" then
        print (nl ++ "Tidsregistrering afbrudt.") ;;
        log env "Tidsregistrering afbrudt af bruger." ;;
        ret Declined
      else
        print (nl ++ "Ugyldigt input. Tryk 'y' for at starte eller 'n' for at afbryde: ") ;;
        prompt_loop env rounds'
  end.

(** Lines 258-273 of [main]: the first schedule, the question and the loop
    (the two [signal.signal] calls before them have no place in [World]). *)
Definition main_startup (env : Env) (rounds : nat) : M prompt_result :=
  schedule_weekly_csv env ;;
  print "Vil du starte med at registrere intern arbejde for i dag? (y/N): " ;;
  prompt_loop env rounds.

(** ** Vocabulary for the properties *)

(** Every key of [keys] satisfies [p]. *)
Fixpoint all_keys (p : ascii -> bool) (keys : string) : bool :=
  match keys with
  | EmptyString => true
  | String c rest => p c && all_keys p rest
  end.

(** [c.lower() == k] for a key [c]. *)
Definition is_key (k c : ascii) : bool := Ascii.eqb (lower_ascii c) k.

(** Reading a key can work: no terminal call and no read fails in this run. *)
Definition keyboard_works (env : Env) : bool :=
  negb (tcgetattr_fails env) && negb (setraw_fails env)
  && negb (stdin_read_fails env) && negb (restore_fails env).

(** The [cc] array of the terminal has the [VMIN] and [VTIME] slots that
    [tty.setraw] assigns. *)
Definition has_control_chars (w : World) : bool :=
  Nat.leb 7 (List.length (Tty.cc (tty_attrs w))).

(** [n] more lines of the re-prompt on the terminal. *)
Definition reprompted (n : nat) (w : World) : World :=
  set_stdout
    (stdout w
     ++ repeat (nl ++ "Ugyldigt input. Tryk 'y' for at starte eller 'n' for at afbryde: ")
               n) w.

(** A computation preserves the part [f] of the world when that part is the
    same afterwards, whether the computation returns or raises. *)
Definition preserves {A F} (f : World -> F) (c : M A) : Prop :=
  forall w, f (snd (c w)) = f w.

(** Two worlds that differ at most in the terminal output and in how often
    the clock was read. *)
Definition same_but_output (w w' : World) : Prop :=
  is_tracking w' = is_tracking w
  /\ start_time w' = start_time w
  /\ stop_event w' = stop_event w
  /\ auto_stop_timer w' = auto_stop_timer w
  /\ timers w' = timers w
  /\ threads w' = threads w
  /\ time_entries_file w' = time_entries_file w
  /\ master_csv_file w' = master_csv_file w
  /\ weekly_csv_files w' = weekly_csv_files w
  /\ log_file w' = log_file w
  /\ tty_attrs w' = tty_attrs w
  /\ stdin w' = stdin w.

(** The rows of a list of entries. *)
Fixpoint entry_rows (entries : list value) : outcome (list csv_row) :=
  match entries with
  | [] => Returns []
  | entry :: rest =>
      match entry_row entry with
      | Raises e => Raises e
      | Returns row =>
          match entry_rows rest with
          | Raises e => Raises e
          | Returns rows => Returns (row :: rows)
          end
      end
  end.

(** [append_to_csv] for each entry in turn. *)
Fixpoint append_all_to_csv (env : Env) (entries : list value) : M unit :=
  match entries with
  | [] => ret tt
  | entry :: rest => append_to_csv env entry ;; append_all_to_csv env rest
  end.

(** The rows a CSV file holds once it is open for appending: its own, or the
    header of a new file. *)
Definition rows_or_header (file : option (list csv_row)) : list csv_row :=
  match file with Some rows => rows | None => [CSV_HEADERS] end.

(** The clock reading is a date the scheduler can add a week to. *)
Definition schedulable (t : datetime) : Prop :=
  valid_datetime t = true /\ toordinal t + 7 <= MAXORDINAL.

(** An entry that is a dict whose ["date"] is a string. *)
Definition dated (entry : value) : Prop :=
  exists date, getitem entry "date" = Returns (JStr date).

(** Whether two comparisons agree. *)
Definition same_comparison (c1 c2 : comparison) : bool :=
  match c1, c2 with
  | Eq, Eq | Lt, Lt | Gt, Gt => true
  | _, _ => false
  end.

(** For two numbers below 100: [pad2] gives two characters and orders the
    texts as the numbers. *)
Definition pad2_orders_check (a b : nat) : bool :=
  (Nat.eqb (String.length (pad2 (Z.of_nat a))) 2)
  && same_comparison (String.compare (pad2 (Z.of_nat a)) (pad2 (Z.of_nat b)))
                     (Z.compare (Z.of_nat a) (Z.of_nat b)).

(** What the weekly export has no business with: the session, the threads,
    the store, the master CSV file and the terminal. *)
Definition session_and_records (w : World) :=
  (is_tracking w, start_time w, stop_event w, auto_stop_timer w, threads w,
   time_entries_file w, master_csv_file w, tty_attrs w, stdin w).

(** * Properties *)

Ltac step_m := unfold bind, get, modify, ret, raise, lift, print; cbn beta iota.

(** ** The quotient behind [int(delta.total_seconds())]

    Below [2^53] microseconds (about 285 years) the rounding of the binary64
    quotient never reaches the next whole second, so the integer the script
    works with is the floor of the exact quotient. *)

Section FloatQuotient.

Lemma round_half_even_error (n d : Z) :
  0 < d ->
  2 * n - d <= 2 * (round_half_even n d * d) <= 2 * n + d.
Proof.
  intros Hd. unfold round_half_even.
  pose proof (Z.div_mod n d ltac:(lia)) as Hn.
  pose proof (Z.mod_pos_bound n d Hd) as Hr.
  destruct ((d <? 2 * (n mod d)) || ((2 * (n mod d) =? d) && Z.odd (n / d))) eqn:E.
  - apply orb_true_iff in E. destruct E as [E | E].
    + apply Z.ltb_lt in E. nia.
    + apply andb_true_iff in E. destruct E as [E _]. apply Z.eqb_eq in E. nia.
  - apply orb_false_iff in E. destruct E as [E _]. apply Z.ltb_ge in E. nia.
Qed.

Lemma round_half_even_exact (n d : Z) :
  0 < d -> n mod d = 0 -> round_half_even n d = n / d.
Proof.
  intros Hd Hr. unfold round_half_even. rewrite Hr.
  replace (d <? 2 * 0) with false by (symmetry; apply Z.ltb_ge; lia).
  replace (2 * 0 =? d) with false by (symmetry; apply Z.eqb_neq; lia).
  reflexivity.
Qed.

Lemma scaled_rounding_keeps_floor (a P : Z) :
  0 <= a -> 2 ^ 19 <= P ->
  round_half_even (a * P) US_PER_SECOND / P = a / US_PER_SECOND.
Proof.
  intros Ha HP. unfold US_PER_SECOND.
  assert (HP' : 524288 <= P) by (change (2 ^ 19) with 524288 in HP; lia).
  pose proof (Z.div_mod a 1000000 ltac:(lia)) as Hq.
  pose proof (Z.mod_pos_bound a 1000000 ltac:(lia)) as Hr.
  set (q := a / 1000000) in *. set (r := a mod 1000000) in *.
  set (m := round_half_even (a * P) 1000000).
  assert (Hlo : q * P <= m).
  { pose proof (round_half_even_error (a * P) 1000000 ltac:(lia)) as [H1 _].
    fold m in H1. nia. }
  assert (Hhi : m < (q + 1) * P).
  { destruct (Z.eq_dec r 0) as [Hz | Hnz].
    - assert (Hm : m = q * P).
      { unfold m. rewrite round_half_even_exact; try lia.
        + replace (a * P) with (q * P * 1000000) by lia.
          apply Z.div_mul; lia.
        + replace (a * P) with (q * P * 1000000) by lia.
          apply Z.mod_mul; lia. }
      lia.
    - pose proof (round_half_even_error (a * P) 1000000 ltac:(lia)) as [_ H2].
      fold m in H2. nia. }
  symmetry. apply Z.div_unique with (r := m - P * q); lia.
Qed.

Lemma true_divide_exponent (a : Z) :
  0 < a < 2 ^ 53 -> snd (true_divide_pos a US_PER_SECOND) <= -19.
Proof.
  intros [Ha Hb]. unfold true_divide_pos.
  assert (Hl : Z.log2 a < 53) by (apply Z.log2_lt_pow2; lia).
  change (Z.log2 US_PER_SECOND) with 19.
  cbn [snd].
  match goal with |- (if ?c then _ else _) <= _ => destruct c end; lia.
Qed.

Lemma int_total_seconds_floor (delta : timedelta) :
  0 <= delta < 2 ^ 53 -> int_total_seconds delta = delta / US_PER_SECOND.
Proof.
  intros [H0 H1]. unfold int_total_seconds.
  destruct (delta =? 0) eqn:Ez.
  - apply Z.eqb_eq in Ez. subst. reflexivity.
  - apply Z.eqb_neq in Ez.
    replace (0 <? delta) with true by (symmetry; apply Z.ltb_lt; lia).
    pose proof (true_divide_exponent delta ltac:(lia)) as He.
    unfold true_divide_pos in *. cbn [snd] in He.
    match goal with
    | |- context [if ?c then ?x + 1 else ?x] =>
        set (e := if c then x + 1 else x) in *
    end.
    unfold int_of_float, scaled_quotient.
    replace (e <? 0) with true by (symmetry; apply Z.ltb_lt; lia).
    apply scaled_rounding_keeps_floor; [lia|].
    apply Z.pow_le_mono_r; lia.
Qed.

End FloatQuotient.

(** ** The calendar: an ordinal and its date

    [ord2ymd] inverts [ymd2ord], so the weekday of a computed date can be read
    off its ordinal. *)

Section Calendar.

Lemma month_day_table :
  forallb (month_day_ok true) (seq 0 365) && forallb (month_day_ok false) (seq 0 365)
  = true.
Proof. vm_compute. reflexivity. Qed.

Lemma month_day_sum (n : Z) (leapyear : bool) :
  0 <= n < 365 ->
  let '(m, d) := month_day n leapyear in
  DAYS_BEFORE_MONTH m + (if (2 <? m) && leapyear then 1 else 0) + d = n + 1.
Proof.
  intros Hn.
  pose proof month_day_table as H. apply andb_true_iff in H. destruct H as [Ht Hf].
  assert (Hin : In (Z.to_nat n) (seq 0 365)) by (apply in_seq; lia).
  assert (Hok : month_day_ok leapyear (Z.to_nat n) = true).
  { destruct leapyear; [apply (proj1 (forallb_forall _ _) Ht) | apply (proj1 (forallb_forall _ _) Hf)]; exact Hin. }
  unfold month_day_ok in Hok. rewrite Z2Nat.id in Hok by lia.
  destruct (month_day n leapyear) as [m d].
  repeat (apply andb_true_iff in Hok; destruct Hok as [Hok ?]).
  apply Z.eqb_eq in Hok. exact Hok.
Qed.

Lemma days_before_year_split (a b c d : Z) :
  0 <= a -> 0 <= b <= 3 -> 0 <= c <= 24 -> 0 <= d <= 3 ->
  days_before_year (400 * a + 100 * b + 4 * c + d + 1)
  = 146097 * a + 36524 * b + 1461 * c + 365 * d.
Proof.
  intros Ha Hb Hc Hd. unfold days_before_year.
  replace (400 * a + 100 * b + 4 * c + d + 1 - 1) with (400 * a + 100 * b + 4 * c + d) by lia.
  assert (H4 : (400 * a + 100 * b + 4 * c + d) / 4 = 100 * a + 25 * b + c)
    by (symmetry; apply Z.div_unique with (r := d); lia).
  assert (H100 : (400 * a + 100 * b + 4 * c + d) / 100 = 4 * a + b)
    by (symmetry; apply Z.div_unique with (r := 4 * c + d); lia).
  assert (H400 : (400 * a + 100 * b + 4 * c + d) / 400 = a)
    by (symmetry; apply Z.div_unique with (r := 100 * b + 4 * c + d); lia).
  rewrite H4, H100, H400. lia.
Qed.

Lemma is_leap_split (a b c d : Z) :
  0 <= a -> 0 <= b <= 3 -> 0 <= c <= 24 -> 0 <= d <= 3 ->
  is_leap (400 * a + 100 * b + 4 * c + d + 1)
  = (d =? 3) && (negb (c =? 24) || (b =? 3)).
Proof.
  intros Ha Hb Hc Hd. unfold is_leap.
  set (y := 400 * a + 100 * b + 4 * c + d + 1).
  assert (H4 : y mod 4 = (d + 1) mod 4).
  { unfold y. replace (400 * a + 100 * b + 4 * c + d + 1)
      with ((d + 1) + (100 * a + 25 * b + c) * 4) by lia.
    apply Z.mod_add. lia. }
  assert (H100 : y mod 100 = (4 * c + d + 1) mod 100).
  { unfold y. replace (400 * a + 100 * b + 4 * c + d + 1)
      with ((4 * c + d + 1) + (4 * a + b) * 100) by lia.
    apply Z.mod_add. lia. }
  assert (H400 : y mod 400 = (100 * b + 4 * c + d + 1) mod 400).
  { unfold y. replace (400 * a + 100 * b + 4 * c + d + 1)
      with ((100 * b + 4 * c + d + 1) + a * 400) by lia.
    apply Z.mod_add. lia. }
  rewrite H4, H100, H400.
  assert (d = 0 \/ d = 1 \/ d = 2 \/ d = 3) as [-> | [-> | [-> | ->]]] by lia;
    try reflexivity.
  change ((3 + 1) mod 4 =? 0) with true. cbn [andb].
  destruct (Z.eq_dec c 24) as [-> | Hc24].
  - cbn [Z.eqb negb orb]. change ((4 * 24 + 3 + 1) mod 100 =? 0) with true.
    cbn [negb orb].
    assert (b = 0 \/ b = 1 \/ b = 2 \/ b = 3) as [-> | [-> | [-> | ->]]] by lia;
      reflexivity.
  - replace (c =? 24) with false by (symmetry; apply Z.eqb_neq; exact Hc24).
    cbn [negb orb].
    replace ((4 * c + 3 + 1) mod 100) with (4 * c + 4) by (rewrite Z.mod_small; lia).
    replace (4 * c + 4 =? 0) with false by (symmetry; apply Z.eqb_neq; lia).
    reflexivity.
Qed.

Lemma ord2ymd_month_day (ordinal : Z) :
  ord2ymd ordinal =
    let n := ordinal - 1 in
    let n400 := n / DI400Y in
    let n := n mod DI400Y in
    let n100 := n / DI100Y in
    let n := n mod DI100Y in
    let n4 := n / DI4Y in
    let n := n mod DI4Y in
    let n1 := n / 365 in
    let n := n mod 365 in
    let year := n400 * 400 + 1 + n100 * 100 + n4 * 4 + n1 in
    if (n1 =? 4) || (n100 =? 4) then (year - 1, 12, 31)
    else
      let '(m, d) :=
        month_day n ((n1 =? 3) && (negb (n4 =? 24) || (n100 =? 3))) in
      (year, m, d).
Proof.
  unfold ord2ymd, divmod, month_day. cbv zeta.
  destruct ((_ =? 4) || (_ =? 4)); [reflexivity|].
  match goal with |- context [if ?c then (_, _) else (_, _)] => destruct c end;
    reflexivity.
Qed.

Lemma ymd2ord_ord2ymd (n : Z) :
  1 <= n ->
  let '(y, m, d) := ord2ymd n in ymd2ord y m d = n.
Proof.
  intros Hn. rewrite ord2ymd_month_day. cbv zeta. unfold DI400Y, DI100Y, DI4Y.
  pose proof (Z.div_mod (n - 1) 146097 ltac:(lia)) as E1.
  pose proof (Z.mod_pos_bound (n - 1) 146097 ltac:(lia)) as B1.
  assert (A0 : 0 <= (n - 1) / 146097) by (apply Z.div_pos; lia).
  set (a := (n - 1) / 146097) in *. set (r1 := (n - 1) mod 146097) in *.
  pose proof (Z.div_mod r1 36524 ltac:(lia)) as E2.
  pose proof (Z.mod_pos_bound r1 36524 ltac:(lia)) as B2.
  assert (Bb : 0 <= r1 / 36524 < 5)
    by (split; [apply Z.div_pos; lia | apply Z.div_lt_upper_bound; lia]).
  set (b := r1 / 36524) in *. set (r2 := r1 mod 36524) in *.
  pose proof (Z.div_mod r2 1461 ltac:(lia)) as E3.
  pose proof (Z.mod_pos_bound r2 1461 ltac:(lia)) as B3.
  assert (Bc : 0 <= r2 / 1461 < 25)
    by (split; [apply Z.div_pos; lia | apply Z.div_lt_upper_bound; lia]).
  set (c := r2 / 1461) in *. set (r3 := r2 mod 1461) in *.
  pose proof (Z.div_mod r3 365 ltac:(lia)) as E4.
  pose proof (Z.mod_pos_bound r3 365 ltac:(lia)) as B4.
  assert (Bd : 0 <= r3 / 365 < 5)
    by (split; [apply Z.div_pos; lia | apply Z.div_lt_upper_bound; lia]).
  set (d := r3 / 365) in *. set (r4 := r3 mod 365) in *.
  destruct ((d =? 4) || (b =? 4)) eqn:Especial.
  - (* the last day of a leap year *)
    apply orb_true_iff in Especial.
    assert (Hlast : (d = 4 /\ b <= 3 /\ c <= 23 /\ r4 = 0)
                    \/ (b = 4 /\ c = 0 /\ d = 0 /\ r4 = 0)).
    { destruct Especial as [E | E]; apply Z.eqb_eq in E; lia. }
    unfold ymd2ord, days_before_month.
    destruct Hlast as [[Hd [Hb [Hc Hr]]] | [Hb [Hc [Hd Hr]]]].
    + replace (a * 400 + 1 + b * 100 + c * 4 + d - 1)
        with (400 * a + 100 * b + 4 * c + 3 + 1) by lia.
      rewrite days_before_year_split, is_leap_split by lia.
      replace (c =? 24) with false by (symmetry; apply Z.eqb_neq; lia).
      change (DAYS_BEFORE_MONTH 12) with 334. change (2 <? 12) with true.
      change (3 =? 3) with true. cbn [andb negb orb]. lia.
    + replace (a * 400 + 1 + b * 100 + c * 4 + d - 1)
        with (400 * a + 100 * 3 + 4 * 24 + 3 + 1) by lia.
      rewrite days_before_year_split, is_leap_split by lia.
      change (DAYS_BEFORE_MONTH 12) with 334. change (2 <? 12) with true.
      change (3 =? 3) with true. change (24 =? 24) with true.
      cbn [andb negb orb]. lia.
  - apply orb_false_iff in Especial. destruct Especial as [Ed Eb].
    apply Z.eqb_neq in Ed, Eb.
    pose proof (month_day_sum r4 ((d =? 3) && (negb (c =? 24) || (b =? 3)))
                  ltac:(lia)) as Hmd.
    destruct (month_day r4 _) as [m dd].
    unfold ymd2ord, days_before_month.
    replace (a * 400 + 1 + b * 100 + c * 4 + d)
      with (400 * a + 100 * b + 4 * c + d + 1) by lia.
    rewrite days_before_year_split, is_leap_split by lia.
    lia.
Qed.

End Calendar.

(** ** The session clock *)

Section SessionClock.

Lemma to_us_split (d : datetime) :
  to_us d = toordinal d * US_PER_DAY + time_us d.
Proof. unfold to_us, time_us, US_PER_DAY, US_PER_SECOND. lia. Qed.

Lemma valid_time_us (d : datetime) :
  valid_datetime d = true -> 0 <= time_us d < US_PER_DAY.
Proof.
  unfold valid_datetime. intros H.
  repeat (apply andb_true_iff in H; destruct H as [H ?]).
  unfold time_us, US_PER_DAY, US_PER_SECOND. lia.
Qed.

Lemma duration_hms_floor (start end_time : datetime) :
  0 <= datetime_diff end_time start < 2 ^ 53 ->
  let total_seconds := datetime_diff end_time start / US_PER_SECOND in
  duration_hms start end_time =
    (total_seconds / 3600, total_seconds mod 3600 / 60,
     (total_seconds mod 3600) mod 60).
Proof.
  intros H. unfold duration_hms, divmod.
  rewrite int_total_seconds_floor by exact H. reflexivity.
Qed.

Lemma session_entry_fields (start end_time : datetime) :
  0 <= datetime_diff end_time start < 2 ^ 53 ->
  let total_seconds := datetime_diff end_time start / US_PER_SECOND in
  session_entry start end_time =
    JObj [("date", JStr (strftime_dmY start));
          ("start_time", JStr (strftime_HMS start));
          ("end_time", JStr (strftime_HMS end_time));
          ("duration",
           JStr (str_int (total_seconds / 3600) ++ "h"
                 ++ str_int (total_seconds mod 3600 / 60) ++ "m"))].
Proof.
  intros H. unfold session_entry. rewrite duration_hms_floor by exact H.
  reflexivity.
Qed.

(** C4.  For two instants of one calendar day with the end not before the
    start, the stored duration is [hours = floor(total_seconds / 3600)] and
    [minutes = floor((total_seconds mod 3600) / 60)], the seconds dropped;
    09:00:00 to 17:00:00 gives ["8h0m"] and 09:00:00 to 09:00:59 gives
    ["0h0m"]. *)
Theorem session_clock_truncates_seconds (start end_time : datetime) :
  valid_datetime start = true ->
  valid_datetime end_time = true ->
  year start = year end_time ->
  month start = month end_time ->
  day start = day end_time ->
  to_us start <= to_us end_time ->
  let total_seconds := datetime_diff end_time start / US_PER_SECOND in
  duration_hms start end_time =
    (total_seconds / 3600, total_seconds mod 3600 / 60,
     (total_seconds mod 3600) mod 60)
  /\ getitem (session_entry start end_time) "duration" =
       Returns (JStr (str_int (total_seconds / 3600) ++ "h"
                      ++ str_int (total_seconds mod 3600 / 60) ++ "m"))
  /\ (forall y m d,
        getitem (session_entry (mk_datetime y m d 9 0 0 0)
                               (mk_datetime y m d 17 0 0 0)) "duration"
        = Returns (JStr "8h0m"))
  /\ (forall y m d,
        getitem (session_entry (mk_datetime y m d 9 0 0 0)
                               (mk_datetime y m d 9 0 59 0)) "duration"
        = Returns (JStr "0h0m")).
Proof.
  intros Hs He Hy Hm Hd Hle.
  assert (Hday : toordinal start = toordinal end_time)
    by (unfold toordinal; rewrite Hy, Hm, Hd; reflexivity).
  assert (Hrange : 0 <= datetime_diff end_time start < 2 ^ 53).
  { pose proof (valid_time_us _ Hs). pose proof (valid_time_us _ He).
    unfold datetime_diff. rewrite !to_us_split in *. rewrite Hday in *.
    unfold US_PER_DAY, US_PER_SECOND in *. change (2 ^ 53) with 9007199254740992.
    lia. }
  split; [apply duration_hms_floor; exact Hrange|].
  split; [rewrite session_entry_fields by exact Hrange; reflexivity|].
  split; intros y m d.
  - assert (Hdiff : datetime_diff (mk_datetime y m d 17 0 0 0)
                                  (mk_datetime y m d 9 0 0 0) = 28800000000).
    { unfold datetime_diff, to_us, toordinal, US_PER_SECOND.
      cbn [year month day hour minute second microsecond]. lia. }
    unfold session_entry, duration_hms. rewrite Hdiff. reflexivity.
  - assert (Hdiff : datetime_diff (mk_datetime y m d 9 0 59 0)
                                  (mk_datetime y m d 9 0 0 0) = 59000000).
    { unfold datetime_diff, to_us, toordinal, US_PER_SECOND.
      cbn [year month day hour minute second microsecond]. lia. }
    unfold session_entry, duration_hms. rewrite Hdiff. reflexivity.
Qed.

Lemma session_clock_truncates_seconds_witness :
  let start := mk_datetime 2024 1 30 9 15 20 250000 in
  let end_time := mk_datetime 2024 1 30 16 55 19 750000 in
  valid_datetime start = true
  /\ valid_datetime end_time = true
  /\ to_us start <= to_us end_time
  /\ duration_hms start end_time = (7, 39, 59)
  /\ getitem (session_entry start end_time) "duration" = Returns (JStr "7h39m").
Proof.
  intros start end_time.
  assert (Hle : to_us start <= to_us end_time) by (vm_compute; discriminate).
  destruct (session_clock_truncates_seconds start end_time
              eq_refl eq_refl eq_refl eq_refl eq_refl Hle) as [H1 [H2 _]].
  split; [reflexivity|]. split; [reflexivity|]. split; [exact Hle|].
  split; [exact H1 | exact H2].
Defined.

(** C9.  When the end falls on a later calendar day than the start, the
    record carries the start's date, both times as time-of-day text only, and
    a duration computed from the full instants, which is the true elapsed
    time (positive); the [end_time] text can then read earlier than the
    [start_time] text.  The elapsed time is taken below [2^53] microseconds,
    where [total_seconds()] is exact to the second. *)
Theorem session_over_midnight (start end_time : datetime) :
  valid_datetime start = true ->
  valid_datetime end_time = true ->
  toordinal start < toordinal end_time ->
  datetime_diff end_time start < 2 ^ 53 ->
  let total_seconds := datetime_diff end_time start / US_PER_SECOND in
  session_entry start end_time =
    JObj [("date", JStr (strftime_dmY start));
          ("start_time", JStr (strftime_HMS start));
          ("end_time", JStr (strftime_HMS end_time));
          ("duration",
           JStr (str_int (total_seconds / 3600) ++ "h"
                 ++ str_int (total_seconds mod 3600 / 60) ++ "m"))]
  /\ 0 < datetime_diff end_time start
  /\ 0 <= total_seconds
  /\ (exists s e,
        valid_datetime s = true /\ valid_datetime e = true
        /\ toordinal s < toordinal e
        /\ getitem (session_entry s e) "start_time" = Returns (JStr "22:00:00")
        /\ getitem (session_entry s e) "end_time" = Returns (JStr "01:30:00")
        /\ getitem (session_entry s e) "duration" = Returns (JStr "3h30m")
        /\ String.ltb "01:30:00" "22:00:00" = true).
Proof.
  intros Hs He Hday Hbound.
  assert (Hpos : 0 < datetime_diff end_time start).
  { pose proof (valid_time_us _ Hs). pose proof (valid_time_us _ He).
    unfold datetime_diff. rewrite !to_us_split.
    unfold US_PER_DAY, US_PER_SECOND in *. lia. }
  split; [apply session_entry_fields; lia|].
  split; [exact Hpos|].
  split; [apply Z.div_pos; unfold US_PER_SECOND; lia|].
  exists (mk_datetime 2024 1 30 22 0 0 0), (mk_datetime 2024 1 31 1 30 0 0).
  repeat split.
Qed.

Lemma session_over_midnight_witness :
  let start := mk_datetime 2024 2 29 23 50 0 0 in
  let end_time := mk_datetime 2024 3 1 0 20 30 0 in
  valid_datetime start = true
  /\ valid_datetime end_time = true
  /\ toordinal start < toordinal end_time
  /\ datetime_diff end_time start < 2 ^ 53
  /\ session_entry start end_time =
       JObj [("date", JStr "29-02-2024"); ("start_time", JStr "23:50:00");
             ("end_time", JStr "00:20:30"); ("duration", JStr "0h30m")].
Proof.
  intros start end_time.
  destruct (session_over_midnight start end_time
              eq_refl eq_refl eq_refl eq_refl) as [H _].
  split; [reflexivity|]. split; [reflexivity|]. split; [reflexivity|].
  split; [reflexivity | exact H].
Defined.

End SessionClock.

(** ** Redundant lifecycle operations *)

Section Lifecycle.
Variable env : Env.

(** C5.  [stop_tracking] while idle and [start_tracking] while active return
    normally and change nothing but the terminal output: one notice is
    printed; the globals, the timers, the threads and every file stay as
    they were. *)
Theorem redundant_operations_are_absorbed (w : World) (manual : bool) :
  (is_tracking w = false ->
   stop_tracking env manual w =
     (Returns tt,
      set_stdout (stdout w ++ ["Ingen aktiv tidsregistrering at stoppe."]) w))
  /\ (is_tracking w = true ->
      start_tracking env w =
        (Returns tt,
         set_stdout (stdout w ++ ["Tidsregistrering er allerede startet."]) w)).
Proof.
  split; intros H.
  - unfold stop_tracking. step_m. rewrite H. reflexivity.
  - unfold start_tracking. step_m. rewrite H. reflexivity.
Qed.

End Lifecycle.

Lemma redundant_operations_are_absorbed_witness :
  let start := mk_datetime 2024 1 30 9 0 0 0 in
  let env := quiet_env [] start in
  is_tracking fresh_world = false
  /\ is_tracking (active_world start) = true
  /\ stop_tracking env true fresh_world =
       (Returns tt,
        set_stdout ["Ingen aktiv tidsregistrering at stoppe."] fresh_world)
  /\ start_tracking env (active_world start) =
       (Returns tt,
        set_stdout ["Tidsregistrering er allerede startet."] (active_world start)).
Proof.
  intros start env.
  split; [reflexivity|]. split; [reflexivity|]. split.
  - exact (proj1 (redundant_operations_are_absorbed env fresh_world true) eq_refl).
  - exact (proj2 (redundant_operations_are_absorbed env (active_world start) true)
                 eq_refl).
Defined.

(** ** What leaves the phase alone *)

Create HintDb phase.

Section Frame.
Variable env : Env.

Lemma keeps_ret {A} (a : A) : keeps_phase (ret a).
Proof. intros w. split; reflexivity. Qed.

Lemma keeps_raise {A} (e : exn) : keeps_phase (@raise A e).
Proof. intros w. split; reflexivity. Qed.

Lemma keeps_lift {A} (o : outcome A) : keeps_phase (lift o).
Proof. intros w. split; reflexivity. Qed.

Lemma keeps_get {A} (f : World -> A) : keeps_phase (get f).
Proof. intros w. split; reflexivity. Qed.

Lemma keeps_bind {A B} (c : M A) (k : A -> M B) :
  keeps_phase c -> (forall a, keeps_phase (k a)) -> keeps_phase (bind c k).
Proof.
  intros Hc Hk w. unfold bind. specialize (Hc w).
  destruct (c w) as [[a | e] w1]; cbn in *.
  - specialize (Hk a w1). destruct Hk, Hc. split; congruence.
  - exact Hc.
Qed.

Lemma keeps_try_except {A} (c : M A) handles (h : exn -> M A) :
  keeps_phase c -> (forall e, keeps_phase (h e)) ->
  keeps_phase (try_except c handles h).
Proof.
  intros Hc Hh w. unfold try_except. specialize (Hc w).
  destruct (c w) as [[a | e] w1]; cbn in *; [exact Hc|].
  destruct (handles e); [|exact Hc].
  specialize (Hh e w1). destruct Hh, Hc. split; congruence.
Qed.

Lemma keeps_modify (f : World -> World) :
  (forall w, is_tracking (f w) = is_tracking w /\ stop_event (f w) = stop_event w) ->
  keeps_phase (modify f).
Proof. intros H w. exact (H w). Qed.

Lemma keeps_if {A} (b : bool) (c1 c2 : M A) :
  keeps_phase c1 -> keeps_phase c2 -> keeps_phase (if b then c1 else c2).
Proof. destruct b; auto. Qed.

Lemma keeps_print (s : string) : keeps_phase (print s).
Proof. intros w. split; reflexivity. Qed.

Lemma keeps_datetime_now : keeps_phase (datetime_now env).
Proof. intros w. split; reflexivity. Qed.

#[local] Hint Resolve keeps_ret keeps_raise keeps_lift keeps_get keeps_print
  keeps_datetime_now : phase.
#[local] Hint Extern 2 (keeps_phase (bind _ _)) =>
  apply keeps_bind; [|intros ?] : phase.
#[local] Hint Extern 2 (keeps_phase (try_except _ _ _)) =>
  apply keeps_try_except; [|intros ?] : phase.
#[local] Hint Extern 2 (keeps_phase (if _ then _ else _)) =>
  apply keeps_if : phase.
#[local] Hint Extern 3 (keeps_phase (modify _)) =>
  apply keeps_modify; intros ?; split; reflexivity : phase.

Lemma keeps_log (message : string) : keeps_phase (log env message).
Proof. unfold log. auto 10 with phase. Qed.

Lemma keeps_load_time_entries : keeps_phase (load_time_entries env).
Proof.
  unfold load_time_entries. apply keeps_bind; [auto with phase|].
  intros [text|]; auto 10 with phase.
Qed.

Lemma keeps_save_time_entries (entries : value) :
  keeps_phase (save_time_entries env entries).
Proof. unfold save_time_entries. auto 10 with phase. Qed.

Lemma keeps_master_writerow (row : csv_row) : keeps_phase (master_writerow row).
Proof. unfold master_writerow. auto with phase. Qed.

#[local] Hint Resolve keeps_log keeps_load_time_entries keeps_save_time_entries
  keeps_master_writerow : phase.

Lemma keeps_append_to_csv (entry : value) : keeps_phase (append_to_csv env entry).
Proof. unfold append_to_csv. auto 20 with phase. Qed.

#[local] Hint Resolve keeps_append_to_csv : phase.

Lemma keeps_append_time_entry (entry : value) :
  keeps_phase (append_time_entry env entry).
Proof. unfold append_time_entry. auto 20 with phase. Qed.

Lemma keeps_cancel_auto_stop_timer : keeps_phase cancel_auto_stop_timer.
Proof.
  unfold cancel_auto_stop_timer. apply keeps_bind; [auto with phase|].
  intros [i|]; [|auto with phase].
  apply keeps_bind; [auto with phase|]. intros ts.
  destruct (nth_error ts i); auto 10 with phase.
Qed.

#[local] Hint Resolve keeps_append_time_entry keeps_cancel_auto_stop_timer : phase.

Lemma keeps_stop_prepare (manual : bool) : keeps_phase (stop_prepare env manual).
Proof.
  unfold stop_prepare.
  apply keeps_bind; [auto with phase|]. intros end_time.
  apply keeps_bind; [auto with phase|]. intros start.
  apply keeps_bind; [auto with phase|]. intros start'.
  destruct (duration_hms start' end_time) as [[hours minutes] seconds].
  auto 20 with phase.
Qed.

(** With the store unwritable, [append_time_entry] never returns. *)
Lemma append_time_entry_raises (entry : value) (w : World) :
  store_write_fails env = true ->
  exists e, fst (append_time_entry env entry w) = Raises e.
Proof.
  intros Hfail. unfold append_time_entry, save_time_entries. rewrite Hfail.
  unfold bind at 1.
  destruct (load_time_entries env w) as [[v | e] w1]; [|eexists; reflexivity].
  unfold bind at 1. unfold lift.
  destruct (list_append v entry) as [v' | e]; eexists; reflexivity.
Qed.

(** C3 (what the code does).  With a session running and the store file
    unwritable, [stop_tracking] ends in an exception and the transition does
    not happen: [is_tracking] is still [True] and [stop_event] is as it
    was. *)
Theorem unwritable_store_blocks_the_transition (w : World) (manual : bool) :
  is_tracking w = true ->
  store_write_fails env = true ->
  exists e w',
    stop_tracking env manual w = (Raises e, w')
    /\ is_tracking w' = true
    /\ stop_event w' = stop_event w.
Proof.
  intros Hact Hfail. unfold stop_tracking.
  unfold bind at 1. unfold get. rewrite Hact. cbn [negb].
  unfold bind at 1.
  pose proof (keeps_stop_prepare manual w) as [Ht Hs].
  destruct (stop_prepare env manual w) as [[entry | e] w1]; cbn [snd] in *.
  - unfold bind at 1.
    pose proof (keeps_append_time_entry entry w1) as [Ht' Hs'].
    pose proof (append_time_entry_raises entry w1 Hfail) as [e He].
    destruct (append_time_entry env entry w1) as [r w2]; cbn [fst snd] in *.
    subst r. exists e, w2. repeat split; congruence.
  - exists e, w1. repeat split; congruence.
Qed.

End Frame.

(** The same run on a concrete machine: the session started at 09:00 is
    stopped by hand at 17:00 while the store cannot be written. *)
Lemma unwritable_store_blocks_the_transition_witness :
  let start := mk_datetime 2024 1 30 9 0 0 0 in
  let stop := mk_datetime 2024 1 30 17 0 0 0 in
  let env := mk_Env (clock_of [] stop) json_loads Json.dumps "/home/user"
                    true false false false false false false false in
  is_tracking (active_world start) = true
  /\ store_write_fails env = true
  /\ fst (stop_tracking env true (active_world start)) = Raises OSError
  /\ is_tracking (snd (stop_tracking env true (active_world start))) = true
  /\ stop_event (snd (stop_tracking env true (active_world start))) = false
  /\ exists e w',
       stop_tracking env true (active_world start) = (Raises e, w')
       /\ is_tracking w' = true
       /\ stop_event w' = stop_event (active_world start).
Proof.
  intros start stop env.
  split; [reflexivity|]. split; [reflexivity|]. split; [reflexivity|].
  split; [reflexivity|]. split; [reflexivity|].
  exact (unwritable_store_blocks_the_transition env (active_world start) true
           eq_refl eq_refl).
Defined.

(** ** The store and its CSV mirror *)

Section Persistence.
Variable env : Env.

Lemma load_time_entries_world (w : World) :
  snd (load_time_entries env w) = w.
Proof.
  unfold load_time_entries, try_except. step_m.
  destruct (time_entries_file w) as [text|]; [|reflexivity].
  destruct (json_load env text) as [v | []]; reflexivity.
Qed.

(** What line 47 does catch: when the store file is absent, or [json.load]
    raises [JSONDecodeError] on it, [load_time_entries] returns the empty
    list, raises nothing and changes nothing. *)
Lemma load_absent_or_corrupt_is_empty (w : World) :
  time_entries_file w = None
  \/ (exists text, time_entries_file w = Some text
                   /\ json_load env text = Raises JSONDecodeError) ->
  load_time_entries env w = (Returns (JArr []), w).
Proof.
  intros [H | [text [H Hbad]]]; unfold load_time_entries, try_except; step_m;
    rewrite H; [reflexivity|].
  rewrite Hbad. reflexivity.
Qed.

(** What line 47 does not catch: any other exception of [json.load] leaves
    [load_time_entries] as it is. *)
Lemma load_time_entries_lets_other_errors_through (w : World) (text : string)
  (e : exn) :
  time_entries_file w = Some text ->
  json_load env text = Raises e ->
  is_JSONDecodeError e = false ->
  load_time_entries env w = (Raises e, w).
Proof.
  intros Hfile Hload Hother. unfold load_time_entries, try_except. step_m.
  rewrite Hfile, Hload, Hother. reflexivity.
Qed.

(** C8.  When appending to the master CSV raises, [append_to_csv] logs the
    error and [append_time_entry] returns normally: the store file now holds
    the old entries followed by the new one, the CSV file is as it was, and
    the caller sees no error. *)
Theorem csv_failure_leaves_store_ahead (w : World) (entry : value)
  (items : list value) :
  csv_append_fails env = true ->
  store_write_fails env = false ->
  log_write_fails env = false ->
  fst (load_time_entries env w) = Returns (JArr items) ->
  exists w',
    append_time_entry env entry w = (Returns tt, w')
    /\ time_entries_file w' = Some (json_dump env (JArr (items ++ [entry])))
    /\ master_csv_file w' = master_csv_file w
    /\ log_file w' =
         (log_file w
          ++ [("[" ++ strftime_dmY_HMS (clock env (ticks w))
               ++ "] Error appending to CSV: OSError")%string])%list.
Proof.
  intros Hcsv Hstore Hlog Hload.
  pose proof (load_time_entries_world w) as Hw.
  destruct (load_time_entries env w) as [r w0] eqn:E. cbn in Hload, Hw. subst.
  eexists. unfold append_time_entry.
  unfold bind at 1. rewrite E.
  unfold append_to_csv, save_time_entries, log, try_except, datetime_now.
  rewrite Hcsv, Hstore, Hlog. cbn.
  repeat split.
Qed.

End Persistence.

Lemma load_absent_or_corrupt_is_empty_witness :
  let env := quiet_env [] (mk_datetime 2024 1 30 9 0 0 0) in
  let truncated :=
    set_time_entries_file (Some "[{") fresh_world in
  time_entries_file fresh_world = None
  /\ json_load env "[{" = Raises JSONDecodeError
  /\ load_time_entries env fresh_world = (Returns (JArr []), fresh_world)
  /\ load_time_entries env truncated = (Returns (JArr []), truncated).
Proof.
  intros env truncated.
  split; [reflexivity|]. split; [reflexivity|]. split.
  - exact (load_absent_or_corrupt_is_empty env fresh_world (or_introl eq_refl)).
  - exact (load_absent_or_corrupt_is_empty env truncated
             (or_intror (ex_intro _ _ (conj eq_refl eq_refl)))).
Defined.

(** C7.  A store file that is not valid JSON does not always load as empty.
    On the single byte 255, which is no UTF-8 text, [json.load] raises
    [UnicodeDecodeError]; on two thousand opening brackets it raises
    [RecursionError].  Line 47 catches neither, so [load_time_entries]
    raises, and with it the session logic ([stop_tracking] raises and the
    session stays open) and the scheduler ([generate_weekly_csv] raises
    before it arms its next run). *)
Theorem load_time_entries_raises_on_a_corrupt_store :
  let start := mk_datetime 2024 1 30 9 0 0 0 in
  let env := quiet_env [] (mk_datetime 2024 1 30 17 0 0 0) in
  let bytes := set_time_entries_file (Some store_of_one_byte_255) fresh_world in
  let nested := set_time_entries_file (Some (open_brackets 2000)) fresh_world in
  let session := set_time_entries_file (Some store_of_one_byte_255)
                   (active_world start) in
  load_time_entries env bytes = (Raises UnicodeDecodeError, bytes)
  /\ load_time_entries env nested = (Raises RecursionError, nested)
  /\ fst (stop_tracking env true session) = Raises UnicodeDecodeError
  /\ is_tracking (snd (stop_tracking env true session)) = true
  /\ stop_event (snd (stop_tracking env true session)) = false
  /\ fst (generate_weekly_csv env bytes) = Raises UnicodeDecodeError
  /\ timers (snd (generate_weekly_csv env bytes)) = timers bytes.
Proof.
  intros start env bytes nested session.
  split; [exact (load_time_entries_lets_other_errors_through env bytes
                   store_of_one_byte_255 UnicodeDecodeError
                   eq_refl eq_refl eq_refl)|].
  split; [vm_compute; reflexivity|].
  repeat split; vm_compute; reflexivity.
Qed.

Lemma csv_failure_leaves_store_ahead_witness :
  let now := mk_datetime 2024 1 31 17 0 0 0 in
  let env := mk_Env (clock_of [] now) json_loads Json.dumps "/home/user"
                    false true false false false false false false in
  let old := entry_dated "30-01-2024" in
  let new := entry_dated "31-01-2024" in
  let w := world_with_store [old] in
  csv_append_fails env = true
  /\ store_write_fails env = false
  /\ log_write_fails env = false
  /\ fst (load_time_entries env w) = Returns (JArr [old])
  /\ exists w',
       append_time_entry env new w = (Returns tt, w')
       /\ time_entries_file w' = Some (Json.dumps (JArr [old; new]))
       /\ master_csv_file w' = None
       /\ log_file w' = ["[31-01-2024 17:00:00] Error appending to CSV: OSError"].
Proof.
  intros now env old new w.
  split; [reflexivity|]. split; [reflexivity|]. split; [reflexivity|].
  split; [reflexivity|].
  exact (csv_failure_leaves_store_ahead env w new [old]
           eq_refl eq_refl eq_refl eq_refl).
Defined.

(** ** One finalize, one record *)

Section Finalize.
Variable env : Env.

Lemma cancel_auto_stop_timer_effect (w : World) :
  exists ts, cancel_auto_stop_timer w = (Returns tt, set_timers ts w).
Proof.
  unfold cancel_auto_stop_timer. step_m.
  destruct w as [tr st se [i|] ts th f m wk lg tty sin sout tk]; cbn.
  - destruct (nth_error ts i) as [tm|]; [destruct (alive tm)|];
      eexists; reflexivity.
  - exists ts. reflexivity.
Qed.

Lemma load_time_entries_same_file (w w1 : World) :
  time_entries_file w1 = time_entries_file w ->
  load_time_entries env w1 = (fst (load_time_entries env w), w1).
Proof.
  intros H. unfold load_time_entries, try_except. step_m. rewrite H.
  destruct (time_entries_file w) as [text|]; [|reflexivity].
  destruct (json_load env text) as [v | []]; reflexivity.
Qed.

Lemma entry_row_session_entry (start end_time : datetime) :
  exists duration,
    session_entry start end_time =
      JObj [("date", JStr (strftime_dmY start));
            ("start_time", JStr (strftime_HMS start));
            ("end_time", JStr (strftime_HMS end_time));
            ("duration", JStr duration)]
    /\ entry_row (session_entry start end_time) =
         Returns [JStr (strftime_dmY start); JStr (strftime_HMS start);
                  JStr (strftime_HMS end_time); JStr duration].
Proof.
  unfold session_entry.
  destruct (duration_hms start end_time) as [[hours minutes] seconds].
  eexists. split; reflexivity.
Qed.

Lemma stop_prepare_effect (w : World) (manual : bool) (start : datetime) :
  start_time w = Some start ->
  log_write_fails env = false ->
  exists w1,
    stop_prepare env manual w
    = (Returns (session_entry start (clock env (ticks w))), w1)
    /\ time_entries_file w1 = time_entries_file w
    /\ master_csv_file w1 = master_csv_file w.
Proof.
  intros Hstart Hlog. unfold stop_prepare, datetime_now, log.
  rewrite Hlog. step_m. cbn [start_time set_ticks]. rewrite Hstart. cbn [of_option].
  destruct (duration_hms start (clock env (ticks w))) as [[hours minutes] seconds].
  destruct (cancel_auto_stop_timer_effect (set_ticks (S (ticks w)) w)) as [ts Hc].
  rewrite Hc.
  destruct manual; eexists; (split; [reflexivity|]); split; reflexivity.
Qed.

(** X1.  With a session running and the store, the CSV file and the log all
    writable, [stop_tracking] returns normally, leaves the process idle with
    the stop event set, stores the old entries followed by the record of this
    session, and appends that record's row at the end of the master CSV
    file. *)
Theorem stop_tracking_records_the_session (w : World) (manual : bool)
  (start : datetime) (items : list value) :
  is_tracking w = true ->
  start_time w = Some start ->
  store_write_fails env = false ->
  csv_append_fails env = false ->
  log_write_fails env = false ->
  fst (load_time_entries env w) = Returns (JArr items) ->
  let entry := session_entry start (clock env (ticks w)) in
  exists w' row rows,
    stop_tracking env manual w = (Returns tt, w')
    /\ is_tracking w' = false
    /\ stop_event w' = true
    /\ time_entries_file w' = Some (json_dump env (JArr (items ++ [entry])))
    /\ entry_row entry = Returns row
    /\ master_csv_file w' = Some (rows ++ [row])%list.
Proof.
  intros Hact Hstart Hstore Hcsv Hlog Hload entry.
  destruct (stop_prepare_effect w manual start Hstart Hlog) as [w1 [Hp [Hf Hm]]].
  destruct (entry_row_session_entry start (clock env (ticks w)))
    as [duration [Hentry Hrow]].
  fold entry in Hp, Hentry, Hrow.
  unfold stop_tracking. unfold bind at 1. unfold get. rewrite Hact. cbn [negb].
  unfold bind at 1. rewrite Hp.
  unfold bind at 1. unfold append_time_entry.
  unfold bind at 1. rewrite (load_time_entries_same_file w w1 Hf), Hload.
  unfold bind at 1. unfold lift, list_append.
  unfold bind at 1. unfold save_time_entries. rewrite Hstore.
  unfold append_to_csv, try_except, stop_notify, log, datetime_now.
  rewrite Hcsv, Hlog, Hrow. step_m. cbn.
  destruct (master_csv_file w1) as [old|]; cbn.
  - eexists _, _, old. repeat split.
  - eexists _, _, [CSV_HEADERS]. repeat split.
Qed.

End Finalize.

Lemma stop_tracking_records_the_session_witness :
  let start := mk_datetime 2024 1 30 9 0 0 0 in
  let env := quiet_env [] (mk_datetime 2024 1 30 17 0 0 0) in
  let w := active_world start in
  let entry := session_entry start (clock env (ticks w)) in
  is_tracking w = true
  /\ start_time w = Some start
  /\ store_write_fails env = false
  /\ csv_append_fails env = false
  /\ log_write_fails env = false
  /\ fst (load_time_entries env w) = Returns (JArr [])
  /\ exists w' row rows,
       stop_tracking env true w = (Returns tt, w')
       /\ is_tracking w' = false
       /\ stop_event w' = true
       /\ time_entries_file w' = Some (json_dump env (JArr ([] ++ [entry])))
       /\ entry_row entry = Returns row
       /\ master_csv_file w' = Some (rows ++ [row])%list.
Proof.
  intros start env w entry.
  repeat (split; [reflexivity|]).
  exact (stop_tracking_records_the_session env w true start []
           eq_refl eq_refl eq_refl eq_refl eq_refl eq_refl).
Defined.

(** ** The terminal *)

Section Terminal.
Variable env : Env.

(** What runs inside the [try] leaves the terminal in raw mode once [setraw]
    has succeeded, whether the read returns a character or raises. *)
Lemma read_happens_in_raw_mode (w : World) (raw : Tty.attrs) :
  tcgetattr_fails env = false ->
  setraw_fails env = false ->
  Tty.raw_mode (tty_attrs w) = Some raw ->
  tty_attrs (snd ((setraw env ;; stdin_read1 env) w)) = raw.
Proof.
  intros Hget Hraw Hmode.
  unfold setraw, stdin_read1, tcgetattr, tcsetattr.
  rewrite Hget, Hraw. step_m. rewrite Hmode. cbn.
  destruct (stdin_read_fails env); [reflexivity|].
  cbn. destruct (stdin w); reflexivity.
Qed.

(** When the [tcsetattr] call of the [finally] clause succeeds, the outcome of
    [get_key_press] is the outcome of the [try], in a world with the saved
    settings put back. *)
Lemma get_key_press_outcome (w : World) :
  tcgetattr_fails env = false ->
  restore_fails env = false ->
  get_key_press env w
  = (fst ((setraw env ;; stdin_read1 env) w),
     set_tty_attrs (tty_attrs w) (snd ((setraw env ;; stdin_read1 env) w))).
Proof.
  intros Hget Hrestore.
  unfold get_key_press, try_finally, tcgetattr at 1, tcsetattr at 1.
  rewrite Hget, Hrestore. unfold bind at 1, get at 1.
  destruct ((setraw env ;; stdin_read1 env) w) as [r w']. reflexivity.
Qed.

(** C10 (as amended).  In every execution in which the [tcsetattr] call of the
    [finally] clause succeeds, [get_key_press] leaves the terminal attributes
    as they were before the call.  The restore is no empty gesture: once
    [tcgetattr] and [setraw] have succeeded, the read runs with the terminal
    in raw mode, whether it returns a character or raises, and its outcome is
    the outcome of the call. *)
Theorem get_key_press_restores_terminal (w : World) :
  restore_fails env = false ->
  tty_attrs (snd (get_key_press env w)) = tty_attrs w
  /\ (tcgetattr_fails env = false ->
      setraw_fails env = false ->
      forall raw, Tty.raw_mode (tty_attrs w) = Some raw ->
      tty_attrs (snd ((setraw env ;; stdin_read1 env) w)) = raw
      /\ fst (get_key_press env w) = fst ((setraw env ;; stdin_read1 env) w)).
Proof.
  intros Hrestore. split.
  - destruct (tcgetattr_fails env) eqn:Hget.
    + unfold get_key_press, tcgetattr. rewrite Hget. reflexivity.
    + rewrite (get_key_press_outcome w Hget Hrestore). reflexivity.
  - intros Hget Hraw raw Hmode. split.
    + exact (read_happens_in_raw_mode w raw Hget Hraw Hmode).
    + rewrite (get_key_press_outcome w Hget Hrestore). reflexivity.
Qed.

(** The read that raises happens in raw mode, and the exception goes on to the
    caller after the attributes are put back. *)
Lemma failed_read_happens_in_raw_mode (w : World) :
  tcgetattr_fails env = false ->
  setraw_fails env = false ->
  stdin_read_fails env = true ->
  restore_fails env = false ->
  forall raw, Tty.raw_mode (tty_attrs w) = Some raw ->
  (setraw env ;; stdin_read1 env) w = (Raises OSError, set_tty_attrs raw w)
  /\ get_key_press env w
     = (Raises OSError, set_tty_attrs (tty_attrs w) (set_tty_attrs raw w)).
Proof.
  intros Hget Hraw Hread Hrestore raw Hmode.
  unfold get_key_press, try_finally, setraw, stdin_read1, tcgetattr, tcsetattr.
  rewrite Hget, Hraw, Hread, Hrestore. step_m. rewrite Hmode. cbn.
  split; reflexivity.
Qed.

(** When the restore itself fails, as it does once the terminal has hung up,
    [termios.error] takes the place of whatever the [try] gave and the
    terminal stays in raw mode. *)
Lemma failed_restore_leaves_raw_mode (w : World) :
  tcgetattr_fails env = false ->
  setraw_fails env = false ->
  restore_fails env = true ->
  forall raw, Tty.raw_mode (tty_attrs w) = Some raw ->
  fst (get_key_press env w) = Raises TermiosError
  /\ tty_attrs (snd (get_key_press env w)) = raw.
Proof.
  intros Hget Hraw Hrestore raw Hmode.
  pose proof (read_happens_in_raw_mode w raw Hget Hraw Hmode) as Hbody.
  assert (Hcall : get_key_press env w
                  = (Raises TermiosError, snd ((setraw env ;; stdin_read1 env) w))).
  { unfold get_key_press, try_finally, tcgetattr at 1, tcsetattr at 1.
    rewrite Hget, Hrestore. unfold bind at 1, get at 1.
    destruct ((setraw env ;; stdin_read1 env) w) as [r w']. reflexivity. }
  rewrite Hcall. split; [reflexivity|exact Hbody].
Qed.

End Terminal.

Lemma get_key_press_restores_terminal_witness :
  let env := mk_Env (clock_of [] (mk_datetime 2024 1 30 9 0 0 0)) json_loads
                    Json.dumps "/home/user"
                    false false false false false false true false in
  let w := set_stdin "y" fresh_world in
  restore_fails env = false
  /\ tty_attrs (snd (get_key_press env w)) = tty_attrs w
  /\ tcgetattr_fails env = false
  /\ setraw_fails env = false
  /\ exists raw,
       Tty.raw_mode (tty_attrs w) = Some raw
       /\ raw <> tty_attrs w
       /\ tty_attrs (snd ((setraw env ;; stdin_read1 env) w)) = raw
       /\ fst (get_key_press env w) = fst ((setraw env ;; stdin_read1 env) w)
       /\ fst ((setraw env ;; stdin_read1 env) w) = Raises OSError.
Proof.
  intros env w.
  destruct (get_key_press_restores_terminal env w eq_refl) as [Hsame Hbody].
  split; [reflexivity|]. split; [exact Hsame|].
  split; [reflexivity|]. split; [reflexivity|].
  eexists. split; [reflexivity|].
  split; [intros H; discriminate H|].
  destruct (Hbody eq_refl eq_refl _ eq_refl) as [Hraw Hout].
  split; [exact Hraw|]. split; [exact Hout|]. reflexivity.
Defined.

(** C10 (counterexample).  The terminal hangs up while [get_key_press] waits
    for a key: the read raises, the [tcsetattr] call of the [finally] clause
    raises as well, and the call ends with [termios.error] and the terminal
    still in raw mode. *)
Lemma get_key_press_leaves_raw_mode_at_hang_up :
  let env := mk_Env (clock_of [] (mk_datetime 2024 1 30 9 0 0 0)) json_loads
                    Json.dumps "/home/user"
                    false false false false false false false true in
  let w := fresh_world in
  stdin w = EmptyString
  /\ restore_fails env = true
  /\ fst ((setraw env ;; stdin_read1 env) w) = Raises OSError
  /\ fst (get_key_press env w) = Raises TermiosError
  /\ tty_attrs (snd (get_key_press env w)) <> tty_attrs w.
Proof.
  intros env w.
  split; [reflexivity|]. split; [reflexivity|]. split; [reflexivity|].
  split; [reflexivity|].
  vm_compute. intros H. discriminate H.
Qed.

(** ** The weekly export *)

Section WeeklyExport.

Lemma valid_fields (d : datetime) :
  valid_datetime d = true ->
  1 <= year d /\ 1 <= month d <= 12 /\ 1 <= day d
  /\ 0 <= hour d < 24 /\ 0 <= minute d < 60 /\ 0 <= second d < 60
  /\ 0 <= microsecond d < 1000000.
Proof.
  unfold valid_datetime, MINYEAR. intros H.
  repeat (apply andb_true_iff in H; destruct H as [H ?]).
  lia.
Qed.

Lemma toordinal_positive (d : datetime) :
  valid_datetime d = true -> 1 <= toordinal d.
Proof.
  intros H. apply valid_fields in H.
  destruct H as [Hy [Hm [Hd _]]].
  unfold toordinal, ymd2ord.
  assert (0 <= days_before_year (year d)).
  { unfold days_before_year. Z.div_mod_to_equations. lia. }
  assert (0 <= days_before_month (year d) (month d)).
  { unfold days_before_month.
    assert (0 <= DAYS_BEFORE_MONTH (month d)).
    { assert (Hcases : month d = 1 \/ month d = 2 \/ month d = 3 \/ month d = 4
                       \/ month d = 5 \/ month d = 6 \/ month d = 7 \/ month d = 8
                       \/ month d = 9 \/ month d = 10 \/ month d = 11
                       \/ month d = 12) by lia.
      repeat (destruct Hcases as [-> | Hcases]; [vm_compute; discriminate|]).
      rewrite Hcases. vm_compute; discriminate. }
    destruct (_ && _); lia. }
  lia.
Qed.

(** Adding whole days moves the ordinal and keeps the time of day. *)
Lemma datetime_add_days (d : datetime) (k : Z) :
  0 <= hour d < 24 -> 0 <= minute d < 60 -> 0 <= second d < 60 ->
  0 <= microsecond d < 1000000 ->
  0 < toordinal d + k <= MAXORDINAL ->
  exists r,
    datetime_add d (mk_timedelta k 0 0 0) = Some r
    /\ toordinal r = toordinal d + k
    /\ hour r = hour d /\ minute r = minute d /\ second r = second d
    /\ microsecond r = microsecond d.
Proof.
  intros Hh Hm Hs Hu Hk.
  unfold datetime_add, divmod.
  set (tsec := hour d * 3600 + minute d * 60 + second d).
  assert (Htotal : to_us d + mk_timedelta k 0 0 0
                   = (toordinal d + k) * US_PER_DAY
                     + (tsec * US_PER_SECOND + microsecond d)).
  { unfold to_us, mk_timedelta, US_PER_DAY, US_PER_SECOND, tsec. lia. }
  rewrite Htotal.
  assert (Hdays : ((toordinal d + k) * US_PER_DAY
                   + (tsec * US_PER_SECOND + microsecond d)) / US_PER_DAY
                  = toordinal d + k).
  { symmetry. apply Z.div_unique with (r := tsec * US_PER_SECOND + microsecond d);
      unfold US_PER_DAY, US_PER_SECOND, tsec; lia. }
  assert (Hrest : ((toordinal d + k) * US_PER_DAY
                   + (tsec * US_PER_SECOND + microsecond d)) mod US_PER_DAY
                  = tsec * US_PER_SECOND + microsecond d).
  { symmetry. apply Z.mod_unique with (q := toordinal d + k);
      unfold US_PER_DAY, US_PER_SECOND, tsec; lia. }
  rewrite Hdays, Hrest.
  assert (Hsecs : (tsec * US_PER_SECOND + microsecond d) / US_PER_SECOND = tsec).
  { symmetry. apply Z.div_unique with (r := microsecond d);
      unfold US_PER_SECOND; lia. }
  assert (Hus : (tsec * US_PER_SECOND + microsecond d) mod US_PER_SECOND
                = microsecond d).
  { symmetry. apply Z.mod_unique with (q := tsec); unfold US_PER_SECOND; lia. }
  rewrite Hsecs, Hus.
  assert (Hhour : tsec / 3600 = hour d).
  { symmetry. apply Z.div_unique with (r := minute d * 60 + second d);
      unfold tsec; lia. }
  assert (Hrem : tsec mod 3600 = minute d * 60 + second d).
  { symmetry. apply Z.mod_unique with (q := hour d); unfold tsec; lia. }
  rewrite Hhour, Hrem.
  assert (Hmin : (minute d * 60 + second d) / 60 = minute d).
  { symmetry. apply Z.div_unique with (r := second d); lia. }
  assert (Hsec : (minute d * 60 + second d) mod 60 = second d).
  { symmetry. apply Z.mod_unique with (q := minute d); lia. }
  rewrite Hmin, Hsec.
  replace ((0 <? toordinal d + k) && (toordinal d + k <=? MAXORDINAL)) with true
    by (symmetry; apply andb_true_iff; split; [apply Z.ltb_lt | apply Z.leb_le]; lia).
  pose proof (ymd2ord_ord2ymd (toordinal d + k) ltac:(lia)) as Hround.
  destruct (ord2ymd (toordinal d + k)) as [[y mo] dd].
  eexists. split; [reflexivity|]. cbn. repeat split. exact Hround.
Qed.

Lemma weekday_range (d : datetime) : 0 <= weekday d < 7.
Proof. unfold weekday. apply Z.mod_pos_bound. lia. Qed.

(** What the scheduler computes, for every instant: the run is at 16:00 on a
    Monday, the same day when [now] is a Monday not after 16:00, seven days
    ahead when it is a Monday after 16:00, the coming Monday otherwise. *)
Theorem next_run_after_is_a_monday (now : datetime) :
  valid_datetime now = true ->
  toordinal now + 7 <= MAXORDINAL ->
  let days_ahead :=
    if weekday now =? 0
    then (if time_gt now (mk_datetime 1900 1 1 16 0 0 0) then 7 else 0)
    else 7 - weekday now in
  exists next_run,
    next_run_after now = Returns next_run
    /\ toordinal next_run = toordinal now + days_ahead
    /\ weekday next_run = 0
    /\ hour next_run = 16 /\ minute next_run = 0
    /\ second next_run = 0 /\ microsecond next_run = 0.
Proof.
  intros Hv Hmax. cbv zeta.
  pose proof (weekday_range now) as Hw.
  pose proof (toordinal_positive now Hv) as Hpos.
  unfold next_run_after.
  change (strptime_HM WEEKLY_CSV_TIME) with (Some (mk_datetime 1900 1 1 16 0 0 0)).
  change (strptime_A WEEKLY_CSV_DAY) with (Some (mk_datetime 1900 1 1 0 0 0 0)).
  cbv beta iota zeta.
  change (weekday (mk_datetime 1900 1 1 0 0 0 0)) with 0.
  set (days := if ((0 - weekday now) mod 7 =? 0)
                  && time_gt now (mk_datetime 1900 1 1 16 0 0 0)
               then 7 else (0 - weekday now) mod 7).
  assert (Hdays : days = if weekday now =? 0
                         then (if time_gt now (mk_datetime 1900 1 1 16 0 0 0)
                               then 7 else 0)
                         else 7 - weekday now).
  { unfold days. destruct (weekday now =? 0) eqn:E0.
    - apply Z.eqb_eq in E0. rewrite E0. cbn [Z.sub Z.modulo]. 
      change ((0 - 0) mod 7) with 0. cbn [Z.eqb andb].
      destruct (time_gt now _); reflexivity.
    - apply Z.eqb_neq in E0.
      assert (Hm : (0 - weekday now) mod 7 = 7 - weekday now).
      { symmetry. apply Z.mod_unique with (q := -1); lia. }
      rewrite Hm.
      replace (7 - weekday now =? 0) with false by (symmetry; apply Z.eqb_neq; lia).
      reflexivity. }
  rewrite <- Hdays.
  assert (Hrange : 0 <= days <= 7).
  { rewrite Hdays. destruct (weekday now =? 0); [destruct (time_gt now _)|]; lia. }
  pose proof (valid_fields now Hv) as [_ [_ [_ [Vh [Vm [Vs Vu]]]]]].
  destruct (datetime_add_days now days Vh Vm Vs Vu ltac:(lia))
    as [r [Hadd [Hord [Hh [Hm [Hs Hu]]]]]].
  rewrite Hadd. eexists. split; [reflexivity|].
  assert (Hsame : toordinal (replace_time r 16 0) = toordinal r) by reflexivity.
  cbn [hour minute second microsecond replace_time].
  unfold weekday at 1. rewrite Hsame, Hord.
  split; [reflexivity|]. split; [|repeat split].
  unfold weekday in Hw, Hdays. rewrite Hdays.
  destruct ((toordinal now + 6) mod 7 =? 0) eqn:E0.
  - apply Z.eqb_eq in E0.
    destruct (time_gt now _); Z.div_mod_to_equations; lia.
  - apply Z.eqb_neq in E0. Z.div_mod_to_equations. lia.
Qed.

(** Lines 198-199 find the Monday and the Sunday of the week of [now]. *)
Lemma week_bounds_are_monday_and_sunday (now : datetime) :
  valid_datetime now = true ->
  toordinal now + 6 <= MAXORDINAL ->
  exists start_of_week end_of_week,
    week_bounds now = Returns (start_of_week, end_of_week)
    /\ weekday start_of_week = 0
    /\ weekday end_of_week = 6
    /\ toordinal start_of_week <= toordinal now <= toordinal end_of_week
    /\ toordinal end_of_week = toordinal start_of_week + 6.
Proof.
  intros Hv Hmax.
  pose proof (weekday_range now) as Hw.
  pose proof (toordinal_positive now Hv) as Hpos.
  pose proof (valid_fields now Hv) as [_ [_ [_ [Vh [Vm [Vs Vu]]]]]].
  assert (Hmon : 1 <= toordinal now - weekday now).
  { unfold weekday in *. Z.div_mod_to_equations. lia. }
  unfold week_bounds.
  replace (- mk_timedelta (weekday now) 0 0 0)
    with (mk_timedelta (- weekday now) 0 0 0) by (unfold mk_timedelta; lia).
  destruct (datetime_add_days now (- weekday now) Vh Vm Vs Vu ltac:(lia))
    as [mon [Hadd [Hord [Hh [Hm [Hs Hu]]]]]].
  rewrite Hadd.
  destruct (datetime_add_days mon 6 ltac:(lia) ltac:(lia) ltac:(lia) ltac:(lia)
              ltac:(lia))
    as [sun [Hadd' [Hord' _]]].
  rewrite Hadd'. exists mon, sun.
  split; [reflexivity|].
  unfold weekday in *. rewrite Hord', Hord.
  repeat split; try lia; Z.div_mod_to_equations; lia.
Qed.

(** C1 (what the code does).  The export compares the ['%d-%m-%Y'] texts, so
    the window is textual and not a range of dates.  In the week from Monday
    29-01-2024 to Sunday 04-02-2024 the record of Tuesday 30-01-2024 is left
    out (["30-01-2024" <= "04-02-2024"] is false) and no file is written; in
    the week from 05-02-2024 to 11-02-2024 a record of 08-01-2024, four weeks
    old, is exported. *)
Theorem weekly_export_compares_dates_as_text :
  (let wednesday := mk_datetime 2024 1 31 12 0 0 0 in
   let monday := mk_datetime 2024 1 29 12 0 0 0 in
   let sunday := mk_datetime 2024 2 4 12 0 0 0 in
   let tuesday := mk_datetime 2024 1 30 9 0 0 0 in
   let w := world_with_store [entry_dated (strftime_dmY tuesday)] in
   let w' := snd (generate_weekly_csv (quiet_env [] wednesday) w) in
   week_bounds wednesday = Returns (monday, sunday)
   /\ weekday monday = 0 /\ weekday sunday = 6
   /\ toordinal monday <= toordinal tuesday <= toordinal sunday
   /\ in_week monday sunday (entry_dated (strftime_dmY tuesday)) = Returns false
   /\ weekly_csv_files w' = []
   /\ stdout w' = [nl ++ "Ingen tidsregistreringer fundet for denne uge.";
                   nl ++ "Weekly CSV scheduled to run at Monday 16:00:00."])
  /\
  (let wednesday := mk_datetime 2024 2 7 12 0 0 0 in
   let monday := mk_datetime 2024 2 5 12 0 0 0 in
   let sunday := mk_datetime 2024 2 11 12 0 0 0 in
   let january_8 := mk_datetime 2024 1 8 9 0 0 0 in
   let w := world_with_store [entry_dated (strftime_dmY january_8)] in
   let w' := snd (generate_weekly_csv (quiet_env [] wednesday) w) in
   week_bounds wednesday = Returns (monday, sunday)
   /\ toordinal january_8 < toordinal monday
   /\ in_week monday sunday (entry_dated (strftime_dmY january_8)) = Returns true
   /\ weekly_csv_files w' =
        [("/home/user/scripts/export/time_tracker_weekly_2024-02-11.csv",
          [CSV_HEADERS;
           [JStr "08-01-2024"; JStr "09:00:00"; JStr "17:00:00"; JStr "8h0m"]])]).
Proof. vm_compute. repeat split; discriminate. Qed.

(** C6 (what the code does).  [strptime('Friday', '%A')] is 1 January 1900,
    whose [weekday()] is 0, so the scheduler aims at Monday.  On a Friday
    before 16:00, on a Friday after 16:00 and on a Tuesday the next run is the
    coming Monday at 16:00; on a Monday before 16:00 it is that same day. *)
Theorem weekly_scheduler_runs_on_monday :
  let friday_morning := mk_datetime 2024 2 2 10 0 0 0 in
  let friday_evening := mk_datetime 2024 2 2 17 0 0 0 in
  let tuesday := mk_datetime 2024 1 30 10 0 0 0 in
  let monday_morning := mk_datetime 2024 2 5 10 0 0 0 in
  option_map weekday (strptime_A WEEKLY_CSV_DAY) = Some 0
  /\ weekday friday_morning = 4
  /\ weekday friday_evening = 4
  /\ next_run_after friday_morning = Returns (mk_datetime 2024 2 5 16 0 0 0)
  /\ next_run_after friday_evening = Returns (mk_datetime 2024 2 5 16 0 0 0)
  /\ next_run_after tuesday = Returns (mk_datetime 2024 2 5 16 0 0 0)
  /\ next_run_after monday_morning = Returns (mk_datetime 2024 2 5 16 0 0 0)
  /\ weekday (mk_datetime 2024 2 5 16 0 0 0) = 0.
Proof. vm_compute. repeat split. Qed.

End WeeklyExport.

(** ** Finalizers that run at the same time *)

Section Concurrency.

(** A thread that is left alone runs [stop_tracking]. *)
Lemma stop_tracking_thread_alone (env : Env) (manual : bool) (w : World) :
  snd (run_alone 6 (stop_tracking_thread env manual) w)
  = snd (stop_tracking env manual w).
Proof.
  unfold stop_tracking, stop_tracking_thread, bind, get, ret, modify, print.
  cbn [run_alone step_thread snd].
  destruct (is_tracking w); cbn [negb run_alone step_thread snd]; [|reflexivity].
  destruct (stop_prepare env manual w) as [[entry | e] w1];
    cbn [run_alone step_thread snd]; [|reflexivity].
  destruct (append_time_entry env entry w1) as [[[] | e] w2];
    cbn [run_alone step_thread snd]; [|reflexivity].
  destruct (stop_notify env _) as [[[] | e] w3]; reflexivity.
Qed.

(** C2 (what the code does).  A session started at 09:00 reaches 16:40, when
    the auto-stop timer fires, and the user presses [d] at that moment.  If
    the timer thread tests [is_tracking] before the listener thread has
    cleared it, both go on: the session is written twice, to the store and to
    the CSV file, and [cancel()] comes too late to stop the timer.  Nothing
    but the flag stands between the two callers.  Run one after the other,
    in either order, the same two threads write one record. *)
Theorem racing_finalizers_append_twice :
  let started := mk_datetime 2024 1 30 9 0 0 0 in
  let stopped := mk_datetime 2024 1 30 16 40 0 0 in
  let env := quiet_env [started; started] stopped in
  let active := snd (start_tracking env (set_stdin "d" fresh_world)) in
  let record := session_entry started stopped in
  let pool := [listen_for_stop_thread env 1; auto_stop_thread env 0] in
  let interleaved :=
    run_schedule [0; 0; 0; 1; 1; 0; 0; 0; 0; 0; 1; 1; 1; 1; 1; 1]%nat pool active in
  let listener_first :=
    run_schedule [0; 0; 0; 0; 0; 0; 0; 0; 1; 1; 1; 1; 1; 1; 1; 1]%nat pool active in
  let timer_first :=
    run_schedule [1; 1; 1; 1; 1; 1; 1; 1; 0; 0; 0; 0; 0; 0; 0; 0]%nat pool active in
  is_tracking active = true
  /\ auto_stop_timer active = Some 0%nat
  /\ time_entries_file active = None
  /\ forallb is_finished (fst interleaved) = true
  /\ is_tracking (snd interleaved) = false
  /\ option_map (json_load env) (time_entries_file (snd interleaved))
       = Some (Returns (JArr [record; record]))
  /\ master_csv_file (snd interleaved)
       = Some [CSV_HEADERS;
               [JStr "30-01-2024"; JStr "09:00:00"; JStr "16:40:00"; JStr "7h40m"];
               [JStr "30-01-2024"; JStr "09:00:00"; JStr "16:40:00"; JStr "7h40m"]]
  /\ forallb is_finished (fst listener_first) = true
  /\ option_map (json_load env) (time_entries_file (snd listener_first))
       = Some (Returns (JArr [record]))
  /\ forallb is_finished (fst timer_first) = true
  /\ option_map (json_load env) (time_entries_file (snd timer_first))
       = Some (Returns (JArr [record])).
Proof. vm_compute. repeat split. Qed.

End Concurrency.

(** * Further properties of the script *)

(** ** Frame lemmas for any part of the world *)

Create HintDb frame.

Section Preserves.
Context {F : Type} (f : World -> F).

Lemma preserves_ret {A} (a : A) : preserves f (ret a).
Proof. intros w. reflexivity. Qed.

Lemma preserves_raise {A} (e : exn) : preserves f (@raise A e).
Proof. intros w. reflexivity. Qed.

Lemma preserves_lift {A} (o : outcome A) : preserves f (lift o).
Proof. intros w. reflexivity. Qed.

Lemma preserves_get {A} (g : World -> A) : preserves f (get g).
Proof. intros w. reflexivity. Qed.

Lemma preserves_bind {A B} (c : M A) (k : A -> M B) :
  preserves f c -> (forall a, preserves f (k a)) -> preserves f (bind c k).
Proof.
  intros Hc Hk w. unfold bind. specialize (Hc w).
  destruct (c w) as [[a | e] w1]; cbn in *; [|exact Hc].
  rewrite (Hk a w1). exact Hc.
Qed.

Lemma preserves_try_except {A} (c : M A) handles (h : exn -> M A) :
  preserves f c -> (forall e, preserves f (h e)) ->
  preserves f (try_except c handles h).
Proof.
  intros Hc Hh w. unfold try_except. specialize (Hc w).
  destruct (c w) as [[a | e] w1]; cbn in *; [exact Hc|].
  destruct (handles e); [|exact Hc].
  rewrite (Hh e w1). exact Hc.
Qed.

Lemma preserves_if {A} (b : bool) (c1 c2 : M A) :
  preserves f c1 -> preserves f c2 -> preserves f (if b then c1 else c2).
Proof. destruct b; auto. Qed.

Lemma preserves_modify (g : World -> World) :
  (forall w, f (g w) = f w) -> preserves f (modify g).
Proof. intros H w. exact (H w). Qed.

End Preserves.

#[local] Hint Resolve preserves_ret preserves_raise preserves_lift preserves_get
  : frame.
#[local] Hint Extern 2 (preserves _ (bind _ _)) =>
  apply preserves_bind; [|intros ?] : frame.
#[local] Hint Extern 2 (preserves _ (try_except _ _ _)) =>
  apply preserves_try_except; [|intros ?] : frame.
#[local] Hint Extern 2 (preserves _ (if _ then _ else _)) =>
  apply preserves_if : frame.
#[local] Hint Extern 3 (preserves _ (modify _)) =>
  apply preserves_modify; intros ?; reflexivity : frame.
#[local] Hint Extern 3 (preserves _ (print _)) =>
  unfold print : frame.
#[local] Hint Extern 3 (preserves _ (datetime_now _)) =>
  intros ?; reflexivity : frame.
#[local] Hint Extern 3 (preserves _ (log _ _)) =>
  unfold log : frame.
#[local] Hint Extern 3 (preserves _ (master_writerow _)) =>
  unfold master_writerow : frame.
#[local] Hint Extern 3 (preserves _ (weekly_writerow _ _)) =>
  unfold weekly_writerow : frame.

(** ** The store *)

Section Store.
Variable env : Env.

Lemma append_to_csv_keeps_store (entry : value) :
  preserves time_entries_file (append_to_csv env entry).
Proof. unfold append_to_csv. auto 30 with frame. Qed.

Lemma stop_notify_keeps_store : preserves time_entries_file (stop_notify env).
Proof. unfold stop_notify. auto 30 with frame. Qed.

Lemma load_time_entries_outcome (w : World) :
  load_time_entries env w = (fst (load_time_entries env w), w).
Proof.
  pose proof (load_time_entries_world env w) as H.
  destruct (load_time_entries env w) as [r w0]. cbn in *. subst. reflexivity.
Qed.

(** What [append_time_entry] has done when the store write succeeds and the
    store held a list. *)
Lemma append_time_entry_saves (w : World) (entry : value) (items : list value) :
  store_write_fails env = false ->
  fst (load_time_entries env w) = Returns (JArr items) ->
  time_entries_file (snd (append_time_entry env entry w))
  = Some (json_dump env (JArr (items ++ [entry]))).
Proof.
  intros Hstore Hload. unfold append_time_entry.
  unfold bind at 1. rewrite load_time_entries_outcome, Hload.
  unfold bind at 1. unfold lift, list_append.
  unfold bind at 1. unfold save_time_entries. rewrite Hstore.
  unfold modify. rewrite append_to_csv_keeps_store. reflexivity.
Qed.

(** X2.  When the store file holds text that is not valid JSON,
    [append_time_entry] overwrites it with a list of the new entry alone:
    whatever the file held is gone. *)
Theorem append_replaces_a_corrupt_store (w : World) (entry : value) (text : string) :
  store_write_fails env = false ->
  time_entries_file w = Some text ->
  json_load env text = Raises JSONDecodeError ->
  time_entries_file (snd (append_time_entry env entry w))
  = Some (json_dump env (JArr [entry])).
Proof.
  intros Hstore Hfile Hbad.
  apply (append_time_entry_saves w entry []); [exact Hstore|].
  unfold load_time_entries, try_except. step_m. rewrite Hfile, Hbad. reflexivity.
Qed.

(** X3.  When the store file holds valid JSON that is not a list (an object,
    a number, ...), [append_time_entry] raises [AttributeError] at
    [entries.append] and writes nothing: store, CSV file and log stay as they
    were. *)
Theorem append_to_a_store_that_is_no_list (w : World) (entry v : value)
  (text : string) :
  time_entries_file w = Some text ->
  json_load env text = Returns v ->
  (forall items, v <> JArr items) ->
  append_time_entry env entry w = (Raises AttributeError, w).
Proof.
  intros Hfile Hload Hnolist. unfold append_time_entry.
  unfold bind at 1. rewrite load_time_entries_outcome.
  assert (Hfst : fst (load_time_entries env w) = Returns v).
  { unfold load_time_entries, try_except. step_m. rewrite Hfile, Hload.
    reflexivity. }
  rewrite Hfst. unfold bind at 1. unfold lift.
  destruct v; try reflexivity. exfalso. eapply Hnolist. reflexivity.
Qed.

(** X4.  Appending an entry and loading the store again gives the old entries
    followed by the new one, provided the store is writable and the JSON
    library reads back what it has just written. *)
Theorem append_then_load_round_trip (w : World) (entry : value)
  (items : list value) :
  store_write_fails env = false ->
  fst (load_time_entries env w) = Returns (JArr items) ->
  json_load env (json_dump env (JArr (items ++ [entry])))
  = Returns (JArr (items ++ [entry])) ->
  fst (load_time_entries env (snd (append_time_entry env entry w)))
  = Returns (JArr (items ++ [entry])).
Proof.
  intros Hstore Hload Hround.
  pose proof (append_time_entry_saves w entry items Hstore Hload) as Hsaved.
  unfold load_time_entries, try_except. step_m. rewrite Hsaved, Hround.
  reflexivity.
Qed.

End Store.

Lemma append_replaces_a_corrupt_store_witness :
  let env := quiet_env [] (mk_datetime 2024 1 30 17 0 0 0) in
  let w := set_time_entries_file (Some "[{") fresh_world in
  let entry := entry_dated "30-01-2024" in
  store_write_fails env = false
  /\ time_entries_file w = Some "[{"
  /\ json_load env "[{" = Raises JSONDecodeError
  /\ time_entries_file (snd (append_time_entry env entry w))
     = Some (json_dump env (JArr [entry])).
Proof.
  intros env w entry.
  repeat (split; [reflexivity|]).
  exact (append_replaces_a_corrupt_store env w entry "[{" eq_refl eq_refl eq_refl).
Defined.

Lemma append_to_a_store_that_is_no_list_witness :
  let env := quiet_env [] (mk_datetime 2024 1 30 17 0 0 0) in
  let w := set_time_entries_file (Some "{}") fresh_world in
  let entry := entry_dated "30-01-2024" in
  time_entries_file w = Some "{}"
  /\ json_load env "{}" = Returns (JObj [])
  /\ (forall items, JObj [] <> JArr items)
  /\ append_time_entry env entry w = (Raises AttributeError, w).
Proof.
  intros env w entry.
  assert (Hnolist : forall items, JObj [] <> JArr items)
    by (intros items H; discriminate H).
  split; [reflexivity|]. split; [reflexivity|]. split; [exact Hnolist|].
  exact (append_to_a_store_that_is_no_list env w entry (JObj []) "{}"
           eq_refl eq_refl Hnolist).
Defined.

Lemma append_then_load_round_trip_witness :
  let env := quiet_env [] (mk_datetime 2024 1 31 17 0 0 0) in
  let old := entry_dated "30-01-2024" in
  let new := entry_dated "31-01-2024" in
  let w := world_with_store [old] in
  store_write_fails env = false
  /\ fst (load_time_entries env w) = Returns (JArr [old])
  /\ json_load env (json_dump env (JArr ([old] ++ [new])))
     = Returns (JArr ([old] ++ [new]))
  /\ fst (load_time_entries env (snd (append_time_entry env new w)))
     = Returns (JArr ([old] ++ [new])).
Proof.
  intros env old new w.
  repeat (split; [reflexivity|]).
  exact (append_then_load_round_trip env w new [old] eq_refl eq_refl eq_refl).
Defined.

(** ** The session *)

Section Session.
Variable env : Env.

Lemma cancel_keeps_store : preserves time_entries_file cancel_auto_stop_timer.
Proof.
  intros w. destruct (cancel_auto_stop_timer_effect w) as [ts H]. rewrite H.
  reflexivity.
Qed.

Lemma stop_prepare_keeps_store (manual : bool) :
  preserves time_entries_file (stop_prepare env manual).
Proof.
  unfold stop_prepare.
  apply preserves_bind; [auto with frame|]. intros end_time.
  apply preserves_bind; [auto with frame|]. intros start.
  apply preserves_bind; [auto with frame|]. intros start'.
  destruct (duration_hms start' end_time) as [[hours minutes] seconds].
  apply preserves_bind; [apply cancel_keeps_store|]. intros _.
  auto 30 with frame.
Qed.

(** When [stop_prepare] returns, it returns the record of the session. *)
Lemma stop_prepare_returns (w w1 : World) (manual : bool) (entry : value) :
  stop_prepare env manual w = (Returns entry, w1) ->
  exists start,
    start_time w = Some start
    /\ entry = session_entry start (clock env (ticks w)).
Proof.
  unfold stop_prepare, datetime_now. step_m. cbn [start_time set_ticks].
  destruct (start_time w) as [start|]; cbn [of_option]; [|discriminate].
  destruct (duration_hms start (clock env (ticks w))) as [[hours minutes] seconds]
    eqn:Ed.
  destruct (cancel_auto_stop_timer_effect (set_ticks (S (ticks w)) w)) as [ts Hc].
  rewrite Hc. unfold log, datetime_now. step_m.
  intros H. exists start. split; [reflexivity|].
  destruct manual; destruct (log_write_fails env); cbn in H;
    try discriminate; inversion H; reflexivity.
Qed.

(** When [append_time_entry] returns, the store holds the old list and the
    entry. *)
Lemma append_time_entry_returns (w w2 : World) (entry : value) :
  append_time_entry env entry w = (Returns tt, w2) ->
  exists items,
    fst (load_time_entries env w) = Returns (JArr items)
    /\ time_entries_file w2 = Some (json_dump env (JArr (items ++ [entry]))).
Proof.
  intros H.
  assert (Hw2 : w2 = snd (append_time_entry env entry w)) by (rewrite H; reflexivity).
  unfold append_time_entry in H.
  unfold bind at 1 in H. rewrite load_time_entries_outcome in H.
  destruct (fst (load_time_entries env w)) as [v | e] eqn:Hload; [|discriminate].
  unfold bind at 1 in H. unfold lift in H.
  destruct v; try discriminate.
  exists items. split; [reflexivity|].
  unfold bind at 1 in H. unfold list_append, save_time_entries in H.
  destruct (store_write_fails env) eqn:Hstore; [discriminate|].
  subst w2. apply append_time_entry_saves; assumption.
Qed.

(** X5.  [stop_tracking] never ends a session without its record: if a call
    made while a session runs leaves [is_tracking] false, whether it returned
    or raised afterwards, then the store file holds the entries it held before
    followed by the record of this session. *)
Theorem cleared_phase_means_saved_record (w w' : World) (manual : bool)
  (r : outcome unit) :
  stop_tracking env manual w = (r, w') ->
  is_tracking w = true ->
  is_tracking w' = false ->
  exists start items,
    start_time w = Some start
    /\ fst (load_time_entries env w) = Returns (JArr items)
    /\ time_entries_file w'
       = Some (json_dump env
                 (JArr (items ++ [session_entry start (clock env (ticks w))]))).
Proof.
  intros Hrun Hact Hidle. unfold stop_tracking in Hrun.
  unfold bind at 1 in Hrun. unfold get in Hrun. rewrite Hact in Hrun.
  cbn [negb] in Hrun. unfold bind at 1 in Hrun.
  pose proof (keeps_stop_prepare env manual w) as [Kt _].
  pose proof (stop_prepare_keeps_store manual w) as Ks.
  destruct (stop_prepare env manual w) as [[entry | e] w1] eqn:Hprep;
    cbn [snd] in *.
  2:{ inversion Hrun; subst. congruence. }
  destruct (stop_prepare_returns w w1 manual entry Hprep) as [start [Hstart Hentry]].
  unfold bind at 1 in Hrun.
  pose proof (keeps_append_time_entry env entry w1) as [Kt' _].
  destruct (append_time_entry env entry w1) as [[[] | e] w2] eqn:Happ;
    cbn [snd] in *.
  2:{ inversion Hrun; subst. congruence. }
  destruct (append_time_entry_returns w1 w2 entry Happ) as [items [Hload Hsaved]].
  exists start, items. split; [exact Hstart|]. split.
  - rewrite (load_time_entries_same_file env w w1 Ks) in Hload. exact Hload.
  - unfold bind, modify in Hrun.
    assert (Hw' : w' = snd (stop_notify env
                              (set_stop_event true (set_is_tracking false w2))))
      by (rewrite Hrun; reflexivity).
    rewrite Hw', stop_notify_keeps_store. cbn [time_entries_file set_stop_event
      set_is_tracking]. rewrite Hsaved, Hentry. reflexivity.
Qed.

Lemma stop_notify_keeps_phase : keeps_phase (stop_notify env).
Proof.
  unfold stop_notify. apply keeps_bind; [apply keeps_print|].
  intros _. apply keeps_log.
Qed.

(** When [stop_tracking] returns from a running session, the session is over. *)
Lemma stop_tracking_returns_idle (w w' : World) (manual : bool) :
  stop_tracking env manual w = (Returns tt, w') ->
  is_tracking w = true ->
  is_tracking w' = false /\ stop_event w' = true.
Proof.
  intros Hrun Hact. unfold stop_tracking in Hrun.
  unfold bind at 1 in Hrun. unfold get in Hrun. rewrite Hact in Hrun.
  cbn [negb] in Hrun. unfold bind at 1 in Hrun.
  destruct (stop_prepare env manual w) as [[entry | e] w1]; [|discriminate].
  unfold bind at 1 in Hrun.
  destruct (append_time_entry env entry w1) as [[[] | e] w2]; [|discriminate].
  unfold bind, modify in Hrun.
  pose proof (stop_notify_keeps_phase
                (set_stop_event true (set_is_tracking false w2))) as [Kt Ks].
  rewrite Hrun in Kt, Ks. cbn in Kt, Ks. split; assumption.
Qed.

(** X6.  Whenever the signal handler [handle_exit] returns, no session is
    running and the stop event is set, so that the main thread waiting on the
    event wakes up, whatever the state was when the signal arrived. *)
Theorem handle_exit_leaves_idle_and_signalled (w w' : World) :
  handle_exit env w = (Returns tt, w') ->
  is_tracking w' = false /\ stop_event w' = true.
Proof.
  unfold handle_exit. unfold bind at 1. unfold get.
  destruct (is_tracking w) eqn:Hact.
  - unfold bind at 1.
    destruct (stop_tracking env false w) as [[[] | e] w1] eqn:Hstop; [|discriminate].
    destruct (stop_tracking_returns_idle w w1 false Hstop Hact) as [Ht Hs].
    intros Hrest.
    assert (Hk : keeps_phase (print (nl ++ "Time Tracker script afsluttet.") ;;
                              log env "Time Tracker script afsluttet.")).
    { apply keeps_bind; [apply keeps_print|]. intros _. apply keeps_log. }
    destruct (Hk w1) as [Kt Ks]. rewrite Hrest in Kt, Ks. cbn in Kt, Ks.
    split; congruence.
  - unfold bind at 1. unfold modify.
    intros Hrest.
    assert (Hk : keeps_phase (print (nl ++ "Time Tracker script afsluttet.") ;;
                              log env "Time Tracker script afsluttet.")).
    { apply keeps_bind; [apply keeps_print|]. intros _. apply keeps_log. }
    destruct (Hk (set_stop_event true w)) as [Kt Ks].
    rewrite Hrest in Kt, Ks. cbn in Kt, Ks. split; congruence.
Qed.

(** X7.  From an idle process with a writable log, [start_tracking] returns
    with the session running since the clock reading it took, the auto-stop
    timer armed for [MAX_DURATION] and remembered in [auto_stop_timer], the
    display and the listener threads started in this order, and the stop
    event and all data files untouched. *)
Theorem start_tracking_arms_the_session (w : World) :
  is_tracking w = false ->
  log_write_fails env = false ->
  let now := clock env (ticks w) in
  exists w',
    start_tracking env w = (Returns tt, w')
    /\ is_tracking w' = true
    /\ start_time w' = Some now
    /\ stop_event w' = stop_event w
    /\ auto_stop_timer w' = Some (List.length (timers w))
    /\ timers w' = (timers w ++ [mk_Timer MAX_DURATION AutoStop false true])%list
    /\ threads w' = (threads w ++ [DisplayTimer; ListenForStop])%list
    /\ time_entries_file w' = time_entries_file w
    /\ master_csv_file w' = master_csv_file w
    /\ weekly_csv_files w' = weekly_csv_files w.
Proof.
  intros Hidle Hlog now. unfold start_tracking, log, datetime_now, start_timer,
    start_thread.
  step_m. rewrite Hidle, Hlog. cbn.
  eexists. split; [reflexivity|]. cbn. rewrite <- app_assoc.
  repeat split.
Qed.

(** X8.  When the log file cannot be opened, [start_tracking] raises [OSError]
    after it has marked the session as running: [is_tracking] is true and the
    start time is set, but no auto-stop timer is armed and neither the display
    nor the listener thread is started. *)
Theorem start_tracking_without_a_log (w : World) :
  is_tracking w = false ->
  log_write_fails env = true ->
  exists w',
    start_tracking env w = (Raises OSError, w')
    /\ is_tracking w' = true
    /\ start_time w' = Some (clock env (ticks w))
    /\ auto_stop_timer w' = auto_stop_timer w
    /\ timers w' = timers w
    /\ threads w' = threads w.
Proof.
  intros Hidle Hlog. unfold start_tracking, log, datetime_now.
  step_m. rewrite Hidle, Hlog. cbn.
  eexists. split; [reflexivity|]. repeat split.
Qed.

End Session.

Lemma cleared_phase_means_saved_record_witness :
  let start := mk_datetime 2024 1 30 9 0 0 0 in
  let env := quiet_env [] (mk_datetime 2024 1 30 17 0 0 0) in
  let w := active_world start in
  let r := fst (stop_tracking env true w) in
  let w' := snd (stop_tracking env true w) in
  stop_tracking env true w = (r, w')
  /\ is_tracking w = true
  /\ is_tracking w' = false
  /\ exists start items,
       start_time w = Some start
       /\ fst (load_time_entries env w) = Returns (JArr items)
       /\ time_entries_file w'
          = Some (json_dump env
                    (JArr (items ++ [session_entry start (clock env (ticks w))]))).
Proof.
  intros start env w r w'.
  assert (Hrun : stop_tracking env true w = (r, w')) by (vm_compute; reflexivity).
  assert (Hidle : is_tracking w' = false) by (vm_compute; reflexivity).
  split; [exact Hrun|]. split; [reflexivity|]. split; [exact Hidle|].
  exact (cleared_phase_means_saved_record env w w' true r Hrun eq_refl Hidle).
Defined.

Lemma handle_exit_leaves_idle_and_signalled_witness :
  let env := quiet_env [] (mk_datetime 2024 1 30 17 0 0 0) in
  let w := active_world (mk_datetime 2024 1 30 9 0 0 0) in
  let w' := snd (handle_exit env w) in
  handle_exit env w = (Returns tt, w')
  /\ is_tracking w' = false /\ stop_event w' = true.
Proof.
  intros env w w'.
  assert (Hrun : handle_exit env w = (Returns tt, w')) by (vm_compute; reflexivity).
  split; [exact Hrun|].
  exact (handle_exit_leaves_idle_and_signalled env w w' Hrun).
Defined.

Lemma start_tracking_arms_the_session_witness :
  let now := mk_datetime 2024 1 30 9 0 0 0 in
  let env := quiet_env [] now in
  let w := fresh_world in
  is_tracking w = false
  /\ log_write_fails env = false
  /\ exists w',
       start_tracking env w = (Returns tt, w')
       /\ is_tracking w' = true
       /\ start_time w' = Some now
       /\ stop_event w' = stop_event w
       /\ auto_stop_timer w' = Some (List.length (timers w))
       /\ timers w' = (timers w ++ [mk_Timer MAX_DURATION AutoStop false true])%list
       /\ threads w' = (threads w ++ [DisplayTimer; ListenForStop])%list
       /\ time_entries_file w' = time_entries_file w
       /\ master_csv_file w' = master_csv_file w
       /\ weekly_csv_files w' = weekly_csv_files w.
Proof.
  intros now env w.
  split; [reflexivity|]. split; [reflexivity|].
  exact (start_tracking_arms_the_session env w eq_refl eq_refl).
Defined.

Lemma start_tracking_without_a_log_witness :
  let now := mk_datetime 2024 1 30 9 0 0 0 in
  let env := mk_Env (clock_of [] now) json_loads Json.dumps "/home/user"
                    false false false true false false false false in
  let w := fresh_world in
  is_tracking w = false
  /\ log_write_fails env = true
  /\ exists w',
       start_tracking env w = (Raises OSError, w')
       /\ is_tracking w' = true
       /\ start_time w' = Some (clock env (ticks w))
       /\ auto_stop_timer w' = auto_stop_timer w
       /\ timers w' = timers w
       /\ threads w' = threads w.
Proof.
  intros now env w.
  split; [reflexivity|]. split; [reflexivity|].
  exact (start_tracking_without_a_log env w eq_refl eq_refl).
Defined.

(** ** The CSV mirror *)

Section Csv.
Variable env : Env.

Lemma append_to_csv_effect (w : World) (entry : value) (row : csv_row) :
  csv_append_fails env = false ->
  entry_row entry = Returns row ->
  append_to_csv env entry w
  = (Returns tt,
     set_master_csv_file
       (Some (rows_or_header (master_csv_file w) ++ [row])%list) w).
Proof.
  intros Hcsv Hrow. unfold append_to_csv, try_except, master_writerow.
  step_m. rewrite Hcsv, Hrow.
  destruct w as [tr st se ast ts th f [rows|] wk lg tty sin sout tk]; reflexivity.
Qed.

Lemma append_all_to_csv_effect (entries : list value) :
  forall (rows : list csv_row) (w : World),
  csv_append_fails env = false ->
  entry_rows entries = Returns rows ->
  append_all_to_csv env entries w
  = (Returns tt,
     match entries with
     | [] => w
     | _ => set_master_csv_file
              (Some (rows_or_header (master_csv_file w) ++ rows)%list) w
     end).
Proof.
  induction entries as [|entry rest IH]; intros rows w Hcsv Hrows.
  - reflexivity.
  - cbn [entry_rows] in Hrows.
    destruct (entry_row entry) as [row | e] eqn:Hrow; [|discriminate].
    destruct (entry_rows rest) as [rows' | e] eqn:Hrest; [|discriminate].
    inversion Hrows; subst rows. clear Hrows.
    cbn [append_all_to_csv]. unfold bind.
    rewrite (append_to_csv_effect w entry row Hcsv Hrow).
    rewrite (IH rows' _ Hcsv eq_refl).
    destruct rest as [|entry' rest'].
    + cbn in Hrest. inversion Hrest; subst. reflexivity.
    + cbn [master_csv_file set_master_csv_file rows_or_header].
      rewrite <- app_assoc. destruct w; reflexivity.
Qed.

(** X9.  Appending a non-empty run of well-formed entries to the master CSV
    file, one [append_to_csv] call each, writes the header exactly once, and
    only when the file did not exist: a new file is the header followed by the
    rows, an existing file keeps its rows and gains the new ones. *)
Theorem csv_header_is_written_once (entries : list value) (rows : list csv_row)
  (w : World) :
  csv_append_fails env = false ->
  entry_rows entries = Returns rows ->
  entries <> [] ->
  fst (append_all_to_csv env entries w) = Returns tt
  /\ master_csv_file (snd (append_all_to_csv env entries w))
     = Some (match master_csv_file w with
             | None => CSV_HEADERS :: rows
             | Some old => (old ++ rows)%list
             end).
Proof.
  intros Hcsv Hrows Hne.
  rewrite (append_all_to_csv_effect entries rows w Hcsv Hrows).
  destruct entries; [contradiction|]. cbn.
  destruct (master_csv_file w); split; reflexivity.
Qed.

(** X10.  An entry that lacks one of the four keys, or is no dict, does not
    make [append_to_csv] raise: the call returns, the error goes to the log,
    no row is written, and a CSV file that did not exist is left holding the
    header alone.  The store file is not touched. *)
Theorem csv_skips_an_entry_without_its_keys (w : World) (entry : value) (e : exn) :
  csv_append_fails env = false ->
  log_write_fails env = false ->
  entry_row entry = Raises e ->
  exists w',
    append_to_csv env entry w = (Returns tt, w')
    /\ master_csv_file w'
       = Some (match master_csv_file w with
               | None => [CSV_HEADERS]
               | Some old => old
               end)
    /\ log_file w'
       = (log_file w
          ++ [("[" ++ strftime_dmY_HMS (clock env (ticks w))
               ++ "] Error appending to CSV: " ++ str_exn e)%string])%list
    /\ time_entries_file w' = time_entries_file w.
Proof.
  intros Hcsv Hlog Hrow.
  unfold append_to_csv, try_except, master_writerow, log, datetime_now.
  step_m. rewrite Hcsv, Hlog, Hrow. cbn.
  destruct (master_csv_file w) eqn:Hfile; cbn; rewrite ?Hfile;
    eexists; (split; [reflexivity|]); cbn; rewrite ?Hfile; repeat split.
Qed.

End Csv.

Lemma csv_header_is_written_once_witness :
  let env := quiet_env [] (mk_datetime 2024 1 31 17 0 0 0) in
  let entries := [entry_dated "29-01-2024"; entry_dated "30-01-2024"] in
  let rows := [[JStr "29-01-2024"; JStr "09:00:00"; JStr "17:00:00"; JStr "8h0m"];
               [JStr "30-01-2024"; JStr "09:00:00"; JStr "17:00:00"; JStr "8h0m"]] in
  let w := fresh_world in
  csv_append_fails env = false
  /\ entry_rows entries = Returns rows
  /\ entries <> []
  /\ fst (append_all_to_csv env entries w) = Returns tt
  /\ master_csv_file (snd (append_all_to_csv env entries w))
     = Some (CSV_HEADERS :: rows).
Proof.
  intros env entries rows w.
  assert (Hne : entries <> []) by (intros H; discriminate H).
  split; [reflexivity|]. split; [reflexivity|]. split; [exact Hne|].
  exact (csv_header_is_written_once env entries rows w eq_refl eq_refl Hne).
Defined.

Lemma csv_skips_an_entry_without_its_keys_witness :
  let env := quiet_env [] (mk_datetime 2024 1 31 17 0 0 0) in
  let entry := JObj [("date", JStr "31-01-2024")] in
  let w := fresh_world in
  csv_append_fails env = false
  /\ log_write_fails env = false
  /\ entry_row entry = Raises KeyError
  /\ exists w',
       append_to_csv env entry w = (Returns tt, w')
       /\ master_csv_file w' = Some [CSV_HEADERS]
       /\ log_file w'
          = (log_file w
             ++ [("[" ++ strftime_dmY_HMS (clock env (ticks w))
                  ++ "] Error appending to CSV: " ++ str_exn KeyError)%string])%list
       /\ time_entries_file w' = time_entries_file w.
Proof.
  intros env entry w.
  repeat (split; [reflexivity|]).
  exact (csv_skips_an_entry_without_its_keys env w entry KeyError
           eq_refl eq_refl eq_refl).
Defined.

(** ** The elapsed time *)

Section Clock.

(** X11.  The hours, minutes and seconds that [display_timer] shows and
    [stop_tracking] records add up to the whole seconds elapsed, with minutes
    and seconds below 60, for any elapsed time from zero up to 2^53
    microseconds (some 285 years). *)
Theorem elapsed_time_splits_exactly (start now : datetime) :
  0 <= datetime_diff now start < 2 ^ 53 ->
  let '(hours, minutes, seconds) := duration_hms start now in
  hours * 3600 + minutes * 60 + seconds = datetime_diff now start / US_PER_SECOND
  /\ 0 <= hours /\ 0 <= minutes < 60 /\ 0 <= seconds < 60.
Proof.
  intros H. rewrite duration_hms_floor by exact H. cbv zeta.
  assert (Hs : 0 <= datetime_diff now start / US_PER_SECOND)
    by (apply Z.div_pos; unfold US_PER_SECOND; lia).
  set (total := datetime_diff now start / US_PER_SECOND) in *.
  Z.div_mod_to_equations. lia.
Qed.

End Clock.

Lemma elapsed_time_splits_exactly_witness :
  let start := mk_datetime 2024 1 30 9 0 0 0 in
  let now := mk_datetime 2024 1 30 16 40 59 999999 in
  0 <= datetime_diff now start < 2 ^ 53
  /\ (let '(hours, minutes, seconds) := duration_hms start now in
      hours * 3600 + minutes * 60 + seconds = datetime_diff now start / US_PER_SECOND
      /\ 0 <= hours /\ 0 <= minutes < 60 /\ 0 <= seconds < 60).
Proof.
  intros start now.
  assert (Hrange : 0 <= datetime_diff now start < 2 ^ 53)
    by (split; [apply Z.leb_le | apply Z.ltb_lt]; reflexivity).
  split; [exact Hrange|].
  exact (elapsed_time_splits_exactly start now Hrange).
Defined.

(** ** The scheduler and the weekly export *)

Section Schedule.
Variable env : Env.

Lemma next_run_delay (now next_run : datetime) (days : Z) :
  valid_datetime now = true ->
  toordinal next_run = toordinal now + days ->
  hour next_run = 16 -> minute next_run = 0 -> second next_run = 0 ->
  microsecond next_run = 0 ->
  datetime_diff next_run now
  = days * US_PER_DAY + (57600 * US_PER_SECOND - time_us now).
Proof.
  intros Hv Hord Hh Hm Hs Hu. unfold datetime_diff. rewrite !to_us_split, Hord.
  unfold time_us at 1. rewrite Hh, Hm, Hs, Hu. unfold US_PER_DAY, US_PER_SECOND.
  lia.
Qed.

Lemma schedule_weekly_csv_effect (w : World) :
  schedulable (clock env (ticks w)) ->
  log_write_fails env = false ->
  let now := clock env (ticks w) in
  exists next_run,
    next_run_after now = Returns next_run
    /\ weekday next_run = 0
    /\ hour next_run = 16 /\ minute next_run = 0
    /\ second next_run = 0 /\ microsecond next_run = 0
    /\ 0 <= datetime_diff next_run now <= 7 * US_PER_DAY
    /\ schedule_weekly_csv env w
       = (Returns tt,
          set_stdout
            (stdout w ++ [nl ++ "Weekly CSV scheduled to run at "
                          ++ strftime_A_HMS next_run ++ "."])
            (set_log_file
               (log_file w
                ++ ["[" ++ strftime_dmY_HMS (clock env (S (ticks w)))
                    ++ "] Weekly CSV scheduled to run at "
                    ++ strftime_A_HMS next_run ++ "."])
               (set_ticks (S (S (ticks w)))
                  (set_timers
                     (timers w ++ [mk_Timer (datetime_diff next_run now)
                                            GenerateWeeklyCsv false true])
                     w)))).
Proof.
  intros [Hv Hmax] Hlog now.
  destruct (next_run_after_is_a_monday now Hv Hmax)
    as [next_run [Hrun [Hord [Hwd [Hh [Hm [Hs Hu]]]]]]].
  exists next_run. split; [exact Hrun|].
  split; [exact Hwd|]. split; [exact Hh|]. split; [exact Hm|].
  split; [exact Hs|]. split; [exact Hu|]. split.
  - rewrite (next_run_delay now next_run _ Hv Hord Hh Hm Hs Hu).
    pose proof (valid_time_us now Hv) as Ht.
    pose proof (weekday_range now) as Hw.
    unfold time_gt. change (time_us (mk_datetime 1900 1 1 16 0 0 0))
      with (57600 * US_PER_SECOND).
    unfold US_PER_DAY, US_PER_SECOND in *.
    destruct (weekday now =? 0) eqn:E0.
    + destruct (57600 * 1000000 <? time_us now) eqn:Egt.
      * apply Z.ltb_lt in Egt. lia.
      * apply Z.ltb_ge in Egt. lia.
    + apply Z.eqb_neq in E0. lia.
  - unfold schedule_weekly_csv, datetime_now, start_timer, log, datetime_now.
    step_m. fold now. rewrite Hrun, Hlog. cbn. destruct w; reflexivity.
Qed.

(** X12.  [schedule_weekly_csv] arms exactly one new timer, for
    [generate_weekly_csv], with a delay between zero and seven days that ends
    on the computed run time, a Monday at 16:00:00; it changes neither the
    session state nor the store nor the weekly files. *)
Theorem schedule_weekly_csv_arms_one_timer (w : World) :
  schedulable (clock env (ticks w)) ->
  log_write_fails env = false ->
  exists delay w',
    schedule_weekly_csv env w = (Returns tt, w')
    /\ timers w' = (timers w ++ [mk_Timer delay GenerateWeeklyCsv false true])%list
    /\ 0 <= delay <= 7 * US_PER_DAY
    /\ (exists next_run,
          next_run_after (clock env (ticks w)) = Returns next_run
          /\ delay = datetime_diff next_run (clock env (ticks w))
          /\ weekday next_run = 0
          /\ strftime_HMS next_run = "16:00:00")
    /\ is_tracking w' = is_tracking w
    /\ stop_event w' = stop_event w
    /\ time_entries_file w' = time_entries_file w
    /\ weekly_csv_files w' = weekly_csv_files w.
Proof.
  intros Hsched Hlog.
  destruct (schedule_weekly_csv_effect w Hsched Hlog)
    as [next_run [Hrun [Hwd [Hh [Hm [Hs [Hu [Hdelay Heff]]]]]]]].
  eexists _, _. split; [exact Heff|]. cbn.
  split; [reflexivity|]. split; [exact Hdelay|]. split.
  - exists next_run. repeat split; try assumption.
    unfold strftime_HMS. rewrite Hh, Hm, Hs. reflexivity.
  - repeat split.
Qed.

End Schedule.

Lemma schedule_weekly_csv_arms_one_timer_witness :
  let now := mk_datetime 2024 1 31 12 0 0 0 in
  let env := quiet_env [] now in
  let w := fresh_world in
  schedulable (clock env (ticks w))
  /\ log_write_fails env = false
  /\ exists delay w',
       schedule_weekly_csv env w = (Returns tt, w')
       /\ timers w' = (timers w ++ [mk_Timer delay GenerateWeeklyCsv false true])%list
       /\ 0 <= delay <= 7 * US_PER_DAY
       /\ (exists next_run,
             next_run_after (clock env (ticks w)) = Returns next_run
             /\ delay = datetime_diff next_run (clock env (ticks w))
             /\ weekday next_run = 0
             /\ strftime_HMS next_run = "16:00:00")
       /\ is_tracking w' = is_tracking w
       /\ stop_event w' = stop_event w
       /\ time_entries_file w' = time_entries_file w
       /\ weekly_csv_files w' = weekly_csv_files w.
Proof.
  intros now env w.
  assert (Hs : schedulable (clock env (ticks w)))
    by (split; [reflexivity | apply Z.leb_le; reflexivity]).
  split; [exact Hs|]. split; [reflexivity|].
  exact (schedule_weekly_csv_arms_one_timer env w Hs eq_refl).
Defined.

Section Generate.
Variable env : Env.

Lemma filter_week_returns (mon sun : datetime) (entries : list value) :
  Forall dated entries ->
  exists kept, filter_week mon sun entries = Returns kept.
Proof.
  induction 1 as [|entry rest [date Hd] _ [kept IH]]; [eexists; reflexivity|].
  cbn [filter_week]. unfold in_week. rewrite Hd. cbn [str_between].
  rewrite IH. eexists. reflexivity.
Qed.

Lemma filter_week_raises (mon sun : datetime) (entries : list value)
  (bad : value) (err : exn) :
  In bad entries ->
  getitem bad "date" = Raises err ->
  exists e, filter_week mon sun entries = Raises e.
Proof.
  intros Hin Hbad. induction entries as [|entry rest IH]; [contradiction|].
  cbn [filter_week].
  destruct (in_week mon sun entry) as [keep | e] eqn:Hk; [|eexists; reflexivity].
  destruct Hin as [-> | Hin].
  - unfold in_week in Hk. rewrite Hbad in Hk. discriminate.
  - destruct (IH Hin) as [e He]. rewrite He. eexists. reflexivity.
Qed.

Lemma write_entries_keeps_timers (path : string) (entries : list value) :
  preserves timers (write_entries path entries).
Proof.
  induction entries as [|entry rest IH]; cbn [write_entries]; [auto with frame|].
  apply preserves_bind; [auto with frame|]. intros row.
  apply preserves_bind; [auto 10 with frame|]. intros _. exact IH.
Qed.

Lemma log_then_print_returns (message line : string) (w : World) :
  log_write_fails env = false ->
  exists w', (log env message ;; print line) w = (Returns tt, w')
             /\ timers w' = timers w.
Proof.
  intros Hlog. unfold log, datetime_now. step_m. rewrite Hlog.
  eexists. split; reflexivity.
Qed.

(** The part of [generate_weekly_csv] between the filter and the
    rescheduling always returns and starts no timer. *)
Lemma report_week_returns (end_of_week : datetime) (kept : list value) (w : World) :
  log_write_fails env = false ->
  exists w',
    (match kept with
     | [] =>
         log env "Ingen tidsregistreringer fundet for denne uge." ;;
         print (nl ++ "Ingen tidsregistreringer fundet for denne uge.")
     | _ =>
         let csv_filename :=
           "time_tracker_weekly_" ++ strftime_Ymd end_of_week ++ ".csv" in
         let csv_filepath := EXPORT_DIR env ++ "/" ++ csv_filename in
         try_except
           ((if weekly_write_fails env then raise OSError
             else modify (fun w =>
                    set_weekly_csv_files
                      (files_set csv_filepath [] (weekly_csv_files w)) w)) ;;
            weekly_writerow csv_filepath CSV_HEADERS ;;
            write_entries csv_filepath kept ;;
            log env ("Weekly CSV generated: " ++ csv_filename) ;;
            print (nl ++ "Uge CSV fil genereret: " ++ csv_filename ++ " - Sti: "
                   ++ csv_filepath))
           any_exception
           (fun e =>
              log env ("Error generating weekly CSV: " ++ str_exn e) ;;
              print (nl ++ "Fejl ved generering af CSV: " ++ str_exn e))
     end) w = (Returns tt, w')
    /\ timers w' = timers w.
Proof.
  intros Hlog. destruct kept as [|entry rest].
  - apply log_then_print_returns. exact Hlog.
  - cbv zeta. unfold try_except.
    match goal with
    | |- context [match ?c w with _ => _ end] =>
        assert (Hp : preserves timers c);
        [|pose proof (Hp w) as Ht; destruct (c w) as [[[] | e] w1]]
    end.
    + apply preserves_bind; [auto 10 with frame|]. intros _.
      apply preserves_bind; [auto 10 with frame|]. intros _.
      apply preserves_bind; [apply write_entries_keeps_timers|]. intros _.
      auto 20 with frame.
    + eexists. split; [reflexivity|]. exact Ht.
    + cbn [any_exception snd] in *.
      destruct (log_then_print_returns
                  ("Error generating weekly CSV: " ++ str_exn e)
                  (nl ++ "Fejl ved generering af CSV: " ++ str_exn e) w1 Hlog)
        as [w2 [H2 Ht2]].
      rewrite H2. eexists. split; [reflexivity|]. congruence.
Qed.

Lemma schedulable_week (t : datetime) :
  schedulable t ->
  exists mon sun, week_bounds t = Returns (mon, sun).
Proof.
  intros [Hv Hmax].
  destruct (week_bounds_are_monday_and_sunday t Hv ltac:(lia))
    as [mon [sun [H _]]].
  exists mon, sun. exact H.
Qed.

(** X13.  With a writable log, [generate_weekly_csv] always schedules its next
    run when every stored entry has a date string: whether or not the week has
    entries, whether or not the weekly file can be written, and even if an
    entry of the week lacks another key, the call returns with one more
    [generate_weekly_csv] timer of at most seven days. *)
Theorem generate_weekly_csv_always_reschedules (w : World) (v : value)
  (entries : list value) :
  (forall n, schedulable (clock env n)) ->
  log_write_fails env = false ->
  fst (load_time_entries env w) = Returns v ->
  iterate v = Returns entries ->
  Forall dated entries ->
  exists delay w',
    generate_weekly_csv env w = (Returns tt, w')
    /\ timers w' = (timers w ++ [mk_Timer delay GenerateWeeklyCsv false true])%list
    /\ 0 <= delay <= 7 * US_PER_DAY.
Proof.
  intros Hclock Hlog Hload Hiter Hdated.
  destruct (schedulable_week _ (Hclock (ticks w))) as [mon [sun Hweek]].
  destruct (filter_week_returns mon sun entries Hdated) as [kept Hkept].
  unfold generate_weekly_csv.
  unfold bind at 1. unfold datetime_now.
  unfold bind at 1. unfold lift. rewrite Hweek.
  unfold bind at 1.
  rewrite (load_time_entries_same_file env w (set_ticks (S (ticks w)) w) eq_refl).
  rewrite Hload.
  unfold bind at 1. rewrite Hiter.
  unfold bind at 1. rewrite Hkept.
  unfold bind at 1.
  destruct (report_week_returns sun kept (set_ticks (S (ticks w)) w) Hlog)
    as [w1 [Hreport Ht1]].
  cbv zeta in Hreport. rewrite Hreport.
  destruct (schedule_weekly_csv_effect env w1 (Hclock (ticks w1)) Hlog)
    as [next_run [_ [_ [_ [_ [_ [_ [Hdelay Heff]]]]]]]].
  rewrite Heff. eexists _, _. split; [reflexivity|].
  cbn. rewrite Ht1. split; [reflexivity | exact Hdelay].
Qed.

(** X14.  One stored entry without a ["date"] key (or that is no dict) makes
    [generate_weekly_csv] raise while it filters, before anything is logged,
    printed or written and before the next run is scheduled: the world is as
    before but for the one clock reading. *)
Theorem generate_weekly_csv_stops_at_an_entry_without_date (w : World)
  (v : value) (entries : list value) (bad : value) (err : exn) :
  schedulable (clock env (ticks w)) ->
  fst (load_time_entries env w) = Returns v ->
  iterate v = Returns entries ->
  In bad entries ->
  getitem bad "date" = Raises err ->
  exists e,
    generate_weekly_csv env w = (Raises e, set_ticks (S (ticks w)) w).
Proof.
  intros Hsched Hload Hiter Hin Hbad.
  destruct (schedulable_week _ Hsched) as [mon [sun Hweek]].
  destruct (filter_week_raises mon sun entries bad err Hin Hbad) as [e He].
  exists e. unfold generate_weekly_csv.
  unfold bind at 1. unfold datetime_now.
  unfold bind at 1. unfold lift. rewrite Hweek.
  unfold bind at 1.
  rewrite (load_time_entries_same_file env w (set_ticks (S (ticks w)) w) eq_refl).
  rewrite Hload.
  unfold bind at 1. rewrite Hiter.
  unfold bind at 1. rewrite He. reflexivity.
Qed.

End Generate.

Lemma generate_weekly_csv_always_reschedules_witness :
  let now := mk_datetime 2024 1 31 12 0 0 0 in
  let env := quiet_env [] now in
  let entries := [entry_dated "30-01-2024"] in
  let w := world_with_store entries in
  (forall n, schedulable (clock env n))
  /\ log_write_fails env = false
  /\ fst (load_time_entries env w) = Returns (JArr entries)
  /\ iterate (JArr entries) = Returns entries
  /\ Forall dated entries
  /\ exists delay w',
       generate_weekly_csv env w = (Returns tt, w')
       /\ timers w' = (timers w ++ [mk_Timer delay GenerateWeeklyCsv false true])%list
       /\ 0 <= delay <= 7 * US_PER_DAY.
Proof.
  intros now env entries w.
  assert (Hs : forall n, schedulable (clock env n))
    by (intros n; destruct n; (split; [reflexivity | apply Z.leb_le; reflexivity])).
  assert (Hd : Forall dated entries)
    by (repeat constructor; eexists; reflexivity).
  split; [exact Hs|]. split; [reflexivity|]. split; [reflexivity|].
  split; [reflexivity|]. split; [exact Hd|].
  exact (generate_weekly_csv_always_reschedules env w (JArr entries) entries
           Hs eq_refl eq_refl eq_refl Hd).
Defined.

Lemma generate_weekly_csv_stops_at_an_entry_without_date_witness :
  let now := mk_datetime 2024 1 31 12 0 0 0 in
  let env := quiet_env [] now in
  let bad := JObj [("start_time", JStr "09:00:00")] in
  let entries := [entry_dated "30-01-2024"; bad] in
  let w := world_with_store entries in
  schedulable (clock env (ticks w))
  /\ fst (load_time_entries env w) = Returns (JArr entries)
  /\ iterate (JArr entries) = Returns entries
  /\ In bad entries
  /\ getitem bad "date" = Raises KeyError
  /\ exists e,
       generate_weekly_csv env w = (Raises e, set_ticks (S (ticks w)) w).
Proof.
  intros now env bad entries w.
  assert (Hs : schedulable (clock env (ticks w)))
    by (split; [reflexivity | apply Z.leb_le; reflexivity]).
  assert (Hin : In bad entries) by (right; left; reflexivity).
  split; [exact Hs|]. split; [reflexivity|]. split; [reflexivity|].
  split; [exact Hin|]. split; [reflexivity|].
  exact (generate_weekly_csv_stops_at_an_entry_without_date env w (JArr entries)
           entries bad KeyError Hs eq_refl eq_refl Hin eq_refl).
Defined.

(** ** Dates compared as text *)

Section DateText.

Lemma pad2_orders_table :
  forallb (fun a => forallb (pad2_orders_check a) (seq 0 100)) (seq 0 100) = true.
Proof. vm_compute. reflexivity. Qed.

Lemma pad2_orders (a b : Z) :
  0 <= a < 100 -> 0 <= b < 100 ->
  String.length (pad2 a) = 2%nat
  /\ String.compare (pad2 a) (pad2 b) = Z.compare a b.
Proof.
  intros Ha Hb.
  pose proof pad2_orders_table as T.
  rewrite forallb_forall in T.
  specialize (T (Z.to_nat a) ltac:(apply in_seq; lia)).
  rewrite forallb_forall in T.
  specialize (T (Z.to_nat b) ltac:(apply in_seq; lia)).
  unfold pad2_orders_check in T. rewrite !Z2Nat.id in T by lia.
  apply andb_true_iff in T. destruct T as [Hlen Hcmp].
  apply Nat.eqb_eq in Hlen. split; [exact Hlen|].
  destruct (String.compare (pad2 a) (pad2 b)), (a ?= b); try discriminate;
    reflexivity.
Qed.

Lemma string_compare_refl (s : string) : String.compare s s = Eq.
Proof.
  induction s as [|a s IH]; [reflexivity|]. cbn.
  unfold Ascii.compare. rewrite N.compare_refl. exact IH.
Qed.

Lemma compare_same_suffix (p q s : string) :
  String.length p = String.length q ->
  String.compare (p ++ s) (q ++ s) = String.compare p q.
Proof.
  revert q. induction p as [|a p IH]; intros [|b q] Hlen; try discriminate.
  - cbn. apply string_compare_refl.
  - cbn in *. destruct (Ascii.compare a b); try reflexivity.
    apply IH. congruence.
Qed.

Lemma leb_day_first (a b : Z) (s : string) :
  0 <= a < 100 -> 0 <= b < 100 ->
  String.leb (pad2 a ++ s) (pad2 b ++ s) = (a <=? b).
Proof.
  intros Ha Hb.
  destruct (pad2_orders a b Ha Hb) as [Hla Hcmp].
  destruct (pad2_orders b a Hb Ha) as [Hlb _].
  unfold String.leb, Z.leb.
  rewrite compare_same_suffix by congruence. rewrite Hcmp. reflexivity.
Qed.

(** X15.  When the Monday, the Sunday and an entry's date all lie in the same
    month of the same year, the text comparison of line 207 decides
    membership of the week correctly: the entry is kept exactly when its day
    of the month lies between the two. *)
Theorem weekly_filter_is_right_within_a_month
  (start_of_week end_of_week date : datetime) (entry : value) :
  year start_of_week = year date -> month start_of_week = month date ->
  year end_of_week = year date -> month end_of_week = month date ->
  0 <= day start_of_week < 100 -> 0 <= day end_of_week < 100 ->
  0 <= day date < 100 ->
  getitem entry "date" = Returns (JStr (strftime_dmY date)) ->
  in_week start_of_week end_of_week entry
  = Returns ((day start_of_week <=? day date) && (day date <=? day end_of_week)).
Proof.
  intros Hy1 Hm1 Hy2 Hm2 Hd1 Hd2 Hd Hentry.
  unfold in_week. rewrite Hentry. unfold str_between, strftime_dmY.
  rewrite Hy1, Hm1, Hy2, Hm2.
  rewrite !leb_day_first by assumption. reflexivity.
Qed.

End DateText.

Lemma weekly_filter_is_right_within_a_month_witness :
  let monday := mk_datetime 2024 1 8 12 0 0 0 in
  let sunday := mk_datetime 2024 1 14 12 0 0 0 in
  let date := mk_datetime 2024 1 10 9 0 0 0 in
  let entry := entry_dated "10-01-2024" in
  year monday = year date /\ month monday = month date
  /\ year sunday = year date /\ month sunday = month date
  /\ 0 <= day monday < 100 /\ 0 <= day sunday < 100 /\ 0 <= day date < 100
  /\ getitem entry "date" = Returns (JStr (strftime_dmY date))
  /\ in_week monday sunday entry = Returns true.
Proof.
  intros monday sunday date entry.
  assert (Hm : 0 <= day monday < 100) by (cbn; lia).
  assert (Hs : 0 <= day sunday < 100) by (cbn; lia).
  assert (Hd : 0 <= day date < 100) by (cbn; lia).
  repeat (split; [reflexivity|]).
  split; [exact Hm|]. split; [exact Hs|]. split; [exact Hd|].
  split; [reflexivity|].
  exact (weekly_filter_is_right_within_a_month monday sunday date entry
           eq_refl eq_refl eq_refl eq_refl Hm Hs Hd eq_refl).
Defined.

Section MonthEnd.

Lemma ascii_compare_N (a b : ascii) :
  Ascii.compare a b = N.compare (N_of_ascii a) (N_of_ascii b).
Proof. reflexivity. Qed.

Lemma ascii_compare_eq (a b : ascii) : Ascii.compare a b = Eq -> a = b.
Proof.
  rewrite ascii_compare_N. intros H. apply N.compare_eq in H.
  rewrite <- (ascii_N_embedding a), <- (ascii_N_embedding b). congruence.
Qed.

(** The order of Python strings is transitive. *)
Lemma leb_trans (s1 : string) :
  forall s2 s3,
  String.leb s1 s2 = true -> String.leb s2 s3 = true -> String.leb s1 s3 = true.
Proof.
  unfold String.leb.
  induction s1 as [|a s1 IH]; intros [|b s2] [|c s3]; cbn; try congruence.
  rewrite !ascii_compare_N.
  destruct (N.compare_spec (N_of_ascii a) (N_of_ascii b)) as [Hab | Hab | Hab];
    destruct (N.compare_spec (N_of_ascii b) (N_of_ascii c)) as [Hbc | Hbc | Hbc];
    try congruence;
    destruct (N.compare_spec (N_of_ascii a) (N_of_ascii c)) as [Hac | Hac | Hac];
    try congruence; try lia.
  apply IH.
Qed.

Lemma compare_prefix_decides (p q s1 s2 : string) :
  String.length p = String.length q ->
  String.compare p q <> Eq ->
  String.compare (p ++ s1) (q ++ s2) = String.compare p q.
Proof.
  revert q. induction p as [|a p IH]; intros [|b q] Hlen Hne; try discriminate.
  - cbn in Hne. congruence.
  - cbn in *. destruct (Ascii.compare a b); try reflexivity.
    apply IH; congruence.
Qed.

Lemma nothing_between (a b : Z) (s1 s2 x : string) :
  0 <= b < a -> a < 100 ->
  String.leb (pad2 a ++ s1) x && String.leb x (pad2 b ++ s2) = false.
Proof.
  intros Hb Ha.
  destruct (String.leb (pad2 a ++ s1) x) eqn:H1; [|reflexivity].
  destruct (String.leb x (pad2 b ++ s2)) eqn:H2; [|reflexivity].
  pose proof (leb_trans _ _ _ H1 H2) as H.
  destruct (pad2_orders a b ltac:(lia) ltac:(lia)) as [Hla Hcmp].
  destruct (pad2_orders b a ltac:(lia) ltac:(lia)) as [Hlb _].
  assert (Hgt : (a ?= b) = Gt) by (apply Z.compare_gt_iff; lia).
  unfold String.leb in H.
  rewrite compare_prefix_decides in H by congruence.
  rewrite Hcmp, Hgt in H. discriminate.
Qed.

(** Between two day-first dates whose days run backwards there is no text at
    all: the filter of lines 205-208 keeps nothing. *)
Lemma month_end_filter_keeps_nothing
  (start_of_week end_of_week : datetime) (entries kept : list value) :
  0 <= day end_of_week < day start_of_week ->
  day start_of_week < 100 ->
  filter_week start_of_week end_of_week entries = Returns kept ->
  kept = [].
Proof.
  intros Hend Hstart. revert kept.
  induction entries as [|entry rest IH]; intros kept H; cbn [filter_week] in H.
  - inversion H. reflexivity.
  - destruct (in_week start_of_week end_of_week entry) as [keep | e] eqn:Hin;
      [|discriminate].
    destruct (filter_week start_of_week end_of_week rest) as [kept' | e];
      [|discriminate].
    specialize (IH kept' eq_refl). subst kept'.
    assert (Hkeep : keep = false).
    { unfold in_week in Hin.
      destruct (getitem entry "date") as [d | e]; [|discriminate].
      unfold str_between in Hin. destruct d; try discriminate.
      unfold strftime_dmY in Hin. rewrite nothing_between in Hin by lia.
      inversion Hin. reflexivity. }
    subst keep. inversion H. reflexivity.
Qed.

(** X16.  For a week that runs over the end of a month (the Sunday's day of
    the month is smaller than the Monday's) the filter of lines 205-208 keeps
    no entry at all, whatever dates the stored entries carry. *)
Theorem week_over_a_month_end_exports_nothing
  (start_of_week end_of_week : datetime) (entries : list value) :
  0 <= day end_of_week < day start_of_week ->
  day start_of_week < 100 ->
  Forall dated entries ->
  filter_week start_of_week end_of_week entries = Returns [].
Proof.
  intros Hend Hstart Hdated.
  destruct (filter_week_returns start_of_week end_of_week entries Hdated)
    as [kept Hkept].
  rewrite Hkept. f_equal.
  exact (month_end_filter_keeps_nothing start_of_week end_of_week entries kept
           Hend Hstart Hkept).
Qed.

End MonthEnd.

Lemma week_over_a_month_end_exports_nothing_witness :
  let monday := mk_datetime 2024 1 29 12 0 0 0 in
  let sunday := mk_datetime 2024 2 4 12 0 0 0 in
  let entries := [entry_dated "30-01-2024"; entry_dated "02-02-2024"] in
  0 <= day sunday < day monday
  /\ day monday < 100
  /\ Forall dated entries
  /\ filter_week monday sunday entries = Returns [].
Proof.
  intros monday sunday entries.
  assert (He : 0 <= day sunday < day monday) by (cbn; lia).
  assert (Hm : day monday < 100) by (cbn; lia).
  assert (Hd : Forall dated entries)
    by (repeat constructor; eexists; reflexivity).
  split; [exact He|]. split; [exact Hm|]. split; [exact Hd|].
  exact (week_over_a_month_end_exports_nothing monday sunday entries He Hm Hd).
Defined.

(** ** The keyboard *)

Section Keyboard.
Variable env : Env.

Lemma list_set_some (l : list Z) (i : nat) (v : Z) :
  (i < List.length l)%nat ->
  exists l', Tty.list_set l i v = Some l' /\ List.length l' = List.length l.
Proof.
  revert i. induction l as [|x l IH]; intros i Hi; cbn in Hi; [lia|].
  destruct i as [|i]; cbn.
  - eexists. split; reflexivity.
  - destruct (IH i ltac:(lia)) as [l' [Hl Hlen]]. rewrite Hl.
    eexists. split; [reflexivity|]. cbn. congruence.
Qed.

Lemma raw_mode_some (w : World) :
  has_control_chars w = true -> exists raw, Tty.raw_mode (tty_attrs w) = Some raw.
Proof.
  unfold has_control_chars. intros H. apply Nat.leb_le in H.
  unfold Tty.raw_mode.
  destruct (list_set_some (Tty.cc (tty_attrs w)) Tty.VMIN 1) as [l1 [H1 Hlen1]];
    [unfold Tty.VMIN; lia|].
  rewrite H1.
  destruct (list_set_some l1 Tty.VTIME 0) as [l2 [H2 _]];
    [unfold Tty.VTIME; lia|].
  rewrite H2. eexists. reflexivity.
Qed.

Lemma keyboard_works_flags :
  keyboard_works env = true ->
  tcgetattr_fails env = false /\ setraw_fails env = false
  /\ stdin_read_fails env = false /\ restore_fails env = false.
Proof.
  unfold keyboard_works. intros H.
  apply andb_true_iff in H. destruct H as [H H4].
  apply andb_true_iff in H. destruct H as [H H3].
  apply andb_true_iff in H. destruct H as [H1 H2].
  apply negb_true_iff in H1, H2, H3, H4. auto.
Qed.

(** With a working keyboard [get_key_press] gives the next character that
    arrives and leaves the world as it was apart from that. *)
Lemma get_key_press_key (w : World) (c : ascii) (rest : string) :
  keyboard_works env = true ->
  has_control_chars w = true ->
  stdin w = String c rest ->
  get_key_press env w = (Returns (String c EmptyString), set_stdin rest w).
Proof.
  intros Hk Hcc Hin.
  destruct (keyboard_works_flags Hk) as [Hg [Hr [Hs Ht]]].
  destruct (raw_mode_some w Hcc) as [raw Hraw].
  unfold get_key_press, try_finally, setraw, stdin_read1, tcgetattr, tcsetattr.
  rewrite Hg, Hr, Hs, Ht. step_m. rewrite Hraw. cbn. rewrite Hin.
  destruct w; reflexivity.
Qed.

Lemma lower_key_is (k c : ascii) :
  String.eqb (lower (String c EmptyString)) (String k EmptyString) = is_key k c.
Proof.
  unfold is_key. cbn [lower String.eqb].
  destruct (Ascii.eqb (lower_ascii c) k); reflexivity.
Qed.

End Keyboard.

(** ** The loops *)

Section Loops.
Variable env : Env.

Lemma run_alone_finished (fuel : nat) (w : World) :
  run_alone fuel Finished w = (Finished, w).
Proof. induction fuel as [|fuel IH]; [reflexivity|]. cbn. exact IH. Qed.

Lemma stop_tracking_thread_finishes (manual : bool) (w : World) :
  fst (run_alone 6 (stop_tracking_thread env manual) w) = Finished.
Proof.
  unfold stop_tracking_thread, bind, get, ret, modify, print.
  cbn [run_alone step_thread fst].
  destruct (is_tracking w); cbn [negb run_alone step_thread fst]; [|reflexivity].
  destruct (stop_prepare env manual w) as [[entry | e] w1];
    cbn [run_alone step_thread fst]; [|reflexivity].
  destruct (append_time_entry env entry w1) as [[[] | e] w2];
    cbn [run_alone step_thread fst]; [|reflexivity].
  destruct (stop_notify env _) as [[[] | e] w3]; reflexivity.
Qed.

Lemma stop_tracking_thread_run (manual : bool) (w : World) :
  run_alone 6 (stop_tracking_thread env manual) w
  = (Finished, snd (stop_tracking env manual w)).
Proof.
  pose proof (stop_tracking_thread_finishes manual w) as Hf.
  pose proof (stop_tracking_thread_alone env manual w) as Hs.
  destruct (run_alone 6 (stop_tracking_thread env manual) w) as [t w'].
  cbn in Hf, Hs. subst. reflexivity.
Qed.

(** X18.  While a session runs, the listener thread reads and ignores every
    key that is not [d] or [D], and at the first [d] or [D] it finishes the
    session as [stop_tracking(manual=True)] does and ends, leaving the keys
    typed after it unread. *)
Theorem listen_for_stop_waits_for_d (keys : string) :
  forall (w : World) (k : ascii) (rest : string),
  keyboard_works env = true ->
  has_control_chars w = true ->
  is_tracking w = true ->
  stop_event w = false ->
  all_keys (fun c => negb (is_key "d" c)) keys = true ->
  is_key "d" k = true ->
  stdin w = keys ++ String k rest ->
  run_alone (2 * String.length keys + 8)
            (listen_for_stop_thread env (S (String.length keys))) w
  = (Finished, snd (stop_tracking env true (set_stdin rest w))).
Proof.
  induction keys as [|c keys IH]; intros w k rest Hk Hcc Ht Hs Hkeys Hd Hin.
  - cbn [String.length Nat.mul Nat.add append] in *.
    change (8%nat) with (S (S 6)).
    cbn [run_alone listen_for_stop_thread step_thread].
    unfold bind, get, ret. rewrite Ht, Hs. cbn [andb negb step_thread].
    rewrite (get_key_press_key env w k rest Hk Hcc Hin).
    change "d" with (String "d" EmptyString). rewrite lower_key_is, Hd.
    apply stop_tracking_thread_run.
  - cbn [all_keys] in Hkeys. apply andb_true_iff in Hkeys.
    destruct Hkeys as [Hc Hkeys]. apply negb_true_iff in Hc.
    cbn [append] in Hin.
    replace (2 * String.length (String c keys) + 8)%nat
      with (S (S (2 * String.length keys + 8))) by (cbn [String.length]; lia).
    cbn [String.length].
    remember (S (String.length keys)) as rounds eqn:Hrounds.
    cbn [run_alone listen_for_stop_thread step_thread].
    unfold bind, get, ret. rewrite Ht, Hs. cbn [andb negb step_thread].
    rewrite (get_key_press_key env w c _ Hk Hcc Hin).
    change "d" with (String "d" EmptyString). rewrite lower_key_is, Hc.
    subst rounds.
    rewrite (IH (set_stdin (keys ++ String k rest) w) k rest); try assumption;
      reflexivity.
Qed.

End Loops.

Lemma listen_for_stop_waits_for_d_witness :
  let start := mk_datetime 2024 1 30 9 0 0 0 in
  let env := quiet_env [] (mk_datetime 2024 1 30 17 0 0 0) in
  let w := set_stdin "abDx" (active_world start) in
  keyboard_works env = true
  /\ has_control_chars w = true
  /\ is_tracking w = true
  /\ stop_event w = false
  /\ all_keys (fun c => negb (is_key "d" c)) "ab" = true
  /\ is_key "d" "D" = true
  /\ stdin w = ("ab" ++ String "D" "x")%string
  /\ run_alone 12 (listen_for_stop_thread env 3) w
     = (Finished, snd (stop_tracking env true (set_stdin "x" w))).
Proof.
  intros start env w.
  do 7 (split; [reflexivity|]).
  exact (listen_for_stop_waits_for_d env "ab" w "D"%char "x"
           eq_refl eq_refl eq_refl eq_refl eq_refl eq_refl eq_refl).
Defined.

Section Prompt.
Variable env : Env.

(** Keys that are neither y nor n use up one round and one re-prompt each. *)
Lemma prompt_loop_skips (junk : string) :
  forall (w : World) (tail : string) (rounds : nat),
  keyboard_works env = true ->
  has_control_chars w = true ->
  all_keys (fun c => negb (is_key "y" c) && negb (is_key "n" c)) junk = true ->
  stdin w = junk ++ tail ->
  prompt_loop env (String.length junk + rounds) w
  = prompt_loop env rounds (reprompted (String.length junk) (set_stdin tail w)).
Proof.
  induction junk as [|c junk IH]; intros w tail rounds Hk Hcc Hjunk Hin.
  - cbn [String.length Nat.add append] in *. unfold reprompted. cbn [repeat].
    rewrite app_nil_r. rewrite <- Hin. destruct w; reflexivity.
  - cbn [all_keys] in Hjunk. apply andb_true_iff in Hjunk.
    destruct Hjunk as [Hc Hjunk]. apply andb_true_iff in Hc.
    destruct Hc as [Hy Hn]. apply negb_true_iff in Hy, Hn.
    cbn [append] in Hin. cbn [String.length Nat.add prompt_loop].
    unfold bind at 1. rewrite (get_key_press_key env w c _ Hk Hcc Hin).
    change "y" with (String "y" EmptyString).
    change "n" with (String "n" EmptyString).
    rewrite !lower_key_is, Hy, Hn.
    unfold bind at 1. unfold print, modify. cbn beta iota.
    rewrite (IH _ tail rounds Hk); [|exact Hcc|exact Hjunk|reflexivity].
    f_equal. unfold reprompted. cbn [repeat stdout set_stdout set_stdin].
    rewrite <- app_assoc. reflexivity.
Qed.

(** X19.  The start-up prompt of [main] answers every key other than [y],
    [Y], [n] and [N] with the same reminder and reads on; the first [y] or [Y]
    starts the session, the first [n] or [N] prints and logs the refusal and
    exits.  Keys typed after the answer are left unread. *)
Theorem prompt_loop_waits_for_y_or_n (junk : string) (k : ascii) (rest : string)
  (w : World) :
  keyboard_works env = true ->
  has_control_chars w = true ->
  all_keys (fun c => negb (is_key "y" c) && negb (is_key "n" c)) junk = true ->
  stdin w = junk ++ String k rest ->
  let w1 := reprompted (String.length junk) (set_stdin rest w) in
  (is_key "y" k = true ->
   prompt_loop env (S (String.length junk)) w
   = (start_tracking env ;; ret Started) w1)
  /\ (is_key "n" k = true ->
      prompt_loop env (S (String.length junk)) w
      = (print (nl ++ "Tidsregistrering afbrudt.") ;;
         log env "Tidsregistrering afbrudt af bruger." ;;
         ret Declined) w1).
Proof.
  intros Hk Hcc Hjunk Hin w1.
  assert (Hskip : prompt_loop env (S (String.length junk)) w
                  = prompt_loop env 1
                      (reprompted (String.length junk)
                                  (set_stdin (String k rest) w))).
  { replace (S (String.length junk)) with (String.length junk + 1)%nat by lia.
    apply prompt_loop_skips; assumption. }
  rewrite Hskip. cbn [prompt_loop].
  assert (Hkey : get_key_press env
                   (reprompted (String.length junk) (set_stdin (String k rest) w))
                 = (Returns (String k EmptyString), w1)).
  { rewrite (get_key_press_key env _ k rest Hk); [reflexivity|exact Hcc|reflexivity]. }
  split; intros Hdecide.
  - unfold bind at 1. rewrite Hkey.
    change "y" with (String "y" EmptyString). rewrite lower_key_is, Hdecide.
    reflexivity.
  - assert (Hy : is_key "y" k = false).
    { unfold is_key in *. apply Ascii.eqb_eq in Hdecide. rewrite Hdecide.
      reflexivity. }
    unfold bind at 1. rewrite Hkey.
    change "y" with (String "y" EmptyString).
    change "n" with (String "n" EmptyString).
    rewrite !lower_key_is, Hy, Hdecide. reflexivity.
Qed.

End Prompt.

Lemma prompt_loop_waits_for_y_or_n_witness :
  let env := quiet_env [] (mk_datetime 2024 1 30 9 0 0 0) in
  let w := set_stdin "abYn" fresh_world in
  let w1 := reprompted 2 (set_stdin "n" w) in
  keyboard_works env = true
  /\ has_control_chars w = true
  /\ all_keys (fun c => negb (is_key "y" c) && negb (is_key "n" c)) "ab" = true
  /\ stdin w = ("ab" ++ String "Y" "n")%string
  /\ is_key "y" "Y" = true
  /\ prompt_loop env 3 w = (start_tracking env ;; ret Started) w1.
Proof.
  intros env w w1.
  repeat (split; [reflexivity|]).
  exact (proj1 (prompt_loop_waits_for_y_or_n env "ab" "Y"%char "n" w
                  eq_refl eq_refl eq_refl eq_refl) eq_refl).
Defined.

Section Display.
Variable env : Env.

Lemma same_but_output_refl (w : World) : same_but_output w w.
Proof. unfold same_but_output. repeat split. Qed.

Lemma same_but_output_trans (w1 w2 w3 : World) :
  same_but_output w1 w2 -> same_but_output w2 w3 -> same_but_output w1 w3.
Proof.
  unfold same_but_output. intros H12 H23.
  repeat match goal with H : _ /\ _ |- _ => destruct H end.
  repeat split; congruence.
Qed.

(** X20.  The display thread only prints: however long it runs, alone, the
    world differs from the one it started in by the terminal output and the
    number of clock readings at most; session state, timers, threads, files,
    log, terminal settings and pending input are the same. *)
Theorem display_timer_only_prints (fuel : nat) :
  forall (rounds : nat) (w : World),
  same_but_output w (snd (run_alone fuel (display_timer_thread env rounds) w)).
Proof.
  induction fuel as [|fuel IH]; intros rounds w; [apply same_but_output_refl|].
  destruct rounds as [|rounds].
  - cbn [display_timer_thread]. rewrite run_alone_finished.
    apply same_but_output_refl.
  - cbn [run_alone display_timer_thread step_thread].
    unfold bind, get, ret, lift, datetime_now, print, modify.
    destruct (is_tracking w && negb (stop_event w)).
    + cbn [start_time set_ticks].
      destruct (start_time w) as [start|]; cbn [of_option].
      * destruct (duration_hms start (clock env (ticks w)))
          as [[hours minutes] seconds].
        eapply same_but_output_trans; [|apply IH].
        unfold same_but_output. repeat split.
      * rewrite run_alone_finished. unfold same_but_output. repeat split.
    + rewrite run_alone_finished. apply same_but_output_refl.
Qed.

End Display.

(** ** The export beside the session *)

Section ExportFrame.
Variable env : Env.

Lemma write_entries_keeps_session (path : string) (entries : list value) :
  preserves session_and_records (write_entries path entries).
Proof.
  induction entries as [|entry rest IH]; cbn [write_entries]; [auto with frame|].
  apply preserves_bind; [auto with frame|]. intros row.
  apply preserves_bind; [auto 10 with frame|]. intros _. exact IH.
Qed.

Lemma schedule_weekly_csv_keeps_session :
  preserves session_and_records (schedule_weekly_csv env).
Proof.
  unfold schedule_weekly_csv.
  apply preserves_bind; [auto with frame|]. intros now.
  apply preserves_bind; [auto with frame|]. intros next_run.
  apply preserves_bind; [intros w; reflexivity|]. intros _.
  auto 20 with frame.
Qed.

(** X21.  The weekly export, however it ends, leaves the session, the
    threads, the store file, the master CSV file and the terminal exactly as
    they were: it reads the store and writes only its own weekly file, the
    log, the screen and the next timer. *)
Theorem weekly_export_keeps_session_and_records (w : World) :
  session_and_records (snd (generate_weekly_csv env w)) = session_and_records w.
Proof.
  revert w. change (preserves session_and_records (generate_weekly_csv env)).
  unfold generate_weekly_csv.
  apply preserves_bind; [auto with frame|]. intros now.
  apply preserves_bind; [auto with frame|]. intros [start_of_week end_of_week].
  apply preserves_bind.
  { intros w. rewrite load_time_entries_world. reflexivity. }
  intros loaded.
  apply preserves_bind; [auto with frame|]. intros entries.
  apply preserves_bind; [auto with frame|]. intros weekly_entries.
  apply preserves_bind; [|intros _; apply schedule_weekly_csv_keeps_session].
  destruct weekly_entries as [|entry rest]; [auto 20 with frame|].
  apply preserves_try_except; [|intros e; auto 20 with frame].
  apply preserves_bind; [auto 20 with frame|]. intros _.
  apply preserves_bind; [auto 20 with frame|]. intros _.
  apply preserves_bind; [apply write_entries_keeps_session|]. intros _.
  auto 20 with frame.
Qed.

End ExportFrame.

(** ** The automatic stop *)

Section AutoStop.

(** X22.  A session that is ended when the auto-stop timer of [MAX_DURATION]
    fires, at any instant of the minute that follows the 7 hours 40 minutes,
    is recorded with the duration [7h40m]. *)
Theorem auto_stopped_session_is_recorded_as_7h40m (start end_time : datetime) :
  MAX_DURATION <= datetime_diff end_time start < MAX_DURATION + 60 * US_PER_SECOND ->
  getitem (session_entry start end_time) "duration" = Returns (JStr "7h40m").
Proof.
  intros H.
  change MAX_DURATION with 27600000000 in H.
  change US_PER_SECOND with 1000000 in H.
  rewrite session_entry_fields by (change (2 ^ 53) with 9007199254740992; lia).
  cbv zeta. change US_PER_SECOND with 1000000.
  assert (Hq : 27600 <= datetime_diff end_time start / 1000000 < 27660).
  { split; [apply Z.div_le_lower_bound | apply Z.div_lt_upper_bound]; lia. }
  set (total := datetime_diff end_time start / 1000000) in *.
  assert (Hh : total / 3600 = 7) by (symmetry; apply (Z.div_unique _ _ _ (total - 25200)); lia).
  assert (Hm : total mod 3600 / 60 = 40).
  { assert (Hr : total mod 3600 = total - 25200)
      by (symmetry; apply (Z.mod_unique _ _ 7); lia).
    rewrite Hr. symmetry. apply (Z.div_unique _ _ _ (total - 27600)); lia. }
  rewrite Hh, Hm. reflexivity.
Qed.

End AutoStop.

Lemma auto_stopped_session_is_recorded_as_7h40m_witness :
  let start := mk_datetime 2024 1 30 9 0 0 0 in
  let end_time := mk_datetime 2024 1 30 16 40 0 250000 in
  MAX_DURATION <= datetime_diff end_time start < MAX_DURATION + 60 * US_PER_SECOND
  /\ getitem (session_entry start end_time) "duration" = Returns (JStr "7h40m").
Proof.
  intros start end_time.
  assert (Hrange : MAX_DURATION <= datetime_diff end_time start
                   < MAX_DURATION + 60 * US_PER_SECOND)
    by (split; [apply Z.leb_le | apply Z.ltb_lt]; reflexivity).
  split; [exact Hrange|].
  exact (auto_stopped_session_is_recorded_as_7h40m start end_time Hrange).
Defined.

(** ** Start-up *)

Section Startup.
Variable env : Env.

(** X23.  Start-up of [main] answered with [y] or [Y], after any number of
    other keys: the weekly export is scheduled first, then the session starts,
    so that the process ends up with exactly two new timers in this order
    (the weekly export, then the auto-stop of [MAX_DURATION]), the display and
    the listener threads, the start time taken at the third clock reading,
    and the keys typed after the answer still unread. *)
Theorem main_startup_starts_the_session (junk : string) (k : ascii) (rest : string)
  (w : World) :
  schedulable (clock env (ticks w)) ->
  log_write_fails env = false ->
  keyboard_works env = true ->
  has_control_chars w = true ->
  is_tracking w = false ->
  all_keys (fun c => negb (is_key "y" c) && negb (is_key "n" c)) junk = true ->
  is_key "y" k = true ->
  stdin w = junk ++ String k rest ->
  exists delay w',
    main_startup env (S (String.length junk)) w = (Returns Started, w')
    /\ is_tracking w' = true
    /\ start_time w' = Some (clock env (S (S (ticks w))))
    /\ timers w' = (timers w ++ [mk_Timer delay GenerateWeeklyCsv false true;
                                 mk_Timer MAX_DURATION AutoStop false true])%list
    /\ auto_stop_timer w' = Some (S (List.length (timers w)))
    /\ threads w' = (threads w ++ [DisplayTimer; ListenForStop])%list
    /\ stdin w' = rest.
Proof.
  intros Hs Hlog Hkb Hcc Hidle Hjunk Hk Hin.
  destruct (schedule_weekly_csv_effect env w Hs Hlog)
    as [next_run [_ [_ [_ [_ [_ [_ [_ Hrun]]]]]]]].
  cbv zeta in Hrun.
  unfold main_startup. unfold bind at 1. rewrite Hrun.
  unfold bind at 1. unfold print at 1. unfold modify at 1.
  match goal with |- context [prompt_loop env _ ?w0] => set (w2 := w0) end.
  replace (S (String.length junk)) with (String.length junk + 1)%nat by lia.
  rewrite (prompt_loop_skips env junk w2 (String k rest) 1%nat Hkb Hcc Hjunk Hin).
  match goal with |- context [prompt_loop env _ ?w0] => set (w3 := w0) end.
  cbn [prompt_loop]. unfold bind at 1.
  rewrite (get_key_press_key env w3 k rest Hkb Hcc eq_refl).
  rewrite lower_key_is, Hk.
  unfold start_tracking, log, datetime_now, start_timer, start_thread.
  step_m. cbn [is_tracking set_stdin w3 reprompted set_stdout w2 set_log_file
               set_ticks set_timers].
  rewrite Hidle, Hlog. cbn.
  exists (datetime_diff next_run (clock env (ticks w))). eexists.
  split; [reflexivity|]. cbn.
  rewrite List.length_app, <- !app_assoc. cbn.
  replace (List.length (timers w) + 1)%nat with (S (List.length (timers w))) by lia.
  repeat split.
Qed.

End Startup.

Lemma main_startup_starts_the_session_witness :
  let env := quiet_env [] (mk_datetime 2024 1 31 9 0 0 0) in
  let w := set_stdin "abYn" fresh_world in
  schedulable (clock env (ticks w))
  /\ log_write_fails env = false
  /\ keyboard_works env = true
  /\ has_control_chars w = true
  /\ is_tracking w = false
  /\ all_keys (fun c => negb (is_key "y" c) && negb (is_key "n" c)) "ab" = true
  /\ is_key "y" "Y" = true
  /\ stdin w = ("ab" ++ String "Y" "n")%string
  /\ exists delay w',
       main_startup env 3 w = (Returns Started, w')
       /\ is_tracking w' = true
       /\ start_time w' = Some (clock env (S (S (ticks w))))
       /\ timers w' = (timers w ++ [mk_Timer delay GenerateWeeklyCsv false true;
                                    mk_Timer MAX_DURATION AutoStop false true])%list
       /\ auto_stop_timer w' = Some (S (List.length (timers w)))
       /\ threads w' = (threads w ++ [DisplayTimer; ListenForStop])%list
       /\ stdin w' = "n"%string.
Proof.
  intros env w.
  assert (Hs : schedulable (clock env (ticks w)))
    by (split; [reflexivity | apply Z.leb_le; reflexivity]).
  split; [exact Hs|].
  do 7 (split; [reflexivity|]).
  exact (main_startup_starts_the_session env "ab" "Y"%char "n" w
           Hs eq_refl eq_refl eq_refl eq_refl eq_refl eq_refl eq_refl).
Defined.
